(** * FastRoom: the WebSocket connection and presence engine

    A shallow embedding of [fast_room_api/api/routers/ws.py]: the
    [ConnectionManager] class, [ensure_room_and_membership] and the frame
    loop of [websocket_endpoint], run against the repository's own
    in-memory stand-in for Redis ([FakeRedis] of [tests/conftest.py]) and
    a small relational model of the four ORM tables the loop touches.

    Conventions.
    - A [WebSocket] object is known by its identity, a [nat].
    - Python [dict]s are [gmap]s, Python [set]s are [gset]s; a
      [defaultdict(set)] is read with a default of [∅].
    - Everything a peer or the bus can observe ([send_json],
      [redis.publish]) is appended, in program order, to one trace.
    - [uuid.uuid4().hex] draws from a source of strings carried by the
      world; the wall-clock [ts] that pydantic stamps on outgoing models
      by default is not part of a payload here, a [ts] passed explicitly
      (history rows) is.
    - Awaited calls do not fail and no key expires: infrastructure
      failures and the expiry of keys are outside this development. *)

From Stdlib Require Import ZArith QArith Ascii String.
From stdpp Require Import gmap strings list fin_maps sorting pretty.

Open Scope Z_scope.

(** ** Python string operations used by the module *)

Module Py.

(** [s.startswith(prefix)] *)
Fixpoint startswith (s prefix : string) {struct prefix} : bool :=
  match prefix, s with
  | EmptyString, _ => true
  | String p prefix', String c s' => Ascii.eqb c p && startswith s' prefix'
  | String _ _, EmptyString => false
  end.

(** [s.endswith(c)] for a one-character suffix [c]. *)
Fixpoint endswith (s : string) (c : ascii) : bool :=
  match s with
  | EmptyString => false
  | String a EmptyString => Ascii.eqb a c
  | String _ s' => endswith s' c
  end.

(** The slice [s[:-1]]. *)
Fixpoint but_last (s : string) : string :=
  match s with
  | EmptyString => EmptyString
  | String _ EmptyString => EmptyString
  | String a s' => String a (but_last s')
  end.

(** [s.split(sep)] for a one-character separator: never empty, and
    [''.split(':') == ['']]. *)
Fixpoint split (s : string) (sep : ascii) : list string :=
  match s with
  | EmptyString => [EmptyString]
  | String c s' =>
      if Ascii.eqb c sep then EmptyString :: split s' sep
      else match split s' sep with
           | p :: ps => String c p :: ps
           | [] => [String c EmptyString]
           end
  end.

(** Truthiness of a [str]: [bool(s)], [if s:], [if not s:]. *)
Definition truthy (s : string) : bool :=
  match s with EmptyString => false | _ => true end.

(** Truthiness of a [list]: [if keys:], [if rows:]. *)
Definition list_truthy {A} (l : list A) : bool :=
  match l with [] => false | _ :: _ => true end.

(** [c in s] for a character [c]. *)
Fixpoint contains (s : string) (c : ascii) : bool :=
  match s with
  | EmptyString => false
  | String a s' => Ascii.eqb a c || contains s' c
  end.

End Py.

(** ** tests/conftest.py: FakeRedis *)

Module FakeRedis.

(** [_data] is the key space; the TTL that [psetex] receives is kept
    beside the value (the stand-in drops it and never expires a key).
    [_subscribed] is the channel set of the one [_FakePubSub]. *)
Record t := mk {
  _data : gmap string (string * Z);
  _subscribed : gset string
}.

Definition empty : t := mk ∅ ∅.

Definition psetex (key : string) (ttl_ms : Z) (value : string) (r : t) : t :=
  mk (<[key := (value, ttl_ms)]> (_data r)) (_subscribed r).

Definition delete (key : string) (r : t) : t :=
  mk (base.delete key (_data r)) (_subscribed r).

Definition keys (r : t) : list string := (map_to_list (_data r)).*1.

(** [scan]: "naive pattern: match must be prefix*"; one pass, so the
    cursor that comes back is always 0. *)
Definition scan (r : t) (cursor : Z) (match_ : string) (count : Z)
  : Z * list string :=
  let prefix :=
    if Py.endswith match_ "*" then Py.but_last match_ else match_ in
  (0, filter (λ k, Is_true (Py.startswith k prefix)) (keys r)).

Definition subscribe (channel : string) (r : t) : t :=
  mk (_data r) ({[channel]} ∪ _subscribed r).

Definition unsubscribe (channel : string) (r : t) : t :=
  mk (_data r) (_subscribed r ∖ {[channel]}).

End FakeRedis.

(** ** models/db.py: the ORM tables behind the frame loop

    Only the columns that [ws.py] reads or writes are kept. Primary keys
    are autoincrement integers: a new row takes the largest id in its
    table plus one. *)

Record UserORM := mkUserORM {
  UserORM_id : Z;
  UserORM_username : string;
  UserORM_disabled : bool
}.

Record RoomORM := mkRoomORM {
  RoomORM_id : Z;
  RoomORM_name : string;
  RoomORM_is_private : bool
}.

Record RoomMemberORM := mkRoomMemberORM {
  RoomMemberORM_id : Z;
  RoomMemberORM_room_id : Z;
  RoomMemberORM_user_id : Z;
  RoomMemberORM_is_moderator : bool;
  RoomMemberORM_is_banned : bool;
  RoomMemberORM_is_muted : bool
}.

Record MessageORM := mkMessageORM {
  MessageORM_id : Z;
  MessageORM_room_id : Z;
  MessageORM_user_id : option Z;
  MessageORM_content : string;
  MessageORM_is_deleted : bool;
  MessageORM_created_at : Z
}.

(** The session [db]: four tables and the database clock. [now] is what
    [func.now()] gives the next message row as its [created_at]; the
    clock has moved on when the row after it is stored. *)
Record Database := mkDatabase {
  users : list UserORM;
  room_rows : list RoomORM;
  room_members : list RoomMemberORM;
  messages : list MessageORM;
  now : Z
}.

Definition next_id (ids : list Z) : Z := 1 + foldr Z.max 0 ids.

(** [select(RoomORM).where(RoomORM.name == room)] then [.scalars().first()] *)
Definition select_room (d : Database) (room : string) : option RoomORM :=
  List.find (λ r, String.eqb (RoomORM_name r) room) (room_rows d).

(** [select(RoomMemberORM).where(room_id == .., user_id == ..)] then [.first()] *)
Definition select_member (d : Database) (room_id user_id : Z)
  : option RoomMemberORM :=
  List.find (λ m, (RoomMemberORM_room_id m =? room_id)
                  && (RoomMemberORM_user_id m =? user_id)) (room_members d).

(** The outer join of a message with [UserORM.username]: [None] when the
    author is null or gone. *)
Definition username_of (d : Database) (uid : option Z) : option string :=
  match uid with
  | None => None
  | Some i =>
      UserORM_username <$> List.find (λ u, UserORM_id u =? i) (users d)
  end.

(** [order_by(desc(MessageORM.created_at))] *)
Definition newer_first : relation MessageORM :=
  λ a b, MessageORM_created_at b ≤ MessageORM_created_at a.

#[global] Instance newer_first_dec : RelDecision newer_first.
Proof. intros a b. unfold newer_first. apply _. Defined.

Definition HISTORY_LIMIT : Z := 50.

(** The history statement of the join handler (room filter, newest first,
    [HISTORY_LIMIT] rows), each row paired with its author's name. *)
Definition history_rows (d : Database) (room_id : Z)
  : list (MessageORM * option string) :=
  (λ m, (m, username_of d (MessageORM_user_id m))) <$>
  take (Z.to_nat HISTORY_LIMIT)
    (merge_sort newer_first
       (List.filter (λ m, MessageORM_room_id m =? room_id) (messages d))).

(** The statement of [history_more]: as above, with [id < before_id]. *)
Definition history_rows_before (d : Database) (room_id before_id : Z)
  : list (MessageORM * option string) :=
  (λ m, (m, username_of d (MessageORM_user_id m))) <$>
  take (Z.to_nat HISTORY_LIMIT)
    (merge_sort newer_first
       (List.filter (λ m, (MessageORM_room_id m =? room_id)
                          && (MessageORM_id m <? before_id)) (messages d))).

(** ** ensure_room_and_membership *)
Definition ensure_room_and_membership (d : Database) (room : string)
    (user : UserORM) : RoomORM * Database :=
  let '(room_obj, d1) :=
    match select_room d room with
    | Some r => (r, d)
    | None =>
        let r := mkRoomORM (next_id (RoomORM_id <$> room_rows d)) room false in
        (r, mkDatabase (users d) (room_rows d ++ [r]) (room_members d)
              (messages d) (now d))
    end in
  match select_member d1 (RoomORM_id room_obj) (UserORM_id user) with
  | Some _ => (room_obj, d1)
  | None =>
      let m := mkRoomMemberORM (next_id (RoomMemberORM_id <$> room_members d1))
                 (RoomORM_id room_obj) (UserORM_id user) false false false in
      (room_obj, mkDatabase (users d1) (room_rows d1) (room_members d1 ++ [m])
                   (messages d1) (now d1))
  end.

(** [db.add(MessageORM(room_id=.., user_id=.., content=..))], flush, commit.
    The INSERT takes [created_at] from [server_default=func.now()]; every
    INSERT is stamped later than the one before it. *)
Definition add_message (d : Database) (room_id user_id : Z) (content : string)
  : MessageORM * Database :=
  let m := mkMessageORM (next_id (MessageORM_id <$> messages d)) room_id
             (Some user_id) content false (now d) in
  (m, mkDatabase (users d) (room_rows d) (room_members d) (messages d ++ [m])
        (now d + 1)).

(** ** models/ws.py: outgoing payloads

    [OutChatMessage] keeps [ts] only where the caller passes it (history
    rows pass the row's [created_at]); elsewhere it is the default stamp
    and is [None] here. *)
Module OutChatMessage.
Record t := mk {
  room : string;
  user : string;
  message : string;
  message_id : option Z;
  ts : option Z
}.
End OutChatMessage.

Inductive frame :=
  | error (message : string)             (* {"type": "error", "message": ..} *)
  | joined (room : string)               (* {"type": "joined", "room": ..} *)
  | history (room : string) (messages : list OutChatMessage.t)
  | history_more (room : string) (messages : list OutChatMessage.t) (more : bool)
  | pong
  | OutPresenceState (room : string) (users : list string)
  | OutPresenceDiff (room : string) (join leave : list string)
  | OutSystemMessage (room message : string)
  | OutChat (m : OutChatMessage.t)
  | OutTypingMessage (room user : string) (isTyping : bool).

(** What leaves the process: a frame put on a socket, or a payload put on
    a bus channel with the origin tag [srv] that [publish] adds. *)
Inductive event :=
  | Sent (ws : nat) (data : frame)
  | Published (channel srv : string) (data : frame).

(** ** Incoming frames: the result of [json.loads] *)
#[local] Unset Elimination Schemes.
Inductive json :=
  | JNull
  | JBool (b : bool)
  | JInt (n : Z)
  | JFloat (q : Q)
  | JStr (s : string)
  | JList (l : list json)
  | JDict (d : list (string * json)).
#[local] Set Elimination Schemes.

(** [msg.get(key)]: [None] (here [JNull]) when the key is absent. *)
Definition msg_get (msg : gmap string json) (key : string) : json :=
  default JNull (msg !! key).

(** [bool(v)] *)
Definition json_truthy (v : json) : bool :=
  match v with
  | JNull => false
  | JBool b => b
  | JInt n => negb (n =? 0)
  | JFloat q => negb (Qeq_bool q 0)
  | JStr s => Py.truthy s
  | JList l => Py.list_truthy l
  | JDict d => Py.list_truthy d
  end.

(** [isinstance(v, int)] with the value it compares as: [bool] is a
    subclass of [int]. *)
Definition json_int (v : json) : option Z :=
  match v with
  | JInt n => Some n
  | JBool b => Some (if b then 1 else 0)
  | _ => None
  end.

(** ** ws.py: module constants and the state of one server process *)

Definition CHANNEL_PREFIX : string := "room:".
Definition HEARTBEAT_KEY_PREFIX : string := "presence:hb:".

(** The constants read from [os.environ] at import time. *)
Record Settings := mkSettings {
  SERVER_ID : string;
  HEARTBEAT_INTERVAL : Z;   (* seconds *)
  HEARTBEAT_TTL_MS : Z      (* milliseconds *)
}.

(** The values taken when the two heartbeat variables are unset:
    [WS_HEARTBEAT_INTERVAL] defaults to "25" and [WS_HEARTBEAT_TTL_MS] to
    [(HEARTBEAT_INTERVAL + 5) * 1000]. *)
Definition default_settings (server_id : string) : Settings :=
  let interval := 25 in mkSettings server_id interval ((interval + 5) * 1000).

(** The attributes of [ConnectionManager.__init__]. A heartbeat task is
    represented by the key its closure captured ([hb_key]). *)
Record ConnectionManager := mkConnectionManager {
  rooms : gmap string (gset nat);
  conn_rooms : gmap nat (gset string);
  ws_username : gmap nat string;
  room_subscribed : gset string;
  pubsub_task : bool;
  heartbeat_tasks : gmap (nat * string) string;
  ws_conn_id : gmap nat string
}.

Definition new_manager : ConnectionManager :=
  mkConnectionManager ∅ ∅ ∅ ∅ false ∅ ∅.

Record World := mkWorld {
  settings : Settings;
  manager : ConnectionManager;
  redis : FakeRedis.t;
  db : Database;
  trace : list event;
  uuid_source : nat → string;   (* the successive values of uuid4().hex *)
  uuid_drawn : nat
}.

(** A state monad over the world, with stdpp's [x ← m; k] notation. *)
Definition M (A : Type) : Type := World → A * World.

#[global] Instance M_ret : MRet M := λ A a w, (a, w).
#[global] Instance M_bind : MBind M :=
  λ A B f m w, let '(a, w') := m w in f a w'.

Definition gets {A} (f : World → A) : M A := λ w, (f w, w).
Definition modify (f : World → World) : M unit := λ w, ((), f w).

Definition set_manager (f : ConnectionManager → ConnectionManager) : M unit :=
  modify (λ w, mkWorld (settings w) (f (manager w)) (redis w) (db w) (trace w)
                 (uuid_source w) (uuid_drawn w)).
Definition set_redis (f : FakeRedis.t → FakeRedis.t) : M unit :=
  modify (λ w, mkWorld (settings w) (manager w) (f (redis w)) (db w) (trace w)
                 (uuid_source w) (uuid_drawn w)).
Definition set_db (d : Database) : M unit :=
  modify (λ w, mkWorld (settings w) (manager w) (redis w) d (trace w)
                 (uuid_source w) (uuid_drawn w)).
Definition emit (e : event) : M unit :=
  modify (λ w, mkWorld (settings w) (manager w) (redis w) (db w)
                 (trace w ++ [e]) (uuid_source w) (uuid_drawn w)).

(** [uuid.uuid4().hex] *)
Definition uuid4_hex : M string :=
  λ w, (uuid_source w (uuid_drawn w),
        mkWorld (settings w) (manager w) (redis w) (db w) (trace w)
          (uuid_source w) (S (uuid_drawn w))).

(** [await ws.send_json(data)] *)
Definition send_json (ws : nat) (data : frame) : M unit := emit (Sent ws data).

(** [for x in xs: body(x)] *)
Fixpoint for_ {A} (xs : list A) (body : A → M unit) : M unit :=
  match xs with
  | [] => mret ()
  | x :: xs' => body x ;; for_ xs' body
  end.

(** [if c: body] *)
Definition when (c : bool) (body : M unit) : M unit :=
  if c then body else mret ().

(** Truthiness of a [str | None]. *)
Definition opt_truthy (s : option string) : bool :=
  match s with Some s => Py.truthy s | None => false end.

(** [set(...)] read out of a [defaultdict]/[dict.get] with default. *)
Definition members (m : ConnectionManager) (room : string) : gset nat :=
  default ∅ (rooms m !! room).
Definition rooms_of (m : ConnectionManager) (ws : nat) : gset string :=
  default ∅ (conn_rooms m !! ws).

(** [list(manager.rooms.get(room, []))] *)
Definition peers (room : string) : M (list nat) :=
  gets (λ w, elements (members (manager w) room)).

(** Field updates of the manager. *)
Definition upd_rooms (f : gmap string (gset nat) → gmap string (gset nat))
    (m : ConnectionManager) : ConnectionManager :=
  mkConnectionManager (f (rooms m)) (conn_rooms m) (ws_username m)
    (room_subscribed m) (pubsub_task m) (heartbeat_tasks m) (ws_conn_id m).
Definition upd_conn_rooms (f : gmap nat (gset string) → gmap nat (gset string))
    (m : ConnectionManager) : ConnectionManager :=
  mkConnectionManager (rooms m) (f (conn_rooms m)) (ws_username m)
    (room_subscribed m) (pubsub_task m) (heartbeat_tasks m) (ws_conn_id m).
Definition upd_ws_username (f : gmap nat string → gmap nat string)
    (m : ConnectionManager) : ConnectionManager :=
  mkConnectionManager (rooms m) (conn_rooms m) (f (ws_username m))
    (room_subscribed m) (pubsub_task m) (heartbeat_tasks m) (ws_conn_id m).
Definition upd_room_subscribed (f : gset string → gset string)
    (m : ConnectionManager) : ConnectionManager :=
  mkConnectionManager (rooms m) (conn_rooms m) (ws_username m)
    (f (room_subscribed m)) (pubsub_task m) (heartbeat_tasks m) (ws_conn_id m).
Definition upd_pubsub_task (b : bool) (m : ConnectionManager)
  : ConnectionManager :=
  mkConnectionManager (rooms m) (conn_rooms m) (ws_username m)
    (room_subscribed m) b (heartbeat_tasks m) (ws_conn_id m).
Definition upd_heartbeat_tasks
    (f : gmap (nat * string) string → gmap (nat * string) string)
    (m : ConnectionManager) : ConnectionManager :=
  mkConnectionManager (rooms m) (conn_rooms m) (ws_username m)
    (room_subscribed m) (pubsub_task m) (f (heartbeat_tasks m)) (ws_conn_id m).
Definition upd_ws_conn_id (f : gmap nat string → gmap nat string)
    (m : ConnectionManager) : ConnectionManager :=
  mkConnectionManager (rooms m) (conn_rooms m) (ws_username m)
    (room_subscribed m) (pubsub_task m) (heartbeat_tasks m) (f (ws_conn_id m)).

(** [f"{HEARTBEAT_KEY_PREFIX}{room}:{username}:*"] *)
Definition pattern_user (room username : string) : string :=
  HEARTBEAT_KEY_PREFIX +:+ room +:+ ":" +:+ username +:+ ":*".

(** [f"{HEARTBEAT_KEY_PREFIX}{room}:*"] *)
Definition pattern_room (room : string) : string :=
  HEARTBEAT_KEY_PREFIX +:+ room +:+ ":*".

(** The scan loop of [join] and [leave]:
    [while True: cursor, keys = scan(..); if keys: found; break;
    if cursor == 0: break]. [FakeRedis.scan] answers cursor 0, so the
    body runs once and the loop ends on one of its two [break]s. *)
Definition scan_any (pattern : string) : M bool :=
  gets (λ w, let '(cursor, keys) := FakeRedis.scan (redis w) 0 pattern 50 in
             Py.list_truthy keys).

(** ** class ConnectionManager *)

Module ConnectionManager.

Definition ensure_pubsub_task : M unit :=
  set_manager (upd_pubsub_task true).

Definition subscribe_room (room : string) : M unit :=
  m ← gets manager;
  if decide (room ∈ room_subscribed m) then mret ()
  else
    set_redis (FakeRedis.subscribe (CHANNEL_PREFIX +:+ room));;
    set_manager (upd_room_subscribed (λ s, s ∪ {[room]}));;
    ensure_pubsub_task.

Definition unsubscribe_room_if_empty (room : string) : M unit :=
  m ← gets manager;
  if decide (room ∈ room_subscribed m ∧ members m room = ∅) then
    set_redis (FakeRedis.unsubscribe (CHANNEL_PREFIX +:+ room));;
    set_manager (upd_room_subscribed (λ s, s ∖ {[room]}))
  else mret ().

Definition in_room (ws : nat) (room : string) : M bool :=
  gets (λ w, bool_decide (room ∈ rooms_of (manager w) ws)).

Definition publish (room : string) (data : frame) : M unit :=
  srv ← gets (λ w, SERVER_ID (settings w));
  emit (Published (CHANNEL_PREFIX +:+ room) srv data).

Definition _heartbeat_key (room username conn_id : string) : string :=
  HEARTBEAT_KEY_PREFIX +:+ room +:+ ":" +:+ username +:+ ":" +:+ conn_id.

Definition _start_heartbeat (room : string) (ws : nat) (username : string)
  : M unit :=
  m ← gets manager;
  if decide (is_Some (heartbeat_tasks m !! (ws, room))) then mret ()
  else
    conn_id ←
      match ws_conn_id m !! ws with
      | Some c =>
          if Py.truthy c then mret c
          else c' ← uuid4_hex;
               set_manager (upd_ws_conn_id <[ws := c']>);; mret c'
      | None =>
          c' ← uuid4_hex;
          set_manager (upd_ws_conn_id <[ws := c']>);; mret c'
      end;
    let hb_key := _heartbeat_key room username conn_id in
    ttl ← gets (λ w, HEARTBEAT_TTL_MS (settings w));
    set_redis (FakeRedis.psetex hb_key ttl "1");;
    set_manager (upd_heartbeat_tasks <[(ws, room) := hb_key]>).

Definition _stop_heartbeat (room : string) (ws : nat) : M unit :=
  set_manager (upd_heartbeat_tasks (delete (ws, room)));;
  m ← gets manager;
  match ws_username m !! ws, ws_conn_id m !! ws with
  | Some username, Some conn_id =>
      if Py.truthy username && Py.truthy conn_id then
        set_redis (FakeRedis.delete (_heartbeat_key room username conn_id))
      else mret ()
  | _, _ => mret ()
  end.

Definition join (room : string) (ws : nat) (username : string) : M bool :=
  subscribe_room room;;
  set_manager (upd_rooms (λ r, <[room := default ∅ (r !! room) ∪ {[ws]}]> r));;
  set_manager
    (upd_conn_rooms (λ c, <[ws := default ∅ (c !! ws) ∪ {[room]}]> c));;
  set_manager (upd_ws_username <[ws := username]>);;
  m ← gets manager;
  (if decide (is_Some (ws_conn_id m !! ws)) then mret ()
   else c ← uuid4_hex; set_manager (upd_ws_conn_id <[ws := c]>));;
  seen ← scan_any (pattern_user room username);
  let first_global := negb seen in
  _start_heartbeat room ws username;;
  mret first_global.

Definition leave (room : string) (ws : nat) : M (bool * option string) :=
  set_manager (upd_rooms (λ r,
    match r !! room with
    | Some s =>
        let s' := s ∖ {[ws]} in
        if decide (s' = ∅) then delete room r else <[room := s']> r
    | None => r
    end));;
  set_manager
    (upd_conn_rooms (λ c, <[ws := default ∅ (c !! ws) ∖ {[room]}]> c));;
  _stop_heartbeat room ws;;
  username ← gets (λ w, ws_username (manager w) !! ws);
  removed ←
    match username with
    | Some u =>
        if Py.truthy u then
          any_left ← scan_any (pattern_user room u); mret (negb any_left)
        else mret false
    | None => mret false
    end;
  unsubscribe_room_if_empty room;;
  mret (removed, username).

(** The first loop of [leave_all], over the snapshot of the rooms. *)
Fixpoint leave_each (ws : nat) (rs : list string)
    (removed_events : list (string * string)) : M (list (string * string)) :=
  match rs with
  | [] => mret removed_events
  | r :: rs' =>
      '(removed, uname) ← leave r ws;
      leave_each ws rs'
        (match uname with
         | Some u =>
             if removed && Py.truthy u then (removed_events ++ [(r, u)])%list
             else removed_events
         | None => removed_events
         end)
  end.

Definition leave_all (ws : nat) : M unit :=
  rs ← gets (λ w, elements (rooms_of (manager w) ws));
  removed_events ← leave_each ws rs [];
  set_manager (upd_conn_rooms (delete ws));;
  set_manager (upd_ws_username (delete ws));;
  set_manager (upd_ws_conn_id (delete ws));;
  for_ removed_events (λ '(room, uname),
    let diff_payload := OutPresenceDiff room [] [uname] in
    ps ← peers room;
    for_ ps (λ peer, send_json peer diff_payload);;
    publish room diff_payload;;
    let sys_payload := OutSystemMessage room (uname +:+ " left") in
    ps ← peers room;
    for_ ps (λ peer, send_json peer sys_payload);;
    publish room sys_payload).

End ConnectionManager.

(** ** websocket_endpoint: one turn of the frame loop

    [user] is the authenticated [UserORM] of the socket and [msg] the
    decoded frame. The branches are those of the [if mtype == ..] chain. *)

(** The presence scan of the join branch: every key's fourth
    colon-separated field, for keys of at least five fields. *)
Definition presence_users (keys : list string) : gset string :=
  foldl (λ user_set k,
           let parts := Py.split k ":" in
           if (5 <=? length parts)%nat then
             match parts !! 3%nat with
             | Some u => user_set ∪ {[u]}
             | None => user_set
             end
           else user_set) ∅ keys.

(** [sorted(user_set)] *)
Definition sorted (user_set : gset string) : list string :=
  merge_sort String.le (elements user_set).

(** [OutChatMessage(room=room, user=uname or "", message=msg_row.content,
    message_id=msg_row.id, ts=msg_row.created_at)] *)
Definition history_entry (room : string) (row : MessageORM * option string)
  : OutChatMessage.t :=
  OutChatMessage.mk room
    (match row.2 with
     | Some uname => if Py.truthy uname then uname else ""
     | None => ""
     end)
    (MessageORM_content row.1) (Some (MessageORM_id row.1))
    (Some (MessageORM_created_at row.1)).

Definition handle_join (ws : nat) (user : UserORM) (msg : gmap string json)
  : M unit :=
  match msg_get msg "room" with
  | JStr room =>
      d ← gets db;
      let ensured := ensure_room_and_membership d room user in
      let room_obj := ensured.1 in
      set_db ensured.2;;
      first_global ← ConnectionManager.join room ws (UserORM_username user);
      send_json ws (joined room);;
      keys ← gets (λ w, (FakeRedis.scan (redis w) 0 (pattern_room room) 100).2);
      let users_list := sorted (presence_users keys) in
      send_json ws (OutPresenceState room users_list);;
      rows ← gets (λ w, history_rows (db w) (RoomORM_id room_obj));
      when (Py.list_truthy rows)
        (send_json ws (history room (history_entry room <$> reverse rows)));;
      when first_global
        (let diff_payload := OutPresenceDiff room [UserORM_username user] [] in
         ps ← peers room;
         for_ ps (λ peer,
           if decide (peer = ws) then mret ()
           else send_json peer diff_payload);;
         ConnectionManager.publish room diff_payload;;
         let sys_payload :=
           OutSystemMessage room (UserORM_username user +:+ " joined") in
         ps ← peers room;
         for_ ps (λ peer,
           if decide (peer = ws) then mret ()
           else send_json peer sys_payload);;
         ConnectionManager.publish room sys_payload)
  | _ => send_json ws (error "room required")
  end.

Definition handle_leave (ws : nat) (msg : gmap string json) : M unit :=
  match msg_get msg "room" with
  | JStr room =>
      joined_here ← ConnectionManager.in_room ws room;
      when joined_here
        (res ← ConnectionManager.leave room ws;
         match res.2 with
         | Some uname =>
             when (res.1 && Py.truthy uname)
               (let diff_payload := OutPresenceDiff room [] [uname] in
                ps ← peers room;
                for_ ps (λ peer, send_json peer diff_payload);;
                ConnectionManager.publish room diff_payload;;
                let sys_payload := OutSystemMessage room (uname +:+ " left") in
                ps ← peers room;
                for_ ps (λ peer, send_json peer sys_payload);;
                ConnectionManager.publish room sys_payload)
         | None => mret ()
         end)
  | _ => mret ()
  end.

Definition handle_chat (ws : nat) (user : UserORM) (msg : gmap string json)
  : M unit :=
  match msg_get msg "room", msg_get msg "message" with
  | JStr room, JStr content =>
      ConnectionManager.in_room ws room ≫= λ joined_here : bool,
      if joined_here return M unit then
        d ← gets db;
        match select_room d room with
        | None => send_json ws (error "room missing")
        | Some chat_room_obj =>
            match select_member d (RoomORM_id chat_room_obj) (UserORM_id user) with
            | None => send_json ws (error "not a member")
            | Some member =>
                if RoomMemberORM_is_banned member then
                  send_json ws (error "banned")
                else if RoomMemberORM_is_muted member then
                  send_json ws (error "muted")
                else
                  let added :=
                    add_message d (RoomORM_id chat_room_obj) (UserORM_id user)
                      content in
                  set_db added.2;;
                  let payload :=
                    OutChat (OutChatMessage.mk room (UserORM_username user)
                               content (Some (MessageORM_id added.1)) None) in
                  ps ← peers room;
                  for_ ps (λ peer, send_json peer payload);;
                  ConnectionManager.publish room payload
            end
        end
      else send_json ws (error "invalid chat")
  | _, _ => send_json ws (error "invalid chat")
  end.

Definition handle_history_more (ws : nat) (msg : gmap string json) : M unit :=
  match msg_get msg "room", json_int (msg_get msg "before_id") with
  | JStr room, Some before_id =>
      ConnectionManager.in_room ws room ≫= λ joined_here : bool,
      if joined_here return M unit then
        d ← gets db;
        match select_room d room with
        | None => send_json ws (error "room missing")
        | Some history_room_obj =>
            let rows :=
              history_rows_before d (RoomORM_id history_room_obj) before_id in
            let older_messages := history_entry room <$> reverse rows in
            let more := bool_decide (Z.of_nat (length rows) = HISTORY_LIMIT) in
            send_json ws (history_more room older_messages more)
        end
      else send_json ws (error "invalid history_more")
  | _, _ => send_json ws (error "invalid history_more")
  end.

Definition handle_typing (ws : nat) (user : UserORM) (msg : gmap string json)
  : M unit :=
  let is_typing := json_truthy (msg_get msg "isTyping") in
  match msg_get msg "room" with
  | JStr room =>
      ConnectionManager.in_room ws room ≫= λ joined_here : bool,
      if joined_here return M unit then
        let typing_payload :=
          OutTypingMessage room (UserORM_username user) is_typing in
        ps ← peers room;
        for_ ps (λ peer, send_json peer typing_payload);;
        ConnectionManager.publish room typing_payload
      else send_json ws (error "invalid typing")
  | _ => send_json ws (error "invalid typing")
  end.

(** The [if mtype == ..] chain of the loop, for a frame that
    [json.loads] made a dict of. *)
Definition handle_message (ws : nat) (user : UserORM) (msg : gmap string json)
  : M unit :=
  match msg_get msg "type" with
  | JStr mtype =>
      if String.eqb mtype "join" then handle_join ws user msg
      else if String.eqb mtype "leave" then handle_leave ws msg
      else if String.eqb mtype "chat" then handle_chat ws user msg
      else if String.eqb mtype "history_more" then handle_history_more ws msg
      else if String.eqb mtype "typing" then handle_typing ws user msg
      else if String.eqb mtype "ping" then send_json ws pong
      else send_json ws (error "unknown type")
  | _ => send_json ws (error "unknown type")
  end.

(** The [finally:] clause that runs when the socket goes away. *)
Definition disconnect (ws : nat) : M unit := ConnectionManager.leave_all ws.

(** The dict that [json.loads] returns for a JSON object, as the map that
    [msg.get] reads: a name given twice keeps its last value. Every other
    value has no [get]. *)
Definition as_object (v : json) : option (gmap string json) :=
  match v with
  | JDict d => Some (list_to_map (reverse d))
  | _ => None
  end.

(** One turn of [while True:] on a text frame, from [json.loads(raw)] to
    the end of the [if mtype == ..] chain. [loaded] is what [json.loads]
    returns, [None] when it raises. The answer is [true] when the loop
    goes on. For a value that is not a dict [msg.get("type")] raises
    [AttributeError] outside the inner [try]: nothing is sent, the
    exception leaves the loop past [except WebSocketDisconnect] and the
    [finally:] clause runs before the endpoint is left. *)
Definition loop_turn (ws : nat) (user : UserORM) (loaded : option json)
  : M bool :=
  match loaded with
  | None => send_json ws (error "invalid json");; mret true
  | Some v =>
      match as_object v with
      | Some msg => handle_message ws user msg;; mret true
      | None => disconnect ws;; mret false
      end
  end.

(** ** ConnectionManager._pubsub_reader: messages off the bus *)

(** [data.get("room")] of an outgoing payload. *)
Definition frame_room (data : frame) : option string :=
  match data with
  | error _ | pong => None
  | joined room | history room _ | history_more room _ _
  | OutPresenceState room _ | OutPresenceDiff room _ _
  | OutSystemMessage room _ | OutTypingMessage room _ _ => Some room
  | OutChat m => Some (OutChatMessage.room m)
  end.

(** An item of [pubsub.listen()]: its kind (["message"], ["subscribe"],
    ...) and, for what [json.loads] makes of the data of a message, the
    ["srv"] tag if it has one and the payload. *)
Record PubSubMessage := mkPubSubMessage {
  msg_type : string;
  msg_srv : option string;
  msg_data : frame
}.

(** A payload that the reader puts on a local socket, with the tag it
    came with. *)
Inductive forwarded :=
  | Forwarded (ws : nat) (srv : option string) (data : frame).

(** One turn of the [async for] loop of [_pubsub_reader]; the loop
    changes no state. *)
Definition _pubsub_reader (msg : PubSubMessage) (w : World) : list forwarded :=
  if negb (String.eqb (msg_type msg) "message") then []
  else if bool_decide (msg_srv msg = Some (SERVER_ID (settings w))) then []
  else
    match frame_room (msg_data msg) with
    | Some room =>
        if negb (Py.truthy room) then []
        else (λ ws, Forwarded ws (msg_srv msg) (msg_data msg))
               <$> elements (members (manager w) room)
    | None => []
    end.

(** * Vocabulary of the properties *)

(** The world with [evs] appended to its trace and nothing else changed. *)
Definition add_events (evs : list event) (w : World) : World :=
  mkWorld (settings w) (manager w) (redis w) (db w) (trace w ++ evs)
    (uuid_source w) (uuid_drawn w).

(** The final world of a computation. *)
Definition exec {A} (m : M A) (w : World) : World := (m w).2.

(** The sockets of [room] other than [ws], in the order of the fan-out. *)
Definition other_peers (w : World) (room : string) (ws : nat) : list nat :=
  filter (λ peer, peer ≠ ws) (elements (members (manager w) room)).

(** The announcement of a first appearance: the presence diff to the
    local peers, then to the bus, then the system line likewise. *)
Definition join_announcement (w : World) (room : string) (ws : nat)
    (username : string) : list event :=
  let diff_payload := OutPresenceDiff room [username] [] in
  let sys_payload := OutSystemMessage room (username +:+ " joined") in
  ((λ peer, Sent peer diff_payload) <$> other_peers w room ws) ++
  [Published (CHANNEL_PREFIX +:+ room) (SERVER_ID (settings w)) diff_payload] ++
  ((λ peer, Sent peer sys_payload) <$> other_peers w room ws) ++
  [Published (CHANNEL_PREFIX +:+ room) (SERVER_ID (settings w)) sys_payload].

(** The announcement of a last disappearance. *)
Definition leave_announcement (w : World) (room uname : string) : list event :=
  let diff_payload := OutPresenceDiff room [] [uname] in
  let sys_payload := OutSystemMessage room (uname +:+ " left") in
  ((λ peer, Sent peer diff_payload) <$> elements (members (manager w) room)) ++
  [Published (CHANNEL_PREFIX +:+ room) (SERVER_ID (settings w)) diff_payload] ++
  ((λ peer, Sent peer sys_payload) <$> elements (members (manager w) room)) ++
  [Published (CHANNEL_PREFIX +:+ room) (SERVER_ID (settings w)) sys_payload].

(** The users named in the snapshot that a join in world [w] produces. *)
Definition snapshot (w : World) (room : string) : list string :=
  sorted (presence_users (FakeRedis.scan (redis w) 0 (pattern_room room) 100).2).

(** The history frame of a join, if any. *)
Definition history_frame (w : World) (ws : nat) (room : string) (room_id : Z)
  : list event :=
  match history_rows (db w) room_id with
  | [] => []
  | rows => [Sent ws (history room (history_entry room <$> reverse rows))]
  end.

(** The world in which [manager.join] runs. *)
Definition before_join (user : UserORM) (w : World) (room : string) : World :=
  exec (set_db (ensure_room_and_membership (db w) room user).2) w.

(** The heartbeat keys of one user in one room: what the pattern
    [presence:hb:<room>:<username>:*] selects. *)
Definition presence_key_exists (r : FakeRedis.t) (room username : string) : Prop :=
  ∃ conn_id,
    is_Some (FakeRedis._data r !! ConnectionManager._heartbeat_key room username conn_id).

(** The key that [_stop_heartbeat] deletes, if the socket has a name
    and a connection id. *)
Definition stopped_key (room : string) (ws : nat) (w : World) : option string :=
  match ws_username (manager w) !! ws, ws_conn_id (manager w) !! ws with
  | Some username, Some conn_id =>
      if Py.truthy username && Py.truthy conn_id
      then Some (ConnectionManager._heartbeat_key room username conn_id)
      else None
  | _, _ => None
  end.

(** The events that follow [manager.leave] in the leave branch. *)
Definition leave_events (room : string) (res : bool * option string)
    (w : World) : list event :=
  match res.2 with
  | Some uname =>
      if res.1 && Py.truthy uname then leave_announcement w room uname else []
  | None => []
  end.

(** The world after leaving the rooms [rs] one after the other. *)
Definition leaves (ws : nat) (rs : list string) (w : World) : World :=
  foldl (λ w r, (ConnectionManager.leave r ws w).2) w rs.

(** The pairs that the first loop of [leave_all] collects. *)
Fixpoint collected (ws : nat) (rs : list string) (w : World) : list (string * string) :=
  match rs with
  | [] => []
  | r :: rs' =>
      let res := (ConnectionManager.leave r ws w).1 in
      match res.2 with
      | Some u => if res.1 && Py.truthy u then [(r, u)] else []
      | None => []
      end ++ collected ws rs' (ConnectionManager.leave r ws w).2
  end.

(** The three [pop]s between the loops of [leave_all]. *)
Definition forget (ws : nat) (w : World) : World :=
  exec (set_manager (upd_conn_rooms (delete ws));;
        set_manager (upd_ws_username (delete ws));;
        set_manager (upd_ws_conn_id (delete ws))) w.

(** The body of the second loop of [leave_all]. *)
Definition announce : string * string → M unit :=
  λ '(room, uname),
    let diff_payload := OutPresenceDiff room [] [uname] in
    ps ← peers room;
    for_ ps (λ peer, send_json peer diff_payload);;
    ConnectionManager.publish room diff_payload;;
    let sys_payload := OutSystemMessage room (uname +:+ " left") in
    ps ← peers room;
    for_ ps (λ peer, send_json peer sys_payload);;
    ConnectionManager.publish room sys_payload.

(** The frame [{"type": "leave", "room": r}]. *)
Definition leave_frame (r : string) : gmap string json :=
  {[ "type" := JStr "leave"; "room" := JStr r ]}.

(** The events of leave frames for the rooms [rs], handled in turn. *)
Fixpoint announced (ws : nat) (rs : list string) (w : World) : list event :=
  match rs with
  | [] => []
  | r :: rs' =>
      leave_events r (ConnectionManager.leave r ws w).1
        (ConnectionManager.leave r ws w).2
      ++ announced ws rs' (ConnectionManager.leave r ws w).2
  end.

(** What can happen to a process: a call of one of the manager's
    methods, or one turn of a socket's frame loop. *)
Inductive op :=
  | OpJoin (room : string) (ws : nat) (username : string)
  | OpLeave (room : string) (ws : nat)
  | OpLeaveAll (ws : nat)
  | OpFrame (ws : nat) (user : UserORM) (msg : gmap string json).

Definition run_op (o : op) (w : World) : World :=
  match o with
  | OpJoin room ws username => exec (ConnectionManager.join room ws username) w
  | OpLeave room ws => exec (ConnectionManager.leave room ws) w
  | OpLeaveAll ws => exec (ConnectionManager.leave_all ws) w
  | OpFrame ws user msg => exec (handle_message ws user msg) w
  end.

Definition run (ops : list op) (w : World) : World := foldl (λ w o, run_op o w) w ops.

(** A process at start-up: a new manager and an empty store. *)
Definition boot (s : Settings) (d : Database) (source : nat → string) : World :=
  mkWorld s new_manager FakeRedis.empty d [] source 0.

(** Worlds that differ at most in the tables, the trace, the uuid
    counter and the per-socket maps of the manager. *)
Definition same_core (w w' : World) : Prop :=
  settings w' = settings w ∧ redis w' = redis w ∧
  rooms (manager w') = rooms (manager w) ∧
  room_subscribed (manager w') = room_subscribed (manager w).

(** One step of the registry and the store. *)
Inductive core_step : World → World → Prop :=
  | step_join room ws username w :
      core_step w (ConnectionManager.join room ws username w).2
  | step_leave room ws w :
      core_step w (ConnectionManager.leave room ws w).2
  | step_same w w' : same_core w w' → core_step w w'.

(** A room is in [room_subscribed] exactly when a local socket is in it,
    and its channel is subscribed on the bus exactly when the room is in
    [room_subscribed]. *)
Definition subscription_inv (w : World) : Prop :=
  ∀ room,
    (room ∈ room_subscribed (manager w) ↔ members (manager w) room ≠ ∅) ∧
    (CHANNEL_PREFIX +:+ room ∈ FakeRedis._subscribed (redis w) ↔
     room ∈ room_subscribed (manager w)).

(** Every key in the store is a heartbeat key, with the sentinel value
    and the configured TTL. *)
Definition keys_inv (w : World) : Prop :=
  ∀ k v,
    FakeRedis._data (redis w) !! k = Some v →
    v = ("1", HEARTBEAT_TTL_MS (settings w)) ∧
    ∃ room username conn_id,
      k = ConnectionManager._heartbeat_key room username conn_id.

Definition alice : UserORM := mkUserORM 1 "alice" false.

(** The frame [{"type": "join", "room": r}]. *)
Definition join_frame (r : string) : gmap string json :=
  {[ "type" := JStr "join"; "room" := JStr r ]}.

(** A source of connection ids for examples: "c0", "c1", ... *)
Definition demo_uuid (n : nat) : string := "c" +:+ pretty n.

(** A process in which alice has just joined the lobby on socket 1. *)
Definition lobby_with_alice : World :=
  run [OpFrame 1 alice (join_frame "lobby")]
    (boot (default_settings "srv-a") (mkDatabase [alice] [] [] [] 0) demo_uuid).

(** The frames that [evs] puts on socket [ws], in order. *)
Definition sent_to (ws : nat) (evs : list event) : list frame :=
  omap (λ e, match e with
             | Sent peer data => if decide (peer = ws) then Some data else None
             | Published _ _ _ => None
             end) evs.

(** Oldest first, by the [ts] that history entries carry. *)
Definition chronological : relation OutChatMessage.t :=
  λ a b, match OutChatMessage.ts a, OutChatMessage.ts b with
         | Some x, Some y => x ≤ y
         | _, _ => False
         end.

(** A lobby that already holds two messages, the newer one stored first. *)
Definition lobby_with_history : World :=
  boot (default_settings "srv-a")
    (mkDatabase [alice] [mkRoomORM 1 "lobby" false]
       [mkRoomMemberORM 1 1 1 false false false]
       [mkMessageORM 1 1 (Some 1) "second" false 20;
        mkMessageORM 2 1 None "first" false 10] 30)
    demo_uuid.

(** The name that the scan loop reads off one key, if any. *)
Definition key_user (k : string) : option string :=
  let parts := Py.split k ":" in
  if (5 <=? length parts)%nat then parts !! 3%nat else None.

(** The events that [w'] has and its ancestor [w] had not. *)
Definition events_after (w w' : World) : list event :=
  drop (length (trace w)) (trace w').

(** The [presence_diff] that announces [username] joining [room]. *)
Definition is_join_diff (room username : string) (data : frame) : bool :=
  match data with
  | OutPresenceDiff r joining leaving =>
      bool_decide (r = room ∧ joining = [username] ∧ leaving = [])
  | _ => false
  end.

(** Such a diff put on the bus, and such a diff sent anywhere at all. *)
Definition publishes_join (room username : string) (e : event) : bool :=
  match e with
  | Published _ _ data => is_join_diff room username data
  | Sent _ _ => false
  end.

Definition carries_join (room username : string) (e : event) : bool :=
  match e with
  | Published _ _ data | Sent _ data => is_join_diff room username data
  end.

Definition join_broadcasts (room username : string) (evs : list event) : nat :=
  length (List.filter (publishes_join room username) evs).

(** The [presence_diff] that announces [username] leaving [room]. *)
Definition is_leave_diff (room username : string) (data : frame) : bool :=
  match data with
  | OutPresenceDiff r joining leaving =>
      bool_decide (r = room ∧ joining = [] ∧ leaving = [username])
  | _ => false
  end.

Definition publishes_leave (room username : string) (e : event) : bool :=
  match e with
  | Published _ _ data => is_leave_diff room username data
  | Sent _ _ => false
  end.

Definition leave_broadcasts (room username : string) (evs : list event) : nat :=
  length (List.filter (publishes_leave room username) evs).

(** The user [username] holds the room [room] through exactly the
    sockets [active]: each of them is registered in the room under that
    name with a connection id of its own, and the heartbeat keys of the
    user in the room are those of these connection ids. *)
Record holds (room username : string) (active : gset nat) (w : World) : Prop := {
  holds_in : ∀ c, c ∈ active → room ∈ rooms_of (manager w) c;
  holds_name : ∀ c, c ∈ active → ws_username (manager w) !! c = Some username;
  holds_id : ∀ c, c ∈ active →
    ∃ i, (i < uuid_drawn w)%nat ∧
         ws_conn_id (manager w) !! c = Some (uuid_source w i);
  holds_inj : ∀ c c' conn_id, c ∈ active → c' ∈ active →
    ws_conn_id (manager w) !! c = Some conn_id →
    ws_conn_id (manager w) !! c' = Some conn_id → c = c';
  holds_keys : ∀ conn_id,
    is_Some (FakeRedis._data (redis w)
             !! ConnectionManager._heartbeat_key room username conn_id) ↔
    ∃ c, c ∈ active ∧ ws_conn_id (manager w) !! c = Some conn_id
}.

(** The frame [{"type": "chat", "room": r, "message": m}]. *)
Definition chat_frame (r m : string) : gmap string json :=
  {[ "type" := JStr "chat"; "room" := JStr r; "message" := JStr m ]}.

(** Alice has joined the lobby, where her membership row is banned. *)
Definition lobby_with_banned_alice : World :=
  run [OpFrame 1 alice (join_frame "lobby")]
    (boot (default_settings "srv-a")
       (mkDatabase [alice] [mkRoomORM 1 "lobby" false]
          [mkRoomMemberORM 1 1 1 false true false] [] 0)
       demo_uuid).

(** ** Vocabulary of the further properties *)

(** The frame [{"type": "history_more", "room": r, "before_id": n}]. *)
Definition history_more_frame (r : string) (n : Z) : gmap string json :=
  {[ "type" := JStr "history_more"; "room" := JStr r; "before_id" := JInt n ]}.

(** The lobby with two stored messages, after alice joined it on socket 1. *)
Definition lobby_with_history_joined : World :=
  run [OpFrame 1 alice (join_frame "lobby")] lobby_with_history.

(** Worlds with the same settings, manager and store. *)
Definition same_registry (w w' : World) : Prop :=
  settings w' = settings w ∧ manager w' = manager w ∧ redis w' = redis w.

(** One step of the manager: a [join], a [leave], the three [pop]s of
    [leave_all] for a socket that is in no room any more, or a change
    elsewhere. *)
Inductive registry_step : World → World → Prop :=
  | registry_join room ws username w :
      registry_step w (ConnectionManager.join room ws username w).2
  | registry_leave room ws w :
      registry_step w (ConnectionManager.leave room ws w).2
  | registry_forget ws w :
      rooms_of (manager w) ws = ∅ → registry_step w (forget ws w)
  | registry_same w w' : same_registry w w' → registry_step w w'.

(** The bookkeeping of the manager: [rooms] and [conn_rooms] are two
    views of one relation, no room is kept with an empty set, a socket
    that is in a room has a user name and a connection id, heartbeat
    tasks are those of the pairs in the relation, and the reader task
    runs once a room is subscribed. *)
Record registry_inv (w : World) : Prop := {
  registry_views : ∀ ws room,
    ws ∈ members (manager w) room ↔ room ∈ rooms_of (manager w) ws;
  registry_no_empty : ∀ room, rooms (manager w) !! room ≠ Some ∅;
  registry_named : ∀ ws room,
    room ∈ rooms_of (manager w) ws →
    is_Some (ws_username (manager w) !! ws) ∧
    is_Some (ws_conn_id (manager w) !! ws);
  registry_tasks : ∀ ws room,
    is_Some (heartbeat_tasks (manager w) !! (ws, room)) ↔
    room ∈ rooms_of (manager w) ws;
  registry_reader :
    room_subscribed (manager w) ≠ ∅ → pubsub_task (manager w) = true
}.

(** A publication as the process that made it tags it: with its own
    [SERVER_ID], on the channel of the room that the payload names. *)
Definition well_tagged (s : Settings) (e : event) : Prop :=
  match e with
  | Sent _ _ => True
  | Published channel srv data =>
      srv = SERVER_ID s ∧
      ∃ room, frame_room data = Some room ∧ channel = CHANNEL_PREFIX +:+ room
  end.

Definition bob : UserORM := mkUserORM 2 "bob" false.

Definition carol : UserORM := mkUserORM 3 "carol" false.

(** A process at start-up with the three users and no room. *)
Definition three_users : World :=
  boot (default_settings "srv-a") (mkDatabase [alice; bob; carol] [] [] [] 0)
    demo_uuid.



(** A table of three lobby messages that are stamped in order. *)
Definition lobby_with_three_lines : Database :=
  mkDatabase [alice; bob] [mkRoomORM 1 "lobby" false]
    [mkRoomMemberORM 1 1 1 false false false]
    [mkMessageORM 1 1 (Some 1) "one" false 10;
     mkMessageORM 2 1 (Some 2) "two" false 20;
     mkMessageORM 3 1 (Some 1) "three" false 30] 40.

(** A second process, in which bob has joined the lobby on socket 7. *)
Definition lobby_with_bob : World :=
  run [OpFrame 7 bob (join_frame "lobby")]
    (boot (default_settings "srv-b") (mkDatabase [bob] [] [] [] 0) demo_uuid).

(** The frame [{"type": "typing", "room": r, "isTyping": v}]. *)
Definition typing_frame (r : string) (v : json) : gmap string json :=
  {[ "type" := JStr "typing"; "room" := JStr r; "isTyping" := v ]}.

(** * Properties *)

(** ** Strings *)

Section strings.
Implicit Types s t p k : string.

Lemma app_cons a s t : String a s +:+ t = String a (s +:+ t).
Proof. reflexivity. Qed.

Lemma app_empty_l s : "" +:+ s = s.
Proof. reflexivity. Qed.

Lemma app_assoc' s t p : (s +:+ t) +:+ p = s +:+ (t +:+ p).
Proof. induction s as [|a s IH]; [done|]. by rewrite !app_cons, IH. Qed.

Lemma startswith_app p s : Py.startswith (p +:+ s) p = true.
Proof.
  induction p as [|a p IH]; [done|].
  rewrite app_cons. simpl. by rewrite IH, Ascii.eqb_refl.
Qed.

Lemma startswith_inv k p :
  Py.startswith k p = true → ∃ rest, k = p +:+ rest.
Proof.
  revert k. induction p as [|a p IH]; intros k; [by exists k|].
  destruct k as [|c k]; [done|]. simpl.
  intros [Hc Hk]%andb_true_iff. apply Ascii.eqb_eq in Hc as ->.
  destruct (IH _ Hk) as [rest ->]. by exists rest.
Qed.

Lemma startswith_iff k p :
  Py.startswith k p = true ↔ ∃ rest, k = p +:+ rest.
Proof.
  split; [apply startswith_inv|]. intros [rest ->]. apply startswith_app.
Qed.

Lemma endswith_app s t c :
  t ≠ "" → Py.endswith (s +:+ t) c = Py.endswith t c.
Proof.
  intros Ht. induction s as [|a s IH]; [done|].
  rewrite app_cons. simpl. destruct (s +:+ t) eqn:E; [|done].
  destruct s; [|done]. by rewrite app_empty_l in E.
Qed.

Lemma but_last_app s t :
  t ≠ "" → Py.but_last (s +:+ t) = s +:+ Py.but_last t.
Proof.
  intros Ht. induction s as [|a s IH]; [done|].
  rewrite !app_cons. simpl. destruct (s +:+ t) eqn:E.
  - destruct s; [|done]. by rewrite app_empty_l in E.
  - by rewrite IH.
Qed.

Lemma truthy_ne s : Py.truthy s = true ↔ s ≠ "".
Proof. by destruct s. Qed.

End strings.

(** ** The scan of the stand-in store *)

Section scan.
Implicit Types r : FakeRedis.t.

Lemma elem_of_keys r k : k ∈ FakeRedis.keys r ↔ is_Some (FakeRedis._data r !! k).
Proof.
  unfold FakeRedis.keys. rewrite list_elem_of_fmap. split.
  - intros [[k' v] [-> H%elem_of_map_to_list]]. by exists v.
  - intros [v H]. exists (k, v). split; [done|].
    by apply elem_of_map_to_list.
Qed.

Lemma scan_cursor r cursor pat count : (FakeRedis.scan r cursor pat count).1 = 0.
Proof. reflexivity. Qed.

(** A pattern that ends in [":*"] selects the keys that extend the
    text before the star. *)
Lemma elem_of_scan r cursor p count k :
  k ∈ (FakeRedis.scan r cursor (p +:+ ":*") count).2 ↔
  is_Some (FakeRedis._data r !! k) ∧ ∃ rest, k = (p +:+ ":") +:+ rest.
Proof.
  unfold FakeRedis.scan. simpl.
  rewrite endswith_app, but_last_app by done. simpl.
  rewrite list_elem_of_filter, elem_of_keys, Is_true_true, startswith_iff.
  tauto.
Qed.

End scan.

(** ** Running the monad *)

Arguments send_json : simpl never.
Arguments ConnectionManager.publish : simpl never.

Section monad.

Lemma bind_run {A B} (m : M A) (f : A → M B) w :
  (m ≫= f) w = f (m w).1 (m w).2.
Proof. unfold mbind, M_bind. by destruct (m w). Qed.

Lemma bind_run_eq {A B} (m : M A) (f : A → M B) w a w' :
  m w = (a, w') → (m ≫= f) w = f a w'.
Proof. intros H. unfold mbind, M_bind. by rewrite H. Qed.

Lemma add_events_nil w : add_events [] w = w.
Proof. destruct w. unfold add_events. simpl. by rewrite app_nil_r. Qed.

Lemma add_events_app e1 e2 w :
  add_events e2 (add_events e1 w) = add_events (e1 ++ e2) w.
Proof. unfold add_events. simpl. by rewrite (assoc_L (++)). Qed.

Lemma send_json_run ws data w :
  send_json ws data w = ((), add_events [Sent ws data] w).
Proof. reflexivity. Qed.

Lemma publish_run room data w :
  ConnectionManager.publish room data w =
  ((), add_events
         [Published (CHANNEL_PREFIX +:+ room) (SERVER_ID (settings w)) data] w).
Proof. reflexivity. Qed.

(** A fan-out to a list of sockets is one [Sent] event per socket. *)
Lemma for_send ps data w :
  for_ ps (λ peer, send_json peer data) w =
  ((), add_events ((λ peer, Sent peer data) <$> ps) w).
Proof.
  revert w. induction ps as [|p ps IH]; intros w.
  - simpl. by rewrite add_events_nil.
  - simpl. rewrite bind_run, send_json_run. simpl.
    by rewrite IH, add_events_app.
Qed.

(** The fan-out of the join branch skips the joining socket. *)
Lemma for_send_except ws ps data w :
  for_ ps (λ peer, if decide (peer = ws) then mret ()
                   else send_json peer data) w =
  ((), add_events
         ((λ peer, Sent peer data) <$> filter (λ peer, peer ≠ ws) ps) w).
Proof.
  revert w. induction ps as [|p ps IH]; intros w.
  - simpl. by rewrite add_events_nil.
  - simpl. rewrite bind_run. rewrite filter_cons.
    destruct (decide (p = ws)) as [->|Hne].
    + rewrite decide_False by naive_solver. simpl. apply IH.
    + rewrite decide_True by done. simpl. rewrite IH.
      unfold add_events. simpl. by rewrite <-(assoc_L (++)).
Qed.

End monad.

(** ** Frames that are turned away *)

Section rejected_frames.
Variables (ws : nat) (user : UserORM) (msg : gmap string json) (w : World).

Lemma in_room_run room :
  ConnectionManager.in_room ws room w =
  (bool_decide (room ∈ rooms_of (manager w) ws), w).
Proof. reflexivity. Qed.

Lemma dispatch_leave :
  msg_get msg "type" = JStr "leave" →
  handle_message ws user msg w = handle_leave ws msg w.
Proof. intros H. unfold handle_message. by rewrite H. Qed.

Lemma dispatch_chat :
  msg_get msg "type" = JStr "chat" →
  handle_message ws user msg w = handle_chat ws user msg w.
Proof. intros H. unfold handle_message. by rewrite H. Qed.

Lemma dispatch_join :
  msg_get msg "type" = JStr "join" →
  handle_message ws user msg w = handle_join ws user msg w.
Proof. intros H. unfold handle_message. by rewrite H. Qed.

Lemma handle_leave_not_joined :
  (∀ room, msg_get msg "room" = JStr room → room ∉ rooms_of (manager w) ws) →
  handle_leave ws msg w = ((), w).
Proof.
  intros Hroom. unfold handle_leave.
  destruct (msg_get msg "room") as [| | | |room| |] eqn:E; try reflexivity.
  rewrite bind_run, in_room_run. simpl.
  rewrite bool_decide_eq_false_2 by auto. reflexivity.
Qed.

Lemma handle_chat_not_joined room content :
  msg_get msg "room" = JStr room →
  msg_get msg "message" = JStr content →
  room ∉ rooms_of (manager w) ws →
  handle_chat ws user msg w = ((), add_events [Sent ws (error "invalid chat")] w).
Proof.
  intros Hr Hc Hout. unfold handle_chat. rewrite Hr, Hc.
  rewrite bind_run, in_room_run. simpl.
  rewrite bool_decide_eq_false_2 by auto. reflexivity.
Qed.

Lemma handle_chat_joined room content chat_room_obj :
  msg_get msg "room" = JStr room →
  msg_get msg "message" = JStr content →
  room ∈ rooms_of (manager w) ws →
  select_room (db w) room = Some chat_room_obj →
  match select_member (db w) (RoomORM_id chat_room_obj) (UserORM_id user) with
  | None => handle_chat ws user msg w = send_json ws (error "not a member") w
  | Some member =>
      (RoomMemberORM_is_banned member = true →
       handle_chat ws user msg w = send_json ws (error "banned") w) ∧
      (RoomMemberORM_is_banned member = false →
       RoomMemberORM_is_muted member = true →
       handle_chat ws user msg w = send_json ws (error "muted") w)
  end.
Proof.
  intros Hr Hc Hin Hroom. unfold handle_chat. rewrite Hr, Hc.
  rewrite bind_run, in_room_run. simpl.
  rewrite bool_decide_eq_true_2 by done.
  rewrite bind_run. unfold gets at 1. simpl. rewrite Hroom.
  destruct (select_member _ _ _) as [member|]; [|done].
  split.
  - by intros ->.
  - by intros -> ->.
Qed.

End rejected_frames.

(** C10. A leave frame whose room is not a string, or names a room the
    socket has not joined, is ignored: the turn of the loop returns with
    the world exactly as it was, so nothing is sent to the sender or to
    anyone else, nothing is published, and the registry, the
    subscriptions and the store are untouched. *)
Theorem leave_frame_ignored ws user (msg : gmap string json) w :
  msg_get msg "type" = JStr "leave" →
  (∀ room, msg_get msg "room" = JStr room → room ∉ rooms_of (manager w) ws) →
  handle_message ws user msg w = ((), w).
Proof.
  intros Htype Hroom. rewrite dispatch_leave by done.
  by apply handle_leave_not_joined.
Qed.

(** C7. A chat frame from a socket that is not in the room, from a user
    without a membership row, or from a banned or muted member has one
    effect only: an [error] frame with the reason is sent to the sender.
    The database, the registry, the store and the origin-tagged bus are
    as before, and no other socket is sent anything. *)
Theorem chat_rejected ws user (msg : gmap string json) w room content :
  msg_get msg "type" = JStr "chat" →
  msg_get msg "room" = JStr room →
  msg_get msg "message" = JStr content →
  let rejected reason :=
    handle_message ws user msg w = ((), add_events [Sent ws (error reason)] w) in
  (room ∉ rooms_of (manager w) ws → rejected "invalid chat") ∧
  (∀ chat_room_obj,
     room ∈ rooms_of (manager w) ws →
     select_room (db w) room = Some chat_room_obj →
     match select_member (db w) (RoomORM_id chat_room_obj) (UserORM_id user) with
     | None => rejected "not a member"
     | Some member =>
         (RoomMemberORM_is_banned member = true → rejected "banned") ∧
         (RoomMemberORM_is_banned member = false →
          RoomMemberORM_is_muted member = true → rejected "muted")
     end).
Proof.
  intros Htype Hr Hc rejected. subst rejected. simpl.
  rewrite dispatch_chat by done. split.
  - intros Hout. by eapply handle_chat_not_joined.
  - intros chat_room_obj Hin Hroom.
    by apply (handle_chat_joined ws user msg w room content chat_room_obj).
Qed.

(** ** What one turn of the loop puts on the wire *)

Arguments ConnectionManager.join : simpl never.
Arguments ConnectionManager.leave : simpl never.
Arguments ensure_room_and_membership : simpl never.
Arguments history_rows : simpl never.
Arguments FakeRedis.scan : simpl never.
Arguments for_ : simpl never.

Ltac run_sends :=
  cbn;
  repeat (first [ rewrite send_json_run | rewrite publish_run
                | rewrite for_send | rewrite for_send_except ]; cbn).

Ltac same_trace :=
  unfold add_events; cbn; rewrite <- ?app_assoc; reflexivity.

Section join_run.
Variables (ws : nat) (user : UserORM) (msg : gmap string json) (w : World).
Variable room : string.
Hypothesis Hroom : msg_get msg "room" = JStr room.

Lemma handle_join_run first_global w2 :
  ConnectionManager.join room ws (UserORM_username user)
    (before_join user w room)
    = (first_global, w2) →
  handle_join ws user msg w =
  ((), add_events
         ([Sent ws (joined room); Sent ws (OutPresenceState room (snapshot w2 room))]
          ++ history_frame w2 ws room
               (RoomORM_id (ensure_room_and_membership (db w) room user).1)
          ++ (if first_global
              then join_announcement w2 room ws (UserORM_username user)
              else [])) w2).
Proof.
  intros Hjoin. unfold handle_join. rewrite Hroom.
  unfold mbind, M_bind, gets, set_db, modify, when. cbn.
  unfold before_join, exec, set_db, modify in Hjoin. cbn in Hjoin.
  rewrite Hjoin. run_sends.
  unfold history_frame, join_announcement, other_peers, snapshot.
  destruct (history_rows _ _) as [|row rows]; destruct first_global;
    run_sends; same_trace.
Qed.

End join_run.

(** ** The scans of [join] and [leave] *)

Arguments Py.list_truthy : simpl never.
Arguments scan_any : simpl never.

Section scans.
Implicit Types (r : FakeRedis.t) (room username : string).

Lemma pattern_user_eq room username :
  pattern_user room username =
  (HEARTBEAT_KEY_PREFIX +:+ room +:+ ":" +:+ username) +:+ ":*".
Proof. unfold pattern_user. by rewrite !app_assoc'. Qed.

Lemma pattern_room_eq room :
  pattern_room room = (HEARTBEAT_KEY_PREFIX +:+ room) +:+ ":*".
Proof. unfold pattern_room. by rewrite !app_assoc'. Qed.

Lemma heartbeat_key_eq room username conn_id :
  ConnectionManager._heartbeat_key room username conn_id =
  ((HEARTBEAT_KEY_PREFIX +:+ room +:+ ":" +:+ username) +:+ ":") +:+ conn_id.
Proof. unfold ConnectionManager._heartbeat_key. by rewrite !app_assoc'. Qed.

Lemma elem_of_scan_user r cursor count room username k :
  k ∈ (FakeRedis.scan r cursor (pattern_user room username) count).2 ↔
  is_Some (FakeRedis._data r !! k) ∧
  ∃ conn_id, k = ConnectionManager._heartbeat_key room username conn_id.
Proof.
  rewrite pattern_user_eq, elem_of_scan.
  by setoid_rewrite heartbeat_key_eq.
Qed.

Lemma list_truthy_true {A} (l : list A) : Py.list_truthy l = true ↔ l ≠ [].
Proof. by destruct l. Qed.

Lemma scan_user_truthy r room username :
  Py.list_truthy (FakeRedis.scan r 0 (pattern_user room username) 50).2 = true
  ↔ presence_key_exists r room username.
Proof.
  rewrite list_truthy_true. unfold presence_key_exists. split.
  - intros Hne.
    destruct (FakeRedis.scan _ _ _ _).2 as [|k ks] eqn:E; [done|].
    assert (k ∈ (FakeRedis.scan r 0 (pattern_user room username) 50).2) as Hk
      by (rewrite E; apply list_elem_of_here).
    apply elem_of_scan_user in Hk as [Hsome [conn_id ->]]. by exists conn_id.
  - intros [conn_id Hsome] Hnil.
    assert (ConnectionManager._heartbeat_key room username conn_id ∈
            (FakeRedis.scan r 0 (pattern_user room username) 50).2) as Hk.
    { apply elem_of_scan_user. split; [done|]. by exists conn_id. }
    rewrite Hnil in Hk. by apply elem_of_nil in Hk.
Qed.

Lemma scan_any_run pattern w :
  scan_any pattern w =
  (Py.list_truthy (FakeRedis.scan (redis w) 0 pattern 50).2, w).
Proof.
  unfold scan_any, gets. by destruct (FakeRedis.scan _ _ _ _).
Qed.

Lemma scan_subscribe channel r cursor pat count :
  FakeRedis.scan (FakeRedis.subscribe channel r) cursor pat count =
  FakeRedis.scan r cursor pat count.
Proof. reflexivity. Qed.

Lemma scan_unsubscribe channel r cursor pat count :
  FakeRedis.scan (FakeRedis.unsubscribe channel r) cursor pat count =
  FakeRedis.scan r cursor pat count.
Proof. reflexivity. Qed.

End scans.

(** ** The effect of [join] on each part of the world *)

Ltac unfold_manager :=
  unfold ConnectionManager.join, ConnectionManager.leave,
    ConnectionManager._start_heartbeat, ConnectionManager._stop_heartbeat,
    ConnectionManager.subscribe_room,
    ConnectionManager.unsubscribe_room_if_empty,
    ConnectionManager.ensure_pubsub_task, uuid4_hex, set_manager,
    set_redis, gets, modify, mbind, M_bind, mret, M_ret.

(** Case analysis on a decision, or on a scrutinee that holds no further
    case analysis. *)
Ltac case_inner :=
  match goal with
  | |- context [match ?x with _ => _ end] =>
      lazymatch type of x with
      | sumbool _ _ => destruct x
      | _ =>
          lazymatch x with
          | context [match _ with _ => _ end] => fail
          | _ => destruct x eqn:?
          end
      end
  end.

Ltac run_scan :=
  repeat match goal with
         | |- context [scan_any ?p ?w] => rewrite (scan_any_run p w)
         end.

Ltac split_cases :=
  repeat (cbn in *; run_scan; rewrite ?lookup_insert_eq, ?lookup_delete_eq;
          case_inner; simplify_eq);
  cbn in *; run_scan; cbn in *.

Ltac split_cases_with H1 H2 :=
  repeat (cbn in *; run_scan;
          rewrite ?lookup_insert_eq, ?lookup_delete_eq, ?H1, ?H2;
          case_inner; simplify_eq);
  cbn in *; run_scan; cbn in *.

Ltac absurd_some :=
  match goal with
  | H : is_Some None |- _ => by destruct H
  | H : is_Some ?x, E : ?x = None |- _ => rewrite E in H; by destruct H
  | H : ¬ is_Some (Some _) |- _ => by destruct H; eauto
  end.

Section join_effects.
Variables (room : string) (ws : nat) (username : string) (w : World).

Let w' : World := (ConnectionManager.join room ws username w).2.

Lemma join_settings : settings w' = settings w.
Proof. subst w'. unfold_manager. split_cases; reflexivity. Qed.
Lemma join_trace : trace w' = trace w.
Proof. subst w'. unfold_manager. split_cases; reflexivity. Qed.
Lemma join_db : db w' = db w.
Proof. subst w'. unfold_manager. split_cases; reflexivity. Qed.
Lemma join_uuid_source : uuid_source w' = uuid_source w.
Proof. subst w'. unfold_manager. split_cases; reflexivity. Qed.

Lemma join_rooms :
  rooms (manager w') =
  <[room := members (manager w) room ∪ {[ws]}]> (rooms (manager w)).
Proof. subst w'. unfold_manager. split_cases; reflexivity. Qed.

Lemma join_conn_rooms :
  conn_rooms (manager w') =
  <[ws := rooms_of (manager w) ws ∪ {[room]}]> (conn_rooms (manager w)).
Proof. subst w'. unfold_manager. split_cases; reflexivity. Qed.

Lemma join_ws_username :
  ws_username (manager w') = <[ws := username]> (ws_username (manager w)).
Proof. subst w'. unfold_manager. split_cases; reflexivity. Qed.

Lemma join_room_subscribed :
  room_subscribed (manager w') = room_subscribed (manager w) ∪ {[room]}.
Proof. subst w'. unfold_manager. split_cases; set_solver. Qed.

Lemma join_subscribed :
  FakeRedis._subscribed (redis w') =
  if decide (room ∈ room_subscribed (manager w))
  then FakeRedis._subscribed (redis w)
  else {[CHANNEL_PREFIX +:+ room]} ∪ FakeRedis._subscribed (redis w).
Proof. subst w'. unfold_manager. split_cases; reflexivity. Qed.

(** [join] answers [True] exactly when the scan finds no key of the
    user in the room in the store as it was before the call. *)
Lemma join_first_global :
  (ConnectionManager.join room ws username w).1 =
  negb (Py.list_truthy (FakeRedis.scan (redis w) 0 (pattern_user room username) 50).2).
Proof. unfold_manager. split_cases; reflexivity. Qed.

(** The store after [join]: nothing is deleted, and what is new is a
    heartbeat key of this room and user with the configured TTL. *)
Lemma join_data_keeps k :
  is_Some (FakeRedis._data (redis w) !! k) →
  is_Some (FakeRedis._data (redis w') !! k).
Proof.
  subst w'. unfold_manager. intros Hk.
  split_cases; rewrite ?lookup_insert_is_Some'; auto.
Qed.

Lemma join_data_new k v :
  FakeRedis._data (redis w') !! k = Some v →
  FakeRedis._data (redis w) !! k = Some v ∨
  (v = ("1", HEARTBEAT_TTL_MS (settings w)) ∧
   ∃ conn_id, k = ConnectionManager._heartbeat_key room username conn_id).
Proof.
  subst w'. unfold_manager.
  split_cases; intros Hk; auto;
    (apply lookup_insert_Some in Hk as [[<- <-]|[_ Hk]]; [right|by left];
     eauto).
Qed.

(** A socket without a heartbeat task in the room gets its key written
    during [join]. *)
Lemma join_writes_key :
  heartbeat_tasks (manager w) !! (ws, room) = None →
  presence_key_exists (redis w') room username.
Proof.
  subst w'. unfold_manager. intros Htask.
  split_cases_with Htask Htask; try absurd_some;
    (unfold presence_key_exists; eexists; cbn; by rewrite lookup_insert_eq).
Qed.

(** The join of a socket that is new to the manager: one uuid is drawn
    and becomes its connection id, and the key of that id is written. *)
Lemma join_fresh :
  ws_conn_id (manager w) !! ws = None →
  heartbeat_tasks (manager w) !! (ws, room) = None →
  Py.truthy (uuid_source w (uuid_drawn w)) = true →
  let conn_id := uuid_source w (uuid_drawn w) in
  let hb_key := ConnectionManager._heartbeat_key room username conn_id in
  FakeRedis._data (redis w') =
    <[hb_key := ("1", HEARTBEAT_TTL_MS (settings w))]> (FakeRedis._data (redis w)) ∧
  ws_conn_id (manager w') = <[ws := conn_id]> (ws_conn_id (manager w)) ∧
  heartbeat_tasks (manager w') =
    <[(ws, room) := hb_key]> (heartbeat_tasks (manager w)) ∧
  uuid_drawn w' = S (uuid_drawn w).
Proof.
  subst w'. unfold_manager. intros Hid Htask Htruthy.
  split_cases_with Hid Htask; try absurd_some; try congruence; done.
Qed.

End join_effects.

(** ** The effect of [leave] on each part of the world *)

(** [rooms[room].discard(ws)], and the [pop] of a room left empty. *)
Lemma members_discard (rs : gmap string (gset nat)) room ws r :
  default ∅
    (match rs !! room with
     | Some s =>
         if decide (s ∖ {[ws]} = ∅) then delete room rs
         else <[room := s ∖ {[ws]}]> rs
     | None => rs
     end !! r) =
  if decide (r = room) then default ∅ (rs !! room) ∖ {[ws]}
  else default ∅ (rs !! r).
Proof.
  destruct (decide (r = room)) as [->|Hne].
  - destruct (rs !! room) as [s|] eqn:E; cbn; [|rewrite ?E; cbn; set_solver].
    destruct (decide (s ∖ {[ws]} = ∅)) as [Hs|Hs].
    + rewrite lookup_delete_eq. cbn. by rewrite Hs.
    + by rewrite lookup_insert_eq.
  - destruct (rs !! room) as [s|] eqn:E; [|done].
    destruct (decide (s ∖ {[ws]} = ∅)).
    + by rewrite lookup_delete_ne.
    + by rewrite lookup_insert_ne.
Qed.

Section leave_effects.
Variables (room : string) (ws : nat) (w : World).

Let w' : World := (ConnectionManager.leave room ws w).2.

Lemma leave_settings : settings w' = settings w.
Proof. subst w'. unfold_manager. split_cases; reflexivity. Qed.
Lemma leave_trace : trace w' = trace w.
Proof. subst w'. unfold_manager. split_cases; reflexivity. Qed.
Lemma leave_db : db w' = db w.
Proof. subst w'. unfold_manager. split_cases; reflexivity. Qed.
Lemma leave_uuid_source : uuid_source w' = uuid_source w.
Proof. subst w'. unfold_manager. split_cases; reflexivity. Qed.
Lemma leave_uuid_drawn : uuid_drawn w' = uuid_drawn w.
Proof. subst w'. unfold_manager. split_cases; reflexivity. Qed.
Lemma leave_ws_username : ws_username (manager w') = ws_username (manager w).
Proof. subst w'. unfold_manager. split_cases; reflexivity. Qed.
Lemma leave_ws_conn_id : ws_conn_id (manager w') = ws_conn_id (manager w).
Proof. subst w'. unfold_manager. split_cases; reflexivity. Qed.

Lemma leave_heartbeat_tasks :
  heartbeat_tasks (manager w') = delete (ws, room) (heartbeat_tasks (manager w)).
Proof. subst w'. unfold_manager. split_cases; reflexivity. Qed.

Lemma leave_conn_rooms :
  conn_rooms (manager w') =
  <[ws := rooms_of (manager w) ws ∖ {[room]}]> (conn_rooms (manager w)).
Proof. subst w'. unfold_manager. split_cases; reflexivity. Qed.

Lemma leave_rooms :
  rooms (manager w') =
  match rooms (manager w) !! room with
  | Some s =>
      if decide (s ∖ {[ws]} = ∅) then delete room (rooms (manager w))
      else <[room := s ∖ {[ws]}]> (rooms (manager w))
  | None => rooms (manager w)
  end.
Proof. subst w'. unfold_manager. split_cases; reflexivity. Qed.

Lemma leave_members r :
  members (manager w') r =
  if decide (r = room) then members (manager w) room ∖ {[ws]}
  else members (manager w) r.
Proof. unfold members. rewrite leave_rooms. apply members_discard. Qed.

Lemma leave_data :
  FakeRedis._data (redis w') =
  match stopped_key room ws w with
  | Some hb_key => delete hb_key (FakeRedis._data (redis w))
  | None => FakeRedis._data (redis w)
  end.
Proof.
  subst w'. unfold stopped_key. unfold_manager. split_cases; reflexivity.
Qed.

Lemma leave_room_subscribed :
  room_subscribed (manager w') =
  if decide (room ∈ room_subscribed (manager w) ∧
             members (manager w) room ∖ {[ws]} = ∅)
  then room_subscribed (manager w) ∖ {[room]}
  else room_subscribed (manager w).
Proof.
  pose proof (leave_members room) as Hm. rewrite decide_True in Hm by done.
  rewrite <- Hm. clear Hm.
  subst w'. unfold_manager. split_cases; try reflexivity; tauto.
Qed.

Lemma leave_subscribed :
  FakeRedis._subscribed (redis w') =
  if decide (room ∈ room_subscribed (manager w) ∧
             members (manager w) room ∖ {[ws]} = ∅)
  then FakeRedis._subscribed (redis w) ∖ {[CHANNEL_PREFIX +:+ room]}
  else FakeRedis._subscribed (redis w).
Proof.
  pose proof (leave_members room) as Hm. rewrite decide_True in Hm by done.
  rewrite <- Hm. clear Hm.
  subst w'. unfold_manager. split_cases; try reflexivity; tauto.
Qed.

(** What [leave] answers: the socket's name, and whether the scan that
    follows the deletion of its key finds no key of that user. *)
Lemma leave_result :
  (ConnectionManager.leave room ws w).1 =
  (match ws_username (manager w) !! ws with
   | Some u =>
       Py.truthy u &&
       negb (Py.list_truthy
               (FakeRedis.scan (redis w') 0 (pattern_user room u) 50).2)
   | None => false
   end,
   ws_username (manager w) !! ws).
Proof. subst w'. unfold_manager. split_cases; reflexivity. Qed.

End leave_effects.

(** ** An explicit leave frame, and the cleanup on disconnect *)

(** [leave] neither reads nor writes the trace. *)
Lemma leave_add_events room ws evs w :
  ConnectionManager.leave room ws (add_events evs w) =
  ((ConnectionManager.leave room ws w).1,
   add_events evs (ConnectionManager.leave room ws w).2).
Proof.
  unfold add_events. unfold_manager.
  split_cases; first [reflexivity | exfalso; tauto].
Qed.

Lemma handle_leave_run ws (msg : gmap string json) w room :
  msg_get msg "room" = JStr room →
  room ∈ rooms_of (manager w) ws →
  handle_leave ws msg w =
  ((), add_events
         (leave_events room (ConnectionManager.leave room ws w).1
            (ConnectionManager.leave room ws w).2)
         (ConnectionManager.leave room ws w).2).
Proof.
  intros Hroom Hin. unfold handle_leave. rewrite Hroom.
  rewrite bind_run, in_room_run. cbn.
  rewrite bool_decide_eq_true_2 by done. cbn.
  unfold leave_events, leave_announcement, mbind, M_bind.
  destruct (ConnectionManager.leave room ws w) as [[removed [uname|]] w'];
    cbn; [|by rewrite add_events_nil].
  destruct (removed && Py.truthy uname); cbn; [|by rewrite add_events_nil].
  unfold peers, gets. run_sends. same_trace.
Qed.

Section cleanup.
Variable ws : nat.

Lemma leave_each_run rs acc w :
  ConnectionManager.leave_each ws rs acc w =
  (acc ++ collected ws rs w, leaves ws rs w).
Proof.
  revert acc w. induction rs as [|r rs IH]; intros acc w.
  - cbn. by rewrite app_nil_r.
  - cbn [ConnectionManager.leave_each collected leaves foldl].
    unfold mbind, M_bind.
    destruct (ConnectionManager.leave r ws w) as [[removed uname] w1]. cbn.
    rewrite IH. f_equal.
    destruct uname as [u|]; [destruct (removed && Py.truthy u)|]; cbn;
      by rewrite <- ?app_assoc, ?app_nil_r.
Qed.

Lemma for_cons {A} (x : A) xs (body : A → M unit) :
  for_ (x :: xs) body = (body x ;; for_ xs body).
Proof. reflexivity. Qed.

Lemma announce_one room uname w :
  announce (room, uname) w =
  ((), add_events (leave_announcement w room uname) w).
Proof.
  unfold announce, mbind, M_bind, peers, gets. run_sends.
  unfold leave_announcement. same_trace.
Qed.

(** The second loop: one announcement per pair, each with the peers
    the room has when the loop runs. *)
Lemma announce_run (evs : list (string * string)) w :
  for_ evs announce w =
  ((), add_events (evs ≫= λ '(room, uname), leave_announcement w room uname) w).
Proof.
  revert w. induction evs as [|[room uname] evs IH]; intros w.
  - cbn. by rewrite add_events_nil.
  - rewrite for_cons. erewrite bind_run_eq by apply announce_one.
    rewrite IH. cbn. unfold leave_announcement. same_trace.
Qed.

Lemma leave_all_run w :
  ConnectionManager.leave_all ws w =
  let rs := elements (rooms_of (manager w) ws) in
  let w' := forget ws (leaves ws rs w) in
  ((), add_events
         (collected ws rs w ≫= λ '(room, uname), leave_announcement w' room uname)
         w').
Proof.
  unfold ConnectionManager.leave_all.
  erewrite bind_run_eq by reflexivity.
  erewrite bind_run_eq by apply leave_each_run.
  do 3 (erewrite bind_run_eq by reflexivity).
  cbn [app]. apply announce_run.
Qed.

End cleanup.

(** ** Disconnect against explicit leave frames *)

Arguments leaves : simpl never.

Section disconnect.
Variables (ws : nat) (user : UserORM).

Lemma leaves_cons r rs w :
  leaves ws (r :: rs) w = leaves ws rs (ConnectionManager.leave r ws w).2.
Proof. reflexivity. Qed.

Lemma leaves_add_events rs evs w :
  leaves ws rs (add_events evs w) = add_events evs (leaves ws rs w).
Proof.
  revert w. induction rs as [|r rs IH]; intros w; [done|].
  rewrite !leaves_cons, leave_add_events. cbn [snd]. apply IH.
Qed.

Lemma announced_add_events rs evs w :
  announced ws rs (add_events evs w) = announced ws rs w.
Proof.
  revert w. induction rs as [|r rs IH]; intros w; [done|].
  cbn. rewrite leave_add_events. cbn. by rewrite IH.
Qed.

Lemma leaves_settings rs w : settings (leaves ws rs w) = settings w.
Proof.
  revert w. induction rs as [|r rs IH]; intros w; [done|].
  by rewrite leaves_cons, IH, leave_settings.
Qed.

Lemma leaves_members rs w r :
  r ∉ rs → members (manager (leaves ws rs w)) r = members (manager w) r.
Proof.
  revert w. induction rs as [|r' rs IH]; intros w Hr; [done|].
  apply not_elem_of_cons in Hr as [Hne Hr].
  rewrite leaves_cons, IH by done. rewrite leave_members.
  by rewrite decide_False.
Qed.

Lemma leave_rooms_of room w :
  rooms_of (manager (ConnectionManager.leave room ws w).2) ws =
  rooms_of (manager w) ws ∖ {[room]}.
Proof. unfold rooms_of at 1. by rewrite leave_conn_rooms, lookup_insert_eq. Qed.

Lemma leave_frame_type r : msg_get (leave_frame r) "type" = JStr "leave".
Proof. reflexivity. Qed.

Lemma leave_frame_room r : msg_get (leave_frame r) "room" = JStr r.
Proof. reflexivity. Qed.

Lemma explicit_leaves_run rs w :
  NoDup rs →
  (∀ r, r ∈ rs → r ∈ rooms_of (manager w) ws) →
  for_ rs (λ r, handle_message ws user (leave_frame r)) w =
  ((), add_events (announced ws rs w) (leaves ws rs w)).
Proof.
  revert w. induction rs as [|r rs IH]; intros w Hnd Hin.
  - cbn. by rewrite add_events_nil.
  - apply NoDup_cons in Hnd as [Hr Hnd].
    rewrite for_cons. erewrite bind_run_eq; last first.
    { rewrite dispatch_leave by apply leave_frame_type.
      apply handle_leave_run; [apply leave_frame_room|].
      apply Hin. left. }
    rewrite IH; [|done|].
    + rewrite leaves_add_events, announced_add_events, add_events_app.
      reflexivity.
    + intros r' Hr'. change (manager (add_events ?e ?w)) with (manager w).
      rewrite leave_rooms_of. apply elem_of_difference. split.
      * apply Hin. by right.
      * intros ->%elem_of_singleton. done.
Qed.

Lemma leave_announcement_ext w1 w2 room uname :
  members (manager w1) room = members (manager w2) room →
  SERVER_ID (settings w1) = SERVER_ID (settings w2) →
  leave_announcement w1 room uname = leave_announcement w2 room uname.
Proof. intros Hm Hs. unfold leave_announcement. by rewrite Hm, Hs. Qed.

Lemma announced_collected rs w wf :
  NoDup rs →
  (∀ r, r ∈ rs → members (manager wf) r = members (manager (leaves ws rs w)) r) →
  settings wf = settings w →
  announced ws rs w =
  collected ws rs w ≫= λ '(room, uname), leave_announcement wf room uname.
Proof.
  revert w. induction rs as [|r rs IH]; intros w Hnd Hm Hs; [done|].
  apply NoDup_cons in Hnd as [Hr Hnd].
  cbn [announced collected]. rewrite bind_app. f_equal.
  - unfold leave_events.
    destruct (ConnectionManager.leave r ws w).1.2 as [u|]; [|done].
    destruct (_ && _); [|done]. cbn. rewrite app_nil_r.
    apply leave_announcement_ext.
    + rewrite Hm by left. by rewrite leaves_cons, leaves_members.
    + by rewrite Hs, leave_settings.
  - apply IH; [done| |by rewrite leave_settings].
    intros r' Hr'. apply Hm. by right.
Qed.

End disconnect.

(** C3. Closing a socket without leave frames ([leave_all]) leaves the
    same trace -- the same presence diffs and system lines, to the same
    local peers and on the same channels, each fan-out before its
    publication -- as handling one leave frame for each joined room, in
    the order in which [leave_all] walks the rooms. The store, the
    tables, the room registry, the subscriptions and the heartbeat tasks
    end up the same as well; the announcements are part of the cleanup
    itself and wait for no key to expire. *)
Theorem disconnect_as_explicit_leaves ws user w :
  let rs := elements (rooms_of (manager w) ws) in
  let graceful :=
    exec (for_ rs (λ r, handle_message ws user (leave_frame r))) w in
  let abrupt := exec (disconnect ws) w in
  trace abrupt = trace graceful ∧
  redis abrupt = redis graceful ∧
  db abrupt = db graceful ∧
  rooms (manager abrupt) = rooms (manager graceful) ∧
  room_subscribed (manager abrupt) = room_subscribed (manager graceful) ∧
  heartbeat_tasks (manager abrupt) = heartbeat_tasks (manager graceful).
Proof.
  intros rs graceful abrupt. subst graceful abrupt.
  unfold exec, disconnect.
  rewrite leave_all_run, explicit_leaves_run; cbn [snd].
  - fold rs.
    rewrite (announced_collected ws rs w (forget ws (leaves ws rs w)));
      [done|apply NoDup_elements|done|].
    unfold forget, exec. cbn. apply leaves_settings.
  - apply NoDup_elements.
  - intros r Hr. by apply elem_of_elements in Hr.
Qed.

(** ** Runs of the server *)

Section steps.

Lemma same_core_add_events evs w : same_core w (add_events evs w).
Proof. done. Qed.

Lemma leaves_steps ws rs w : rtc core_step w (leaves ws rs w).
Proof.
  revert w. induction rs as [|r rs IH]; intros w; [done|].
  rewrite leaves_cons. eapply rtc_l; [apply step_leave|apply IH].
Qed.

Lemma handle_chat_core ws user msg w :
  same_core w (exec (handle_chat ws user msg) w).
Proof.
  unfold handle_chat, exec.
  destruct (msg_get msg "room") as [| | | |room| |];
    destruct (msg_get msg "message") as [| | | |content| |]; try done.
  rewrite bind_run, in_room_run. cbn.
  destruct (bool_decide _); [|done].
  rewrite bind_run. unfold gets at 1. cbn.
  destruct (select_room _ _) as [chat_room_obj|]; [|done].
  destruct (select_member _ _ _) as [member|]; [|done].
  destruct (RoomMemberORM_is_banned member); [done|].
  destruct (RoomMemberORM_is_muted member); [done|].
  unfold mbind, M_bind, set_db, modify, peers, gets. run_sends. done.
Qed.

Lemma handle_history_more_core ws msg w :
  same_core w (exec (handle_history_more ws msg) w).
Proof.
  unfold handle_history_more, exec.
  destruct (msg_get msg "room") as [| | | |room| |];
    destruct (json_int (msg_get msg "before_id")) as [before_id|]; try done.
  rewrite bind_run, in_room_run. cbn.
  destruct (bool_decide _); [|done].
  rewrite bind_run. unfold gets at 1. cbn.
  by destruct (select_room _ _).
Qed.

Lemma handle_typing_core ws user msg w :
  same_core w (exec (handle_typing ws user msg) w).
Proof.
  unfold handle_typing, exec.
  destruct (msg_get msg "room") as [| | | |room| |]; try done.
  rewrite bind_run, in_room_run. cbn.
  destruct (bool_decide _); [|done].
  unfold mbind, M_bind, peers, gets. run_sends. done.
Qed.

Lemma handle_join_steps ws user msg w :
  rtc core_step w (exec (handle_join ws user msg) w).
Proof.
  destruct (msg_get msg "room") as [| | | |room| |] eqn:Hroom;
    try (apply rtc_once, step_same; unfold handle_join, exec;
         by rewrite Hroom).
  unfold exec.
  rewrite (handle_join_run ws user msg w room Hroom _ _
             (surjective_pairing _)).
  cbn [snd].
  eapply rtc_l; [apply step_same|].
  { instantiate (1 := before_join user w room). done. }
  eapply rtc_l; [apply step_join|].
  apply rtc_once, step_same, same_core_add_events.
Qed.

Lemma handle_leave_steps ws msg w :
  rtc core_step w (exec (handle_leave ws msg) w).
Proof.
  destruct (msg_get msg "room") as [| | | |room| |] eqn:Hroom;
    try (unfold handle_leave, exec; by rewrite Hroom).
  destruct (decide (room ∈ rooms_of (manager w) ws)) as [Hin|Hout].
  - unfold exec. rewrite (handle_leave_run ws msg w room) by done.
    cbn [snd]. eapply rtc_l; [apply step_leave|].
    apply rtc_once, step_same, same_core_add_events.
  - unfold exec. rewrite handle_leave_not_joined; [done|].
    intros room' Heq. by replace room' with room by congruence.
Qed.

Lemma run_op_steps o w : rtc core_step w (run_op o w).
Proof.
  destruct o as [room ws username|room ws|ws|ws user msg]; cbn [run_op].
  - apply rtc_once, step_join.
  - apply rtc_once, step_leave.
  - unfold exec. rewrite leave_all_run. cbn [snd].
    etrans; [apply leaves_steps|].
    eapply rtc_l; [apply step_same|apply rtc_once, step_same].
    + instantiate (1 := forget ws (leaves ws _ w)). done.
    + apply same_core_add_events.
  - unfold handle_message.
    destruct (msg_get msg "type") as [| | | |mtype| |];
      try (apply rtc_once, step_same; done).
    repeat case_match;
      auto using handle_join_steps, handle_leave_steps, rtc_once, step_same,
        handle_chat_core, handle_history_more_core, handle_typing_core.
    all: apply rtc_once, step_same; done.
Qed.

(** A property of the registry and the store that survives [join],
    [leave] and changes elsewhere holds throughout every run. *)
Lemma run_invariant (P : World → Prop) :
  (∀ w w', core_step w w' → P w → P w') →
  ∀ ops w, P w → P (run ops w).
Proof.
  intros Hstep ops. induction ops as [|o ops IH]; intros w Hw; [done|].
  cbn. apply IH.
  assert (∀ w1 w2, rtc core_step w1 w2 → P w1 → P w2) as Hrtc
    by (induction 1; eauto).
  eapply Hrtc; [apply run_op_steps|done].
Qed.

End steps.

(** ** Subscriptions follow local membership *)

Section subscriptions.

Lemma join_members room ws username w r :
  members (manager (ConnectionManager.join room ws username w).2) r =
  if decide (r = room) then members (manager w) room ∪ {[ws]}
  else members (manager w) r.
Proof.
  unfold members at 1. rewrite join_rooms.
  case_decide as Hr.
  - subst. by rewrite lookup_insert_eq.
  - by rewrite lookup_insert_ne.
Qed.

Lemma subscription_inv_boot s d source : subscription_inv (boot s d source).
Proof. intros room. cbn. unfold members. cbn. set_solver. Qed.

Lemma subscription_inv_join room ws username w :
  subscription_inv w →
  subscription_inv (ConnectionManager.join room ws username w).2.
Proof.
  intros Hinv r. destruct (Hinv r) as [Hr1 Hr2]. destruct (Hinv room) as [H1 H2].
  rewrite join_room_subscribed, join_subscribed, join_members.
  destruct (decide (r = room)) as [->|Hne].
  - split; [set_solver|]. case_decide; set_solver.
  - assert (CHANNEL_PREFIX +:+ r ≠ CHANNEL_PREFIX +:+ room)
      by (intros ?%(inj _); done).
    split; [set_solver|]. case_decide; set_solver.
Qed.

Lemma subscription_inv_leave room ws w :
  subscription_inv w →
  subscription_inv (ConnectionManager.leave room ws w).2.
Proof.
  intros Hinv r. destruct (Hinv r) as [Hr1 Hr2]. destruct (Hinv room) as [H1 H2].
  rewrite leave_room_subscribed, leave_subscribed, leave_members.
  destruct (decide (r = room)) as [->|Hne].
  - case_decide as Hd.
    + destruct Hd as [Hd1 Hd2]. rewrite Hd2. set_solver.
    + split; [|done]. rewrite Hr1. split; [|set_solver].
      intros Hne Hempty. apply Hd. split; [|done]. by apply Hr1.
  - assert (CHANNEL_PREFIX +:+ r ≠ CHANNEL_PREFIX +:+ room)
      by (intros ?%(inj _); done).
    case_decide; set_solver.
Qed.

Lemma subscription_inv_step w w' :
  core_step w w' → subscription_inv w → subscription_inv w'.
Proof.
  intros [room ws username w0|room ws w0|w0 w1 (Hs & Hr & Hm & Hsub)] Hinv.
  - by apply subscription_inv_join.
  - by apply subscription_inv_leave.
  - intros r. unfold members. rewrite Hr, Hm, Hsub. apply Hinv.
Qed.

End subscriptions.

(** C9. In every world that a process reaches from start-up through
    joins, leaves, disconnects and frames, a room is subscribed (listed
    in [room_subscribed], its channel subscribed on the bus) if and only
    if some local socket is registered in it. In particular a join
    leaves the room subscribed with the socket in it, and after a leave
    the room is unsubscribed exactly when the socket was its last local
    member. *)
Theorem subscribed_iff_local_member s d source ops room :
  let w := run ops (boot s d source) in
  (room ∈ room_subscribed (manager w) ↔ members (manager w) room ≠ ∅) ∧
  (CHANNEL_PREFIX +:+ room ∈ FakeRedis._subscribed (redis w) ↔
   members (manager w) room ≠ ∅) ∧
  (∀ ws username,
     let w' := run_op (OpJoin room ws username) w in
     room ∈ room_subscribed (manager w') ∧ ws ∈ members (manager w') room) ∧
  (∀ ws,
     let w' := run_op (OpLeave room ws) w in
     room ∉ room_subscribed (manager w') ↔
     members (manager w) room ∖ {[ws]} = ∅).
Proof.
  intros w.
  assert (subscription_inv w) as Hinv.
  { apply run_invariant; [apply subscription_inv_step|].
    apply subscription_inv_boot. }
  destruct (Hinv room) as [H1 H2]. split; [done|]. split; [by rewrite H2|].
  split.
  - intros ws username. cbn. unfold exec.
    rewrite join_room_subscribed, join_members, decide_True by done.
    set_solver.
  - intros ws. cbn. unfold exec.
    destruct (subscription_inv_leave room ws w Hinv room) as [H3 _].
    rewrite H3, leave_members, decide_True by done.
    split; [|by intros ->; auto].
    intros Hn. destruct (decide (members (manager w) room ∖ {[ws]} = ∅)); tauto.
Qed.

(** ** The layout of the keys in the store *)

Section key_layout.

Lemma keys_inv_step w w' : core_step w w' → keys_inv w → keys_inv w'.
Proof.
  intros [room ws username w0|room ws w0|w0 w1 (Hs & Hr & _)] Hinv k v.
  - rewrite join_settings. intros [Hk|[-> [conn_id ->]]]%join_data_new; eauto.
  - rewrite leave_settings, leave_data.
    destruct (stopped_key room ws w0); [|by apply Hinv].
    intros [_ Hk]%lookup_delete_Some. by apply Hinv.
  - rewrite Hs, Hr. apply Hinv.
Qed.

Lemma keys_inv_boot s d source : keys_inv (boot s d source).
Proof. intros k v. cbn. by rewrite lookup_empty. Qed.

End key_layout.

(** The key of alice's record is not of the layout
    [presence:<room>:<username>:<connectionId>]: the store holds
    ["presence:hb:lobby:alice:c0"] and nothing under
    ["presence:lobby:alice:c0"]. *)
Lemma key_layout_without_hb_fails :
  FakeRedis.keys (redis lobby_with_alice) = ["presence:hb:lobby:alice:c0"] ∧
  ConnectionManager._heartbeat_key "lobby" "alice" "c0" ≠
    "presence:" +:+ "lobby" +:+ ":" +:+ "alice" +:+ ":" +:+ "c0" ∧
  FakeRedis._data (redis lobby_with_alice)
    !! ("presence:" +:+ "lobby" +:+ ":" +:+ "alice" +:+ ":" +:+ "c0") = None.
Proof. vm_compute. by repeat split. Qed.

(** C6. The key of the record of room R, user U and connection
    C is ["presence:hb:" ++ R ++ ":" ++ U ++ ":" ++ C]; in every run from
    start-up each key in the store has that layout and was written with
    the sentinel ["1"] and the TTL [HEARTBEAT_TTL_MS], a number of
    milliseconds that defaults to [(25 + 5) * 1000]. *)
Theorem presence_key_layout s d source ops k v :
  let w := run ops (boot s d source) in
  FakeRedis._data (redis w) !! k = Some v →
  (v = ("1", HEARTBEAT_TTL_MS s) ∧
   ∃ room username conn_id,
     k = "presence:hb:" +:+ room +:+ ":" +:+ username +:+ ":" +:+ conn_id) ∧
  (∀ room username conn_id,
     ConnectionManager._heartbeat_key room username conn_id =
     "presence:hb:" +:+ room +:+ ":" +:+ username +:+ ":" +:+ conn_id) ∧
  (∀ server_id, HEARTBEAT_TTL_MS (default_settings server_id) = 30000).
Proof.
  intros w Hk.
  assert (keys_inv w ∧ settings w = s) as [Hinv Hs].
  { apply (run_invariant (λ w, keys_inv w ∧ settings w = s)).
    - intros w1 w2 Hstep [Hinv Hs]. split; [by eapply keys_inv_step|].
      destruct Hstep as [? ? ? w0|? ? w0|w0 w1' (Heq & _)].
      + by rewrite join_settings.
      + by rewrite leave_settings.
      + by rewrite Heq.
    - split; [apply keys_inv_boot|done]. }
  destruct (Hinv k v Hk) as [-> Hlayout]. rewrite Hs. done.
Qed.

Lemma presence_key_layout_witness :
  (("1", 30000) = ("1", HEARTBEAT_TTL_MS (default_settings "srv-a")) ∧
   ∃ room username conn_id,
     "presence:hb:lobby:alice:c0" =
     "presence:hb:" +:+ room +:+ ":" +:+ username +:+ ":" +:+ conn_id) ∧
  (∀ room username conn_id,
     ConnectionManager._heartbeat_key room username conn_id =
     "presence:hb:" +:+ room +:+ ":" +:+ username +:+ ":" +:+ conn_id) ∧
  (∀ server_id, HEARTBEAT_TTL_MS (default_settings server_id) = 30000).
Proof.
  apply (presence_key_layout (default_settings "srv-a")
           (mkDatabase [alice] [] [] [] 0) demo_uuid
           [OpFrame 1 alice (join_frame "lobby")]
           "presence:hb:lobby:alice:c0" ("1", 30000)).
  vm_compute. reflexivity.
Defined.

(** ** The join branch: validation of the room field *)

Section join_validation.
Variables (ws : nat) (user : UserORM) (msg : gmap string json) (w : World).

Lemma handle_join_not_str :
  (∀ room, msg_get msg "room" ≠ JStr room) →
  handle_join ws user msg w =
  ((), add_events [Sent ws (error "room required")] w).
Proof.
  intros Hroom. unfold handle_join.
  destruct (msg_get msg "room") as [| | | |room| |]; try reflexivity.
  by destruct (Hroom room).
Qed.

Lemma join_task room username :
  is_Some (heartbeat_tasks
             (manager (ConnectionManager.join room ws username w).2)
           !! (ws, room)).
Proof. unfold_manager. split_cases; try done; by rewrite lookup_insert_eq. Qed.

End join_validation.

(** The empty room name is accepted: alice's socket is registered in the
    room [""], gets the [joined] ack, and her key is written. *)
Lemma empty_room_join_accepted :
  let w := boot (default_settings "srv-a") (mkDatabase [alice] [] [] [] 0) demo_uuid in
  let w' := exec (handle_message 1 alice (join_frame "")) w in
  trace w' =
    [Sent 1 (joined ""); Sent 1 (OutPresenceState "" ["alice"]);
     Published "room:" "srv-a" (OutPresenceDiff "" ["alice"] []);
     Published "room:" "srv-a" (OutSystemMessage "" "alice joined")] ∧
  elements (members (manager w') "") = [1%nat] ∧
  FakeRedis.keys (redis w') = ["presence:hb::alice:c0"] ∧
  RoomORM_name <$> room_rows (db w') = [""].
Proof. vm_compute. by repeat split. Qed.

(** C8. A join frame is handled when its room field is a
    string, the empty string included: the socket is then registered in
    the room, the room is subscribed, a heartbeat task holds the pair,
    the key is written unless such a task was there already, and the
    first frame sent is the [joined] ack. A join frame whose room is
    missing or not a string only gets the error frame "room required":
    the registry, the subscriptions, the store and the tables stay as
    they were. *)
Theorem join_room_validation ws user (msg : gmap string json) w :
  msg_get msg "type" = JStr "join" →
  match msg_get msg "room" with
  | JStr room =>
      let w' := exec (handle_message ws user msg) w in
      ws ∈ members (manager w') room ∧
      room ∈ rooms_of (manager w') ws ∧
      room ∈ room_subscribed (manager w') ∧
      ws_username (manager w') !! ws = Some (UserORM_username user) ∧
      is_Some (heartbeat_tasks (manager w') !! (ws, room)) ∧
      (heartbeat_tasks (manager w) !! (ws, room) = None →
       presence_key_exists (redis w') room (UserORM_username user)) ∧
      ∃ rest, trace w' = trace w ++ Sent ws (joined room) :: rest
  | _ =>
      handle_message ws user msg w =
      ((), add_events [Sent ws (error "room required")] w)
  end.
Proof.
  intros Htype. unfold exec. rewrite !dispatch_join by done.
  destruct (msg_get msg "room") as [| | | |room| |] eqn:Hroom;
    try (apply handle_join_not_str; intros room'; by rewrite Hroom).
  cbn zeta.
  rewrite (handle_join_run ws user msg w room Hroom _ _ (surjective_pairing _)).
  cbn [snd].
  change (manager (add_events ?e ?w)) with (manager w).
  change (redis (add_events ?e ?w)) with (redis w).
  rewrite join_members, decide_True by done.
  unfold rooms_of at 1.
  rewrite join_conn_rooms, lookup_insert_eq, join_room_subscribed,
    join_ws_username, lookup_insert_eq.
  repeat split; try set_solver.
  - apply join_task.
  - intros Htask. by apply join_writes_key.
  - eexists. unfold add_events. cbn. rewrite join_trace. reflexivity.
Qed.

Lemma join_room_validation_witness :
  let w := boot (default_settings "srv-a") (mkDatabase [alice] [] [] [] 0) demo_uuid in
  let w' := exec (handle_message 1 alice (join_frame "lobby")) w in
  1%nat ∈ members (manager w') "lobby" ∧
  "lobby" ∈ rooms_of (manager w') 1 ∧
  "lobby" ∈ room_subscribed (manager w') ∧
  ws_username (manager w') !! 1%nat = Some "alice" ∧
  is_Some (heartbeat_tasks (manager w') !! (1%nat, "lobby")) ∧
  (heartbeat_tasks (manager w) !! (1%nat, "lobby") = None →
   presence_key_exists (redis w') "lobby" "alice") ∧
  ∃ rest, trace w' = trace w ++ Sent 1 (joined "lobby") :: rest.
Proof.
  exact (join_room_validation 1 alice (join_frame "lobby")
           (boot (default_settings "srv-a") (mkDatabase [alice] [] [] [] 0)
              demo_uuid) eq_refl).
Defined.

(** ** The join branch: what the joining socket receives *)

Section history.

#[local] Instance newer_first_total : Total newer_first.
Proof. intros a b. unfold newer_first. lia. Qed.

#[local] Instance newer_first_trans : Transitive newer_first.
Proof. intros a b c. unfold newer_first. lia. Qed.

Lemma history_rows_length d room_id :
  (length (history_rows d room_id) ≤ Z.to_nat HISTORY_LIMIT)%nat.
Proof.
  unfold history_rows. rewrite length_fmap, length_take. lia.
Qed.

(** Every row is a message of the room. *)
Lemma history_rows_of_room d room_id :
  Forall (λ row, MessageORM_room_id row.1 = room_id ∧ row.1 ∈ messages d)
    (history_rows d room_id).
Proof.
  unfold history_rows. apply Forall_fmap, Forall_forall. intros m Hm.
  apply subseteq_take in Hm. rewrite merge_sort_Permutation in Hm.
  apply list_elem_of_In, filter_In in Hm as [Hin Hid].
  split; [cbn; lia|]. by apply list_elem_of_In.
Qed.

(** The rows come newest first; the frame lists them oldest first. *)
Lemma history_chronological d room room_id :
  StronglySorted chronological
    (history_entry room <$> reverse (history_rows d room_id)).
Proof.
  unfold history_rows. rewrite <- fmap_reverse, <- list_fmap_compose.
  apply StronglySorted_fmap with (R1 := flip newer_first).
  { intros a b. unfold flip, newer_first, chronological. cbn. lia. }
  apply Sorted_StronglySorted; [apply _|]. apply Sorted_reverse.
  apply StronglySorted_Sorted.
  eapply StronglySorted_app_1_l. rewrite take_drop.
  apply StronglySorted_merge_sort; apply _.
Qed.

(** The first [n] rows of a table sorted newest first. *)
Lemma page_elem_of (l : list MessageORM) n x :
  x ∈ take n (merge_sort newer_first l) → x ∈ l.
Proof.
  intros Hx%subseteq_take. by rewrite merge_sort_Permutation in Hx.
Qed.

Lemma page_sorted (l : list MessageORM) n :
  StronglySorted newer_first (take n (merge_sort newer_first l)).
Proof.
  eapply StronglySorted_app_1_l. rewrite take_drop.
  apply StronglySorted_merge_sort; apply _.
Qed.

Lemma page_newest (l : list MessageORM) n x :
  x ∈ l →
  x ∈ take n (merge_sort newer_first l) ∨
  ∀ y, y ∈ take n (merge_sort newer_first l) → newer_first y x.
Proof.
  intros Hx.
  assert (StronglySorted newer_first (merge_sort newer_first l)) as Hs
    by (apply StronglySorted_merge_sort; apply _).
  rewrite <- (merge_sort_Permutation newer_first l) in Hx.
  rewrite <- (take_drop n (merge_sort newer_first l)) in Hx, Hs.
  apply elem_of_app in Hx as [Hx|Hx]; [by left|right].
  intros y Hy. by eapply StronglySorted_app_1_elem_of.
Qed.

Lemma page_length (l : list MessageORM) n :
  length (take n (merge_sort newer_first l)) = (n `min` length l)%nat.
Proof.
  rewrite length_take. by rewrite (Permutation_length (merge_sort_Permutation _ l)).
Qed.

Lemma page_chronological d room (l : list MessageORM) n :
  StronglySorted chronological
    (history_entry room <$>
     reverse ((λ m, (m, username_of d (MessageORM_user_id m))) <$>
              take n (merge_sort newer_first l))).
Proof.
  rewrite <- fmap_reverse, <- list_fmap_compose.
  apply StronglySorted_fmap with (R1 := flip newer_first).
  { intros a b. unfold flip, newer_first, chronological. cbn. lia. }
  apply Sorted_StronglySorted; [apply _|]. apply Sorted_reverse.
  apply StronglySorted_Sorted, page_sorted.
Qed.

(** The rows of the join handler are such a page of the room's messages,
    each with the name that the outer join finds for its author. *)
Lemma history_rows_fst d room_id :
  (history_rows d room_id).*1 =
  take (Z.to_nat HISTORY_LIMIT)
    (merge_sort newer_first
       (List.filter (λ m, MessageORM_room_id m =? room_id) (messages d))).
Proof.
  unfold history_rows. rewrite <- list_fmap_compose. apply list_fmap_id.
Qed.

Lemma history_rows_names d room_id :
  Forall (λ row, row.2 = username_of d (MessageORM_user_id row.1))
    (history_rows d room_id).
Proof. unfold history_rows. by apply Forall_fmap, Forall_true. Qed.

Lemma page_submseteq (l : list MessageORM) n :
  take n (merge_sort newer_first l) ⊆+ l.
Proof.
  rewrite <- (merge_sort_Permutation newer_first l) at 2.
  apply sublist_submseteq, sublist_take.
Qed.

Lemma ensure_keeps d room user :
  users (ensure_room_and_membership d room user).2 = users d ∧
  messages (ensure_room_and_membership d room user).2 = messages d.
Proof.
  unfold ensure_room_and_membership.
  destruct (select_room d room); cbn; repeat case_match; by cbn.
Qed.

Lemma sent_to_app ws evs1 evs2 :
  sent_to ws (evs1 ++ evs2) = sent_to ws evs1 ++ sent_to ws evs2.
Proof. apply omap_app. Qed.

Lemma sent_to_others ws data (ps : list nat) :
  ws ∉ ps → sent_to ws ((λ peer, Sent peer data) <$> ps) = [].
Proof.
  induction ps as [|p ps IH]; [done|].
  intros [Hne Hps]%not_elem_of_cons. cbn.
  rewrite decide_False by done. by apply IH.
Qed.

(** The announcement of a join puts nothing on the joining socket. *)
Lemma sent_to_join_announcement ws w room username :
  sent_to ws (join_announcement w room ws username) = [].
Proof.
  unfold join_announcement. cbn zeta.
  assert (ws ∉ other_peers w room ws) as Hws.
  { unfold other_peers. rewrite list_elem_of_filter. naive_solver. }
  rewrite !sent_to_app, !sent_to_others by done. reflexivity.
Qed.

Lemma sent_to_self ws data evs :
  sent_to ws (Sent ws data :: evs) = data :: sent_to ws evs.
Proof. unfold sent_to. cbn. by rewrite decide_True. Qed.

Lemma ensure_room_name d room user :
  RoomORM_name (ensure_room_and_membership d room user).1 = room.
Proof.
  unfold ensure_room_and_membership.
  destruct (select_room d room) as [r|] eqn:E; cbn; repeat case_match;
    cbn; try done; by apply find_some in E as [_ E%String.eqb_eq].
Qed.

End history.

(** Alice joins a room without messages: she gets the ack and the
    snapshot and no history frame. *)
Lemma join_empty_room_no_history :
  let w := boot (default_settings "srv-a") (mkDatabase [alice] [] [] [] 0) demo_uuid in
  let w' := exec (handle_message 1 alice (join_frame "lobby")) w in
  sent_to 1 (trace w') = [joined "lobby"; OutPresenceState "lobby" ["alice"]] ∧
  ∀ messages, history "lobby" messages ∉ sent_to 1 (trace w').
Proof.
  vm_compute. split; [done|]. intros messages Hin.
  repeat (apply elem_of_cons in Hin as [Hin|Hin]; [done|]).
  by apply elem_of_nil in Hin.
Qed.

(** The tables after a join frame are those that
    [ensure_room_and_membership] leaves. *)
Lemma join_frame_db ws user (msg : gmap string json) room w :
  msg_get msg "type" = JStr "join" →
  msg_get msg "room" = JStr room →
  db (exec (handle_message ws user msg) w) =
  (ensure_room_and_membership (db w) room user).2.
Proof.
  intros Htype Hroom. unfold exec. rewrite dispatch_join by done.
  rewrite (handle_join_run ws user msg w room Hroom _ _ (surjective_pairing _)).
  cbn [snd]. change (db (add_events ?e ?w)) with (db w). by rewrite join_db.
Qed.

(** What a join frame puts on the joining socket. *)
Lemma join_frame_replies ws user (msg : gmap string json) room w :
  msg_get msg "type" = JStr "join" →
  msg_get msg "room" = JStr room →
  let w' := exec (handle_message ws user msg) w in
  let rows :=
    history_rows (db w')
      (RoomORM_id (ensure_room_and_membership (db w) room user).1) in
  ∃ evs,
    trace w' = trace w ++ evs ∧
    sent_to ws evs =
      [joined room; OutPresenceState room (snapshot w' room)] ++
      match rows with
      | [] => []
      | _ => [history room (history_entry room <$> reverse rows)]
      end.
Proof.
  intros Htype Hroom w' rows.
  subst rows w'. unfold exec. rewrite dispatch_join by done.
  rewrite (handle_join_run ws user msg w room Hroom _ _ (surjective_pairing _)).
  cbn [snd].
  change (db (add_events ?e ?w)) with (db w).
  change (snapshot (add_events ?e ?w) room) with (snapshot w room).
  eexists. split.
  { unfold add_events. cbn [trace]. rewrite join_trace. reflexivity. }
  rewrite !sent_to_app, !sent_to_self. cbn [app]. f_equal. f_equal.
  assert (∀ (b : bool) w2,
            sent_to ws (if b then join_announcement w2 room ws
                                    (UserORM_username user) else []) = [])
    as -> by (intros [] ?; [apply sent_to_join_announcement|done]).
  rewrite app_nil_r. unfold history_frame.
  destruct (history_rows _ _); [done|].
  by rewrite sent_to_self.
Qed.

(** C5. A join frame with a string room makes the joining socket
    receive, in this order, the [joined] ack, the [presence_state]
    snapshot and then -- exactly when the room has at least one stored
    message -- a [history] frame; nothing else is put on the joining
    socket. With [stored] the messages of the room, the frame lists
    [min 50 (length stored)] of them, none more often than it is stored,
    each with the name of its author; every stored message that is left
    out is at most as recent as every message listed (the frame holds
    the most recent ones); and the list runs from the oldest to the
    newest. The join stores no message. *)
Theorem join_reply_sequence ws user (msg : gmap string json) room w :
  msg_get msg "type" = JStr "join" →
  msg_get msg "room" = JStr room →
  let w' := exec (handle_message ws user msg) w in
  let room_obj := (ensure_room_and_membership (db w) room user).1 in
  let stored :=
    List.filter (λ m, MessageORM_room_id m =? RoomORM_id room_obj)
      (messages (db w)) in
  let rows := history_rows (db w') (RoomORM_id room_obj) in
  RoomORM_name room_obj = room ∧
  messages (db w') = messages (db w) ∧
  (∃ evs,
     trace w' = trace w ++ evs ∧
     sent_to ws evs =
       [joined room; OutPresenceState room (snapshot w' room)] ++
       match rows with
       | [] => []
       | _ => [history room (history_entry room <$> reverse rows)]
       end) ∧
  (rows = [] ↔ stored = []) ∧
  length rows = (50 `min` length stored)%nat ∧
  (length rows ≤ 50)%nat ∧
  rows.*1 ⊆+ stored ∧
  Forall (λ row, MessageORM_room_id row.1 = RoomORM_id room_obj ∧
                 row.1 ∈ messages (db w') ∧
                 row.2 = username_of (db w') (MessageORM_user_id row.1)) rows ∧
  (∀ m, m ∈ stored →
        m ∈ rows.*1 ∨
        Forall (λ row, MessageORM_created_at m ≤ MessageORM_created_at row.1)
          rows) ∧
  StronglySorted chronological (history_entry room <$> reverse rows).
Proof.
  intros Htype Hroom w' room_obj stored rows.
  pose proof (join_frame_db ws user msg room w Htype Hroom) as Hdb.
  fold w' in Hdb.
  destruct (ensure_keeps (db w) room user) as [Husers Hmsgs].
  rewrite <- Hdb in Husers, Hmsgs.
  assert (rows.*1 = take (Z.to_nat HISTORY_LIMIT) (merge_sort newer_first stored))
    as Hfst.
  { subst rows stored. by rewrite history_rows_fst, Hmsgs. }
  assert (length rows = (50 `min` length stored)%nat) as Hlen.
  { rewrite <- (length_fmap fst rows), Hfst. apply page_length. }
  split; [apply ensure_room_name|].
  split; [done|].
  split; [by apply join_frame_replies|].
  split.
  { rewrite <- !length_zero_iff_nil, Hlen. lia. }
  split; [done|].
  split; [apply history_rows_length|].
  split; [rewrite Hfst; apply page_submseteq|].
  split.
  { pose proof (history_rows_of_room (db w') (RoomORM_id room_obj)) as Hof.
    pose proof (history_rows_names (db w') (RoomORM_id room_obj)) as Hnames.
    fold rows in Hof, Hnames. rewrite Forall_forall in Hof, Hnames.
    apply Forall_forall. intros row Hrow.
    destruct (Hof row Hrow). split_and!; [done..|by apply Hnames]. }
  split; [|apply history_chronological].
  intros m Hm.
  destruct (page_newest stored (Z.to_nat HISTORY_LIMIT) m Hm) as [Hin|Hnew].
  - left. by rewrite Hfst.
  - right. apply Forall_forall. intros row Hrow. apply Hnew.
    rewrite <- Hfst. by apply list_elem_of_fmap_2.
Qed.

Example join_with_history :
  sent_to 1 (trace (exec (handle_message 1 alice (join_frame "lobby"))
                      lobby_with_history)) =
  [joined "lobby"; OutPresenceState "lobby" ["alice"];
   history "lobby"
     [OutChatMessage.mk "lobby" "" "first" (Some 2) (Some 10);
      OutChatMessage.mk "lobby" "alice" "second" (Some 1) (Some 20)]].
Proof. vm_compute. reflexivity. Qed.

(** Alice says "one" and then "two" in the lobby; bob, who joins next,
    is sent the two lines in the order in which they were said. *)
Example history_in_the_order_said :
  let w := run [OpFrame 1 alice (chat_frame "lobby" "one");
                OpFrame 1 alice (chat_frame "lobby" "two")] lobby_with_alice in
  let w' := run_op (OpFrame 2 bob (join_frame "lobby")) w in
  sent_to 2 (events_after w w') =
  [joined "lobby"; OutPresenceState "lobby" ["alice"; "bob"];
   history "lobby"
     [OutChatMessage.mk "lobby" "alice" "one" (Some 1) (Some 0);
      OutChatMessage.mk "lobby" "alice" "two" (Some 2) (Some 1)]].
Proof. vm_compute. reflexivity. Qed.

Lemma join_reply_sequence_witness :
  let w := lobby_with_history in
  let w' := exec (handle_message 1 alice (join_frame "lobby")) w in
  let room_obj := (ensure_room_and_membership (db w) "lobby" alice).1 in
  let stored :=
    List.filter (λ m, MessageORM_room_id m =? RoomORM_id room_obj)
      (messages (db w)) in
  let rows := history_rows (db w') (RoomORM_id room_obj) in
  RoomORM_name room_obj = "lobby" ∧
  messages (db w') = messages (db w) ∧
  (∃ evs,
     trace w' = trace w ++ evs ∧
     sent_to 1 evs =
       [joined "lobby"; OutPresenceState "lobby" (snapshot w' "lobby")] ++
       match rows with
       | [] => []
       | _ => [history "lobby" (history_entry "lobby" <$> reverse rows)]
       end) ∧
  (rows = [] ↔ stored = []) ∧
  length rows = (50 `min` length stored)%nat ∧
  (length rows ≤ 50)%nat ∧
  rows.*1 ⊆+ stored ∧
  Forall (λ row, MessageORM_room_id row.1 = RoomORM_id room_obj ∧
                 row.1 ∈ messages (db w') ∧
                 row.2 = username_of (db w') (MessageORM_user_id row.1)) rows ∧
  (∀ m, m ∈ stored →
        m ∈ rows.*1 ∨
        Forall (λ row, MessageORM_created_at m ≤ MessageORM_created_at row.1)
          rows) ∧
  StronglySorted chronological (history_entry "lobby" <$> reverse rows).
Proof.
  exact (join_reply_sequence 1 alice (join_frame "lobby") "lobby"
           lobby_with_history eq_refl eq_refl).
Defined.

(** ** The presence snapshot of the join branch *)

Section snapshot.

Lemma presence_users_fold (keys : list string) (acc : gset string) u :
  u ∈ foldl (λ user_set k,
               let parts := Py.split k ":" in
               if (5 <=? length parts)%nat then
                 match parts !! 3%nat with
                 | Some u => user_set ∪ {[u]}
                 | None => user_set
                 end
               else user_set) acc keys ↔
  u ∈ acc ∨ ∃ k, k ∈ keys ∧ key_user k = Some u.
Proof.
  revert acc. induction keys as [|k keys IH]; intros acc.
  - cbn. split; [auto|]. intros [?|(k & Hk & _)]; [done|].
    by apply elem_of_nil in Hk.
  - cbn [foldl]. rewrite IH. unfold key_user at 2. cbn zeta.
    destruct (5 <=? length (Py.split k ":"))%nat eqn:Hlen;
      [destruct (Py.split k ":" !! 3%nat) as [u'|] eqn:Hu|].
    + rewrite elem_of_union, elem_of_singleton. split.
      * intros [[?| ->]|(k' & Hk' & Hu')]; [by left| |].
        -- right. exists k. split; [left|]. unfold key_user. by rewrite Hlen.
        -- right. exists k'. split; [by right|done].
      * intros [?|(k' & [->|Hk']%elem_of_cons & Hu')]; [by left; left| |].
        -- unfold key_user in Hu'. rewrite Hlen, Hu in Hu'.
           left; right. congruence.
        -- right. by exists k'.
    + split.
      * intros [?|(k' & Hk' & Hu')]; [by left|].
        right. exists k'. split; [by right|done].
      * intros [?|(k' & [->|Hk']%elem_of_cons & Hu')]; [by left| |].
        -- unfold key_user in Hu'. rewrite Hlen, Hu in Hu'. done.
        -- right. by exists k'.
    + split.
      * intros [?|(k' & Hk' & Hu')]; [by left|].
        right. exists k'. split; [by right|done].
      * intros [?|(k' & [->|Hk']%elem_of_cons & Hu')]; [by left| |].
        -- unfold key_user in Hu'. rewrite Hlen in Hu'. done.
        -- right. by exists k'.
Qed.

(** The snapshot names exactly the users read off the keys that the
    room pattern selects. *)
Lemma elem_of_snapshot w room u :
  u ∈ snapshot w room ↔
  ∃ k, is_Some (FakeRedis._data (redis w) !! k) ∧
       (∃ rest, k = ((HEARTBEAT_KEY_PREFIX +:+ room) +:+ ":") +:+ rest) ∧
       key_user k = Some u.
Proof.
  unfold snapshot, sorted. rewrite merge_sort_Permutation, elem_of_elements.
  unfold presence_users. rewrite presence_users_fold.
  rewrite pattern_room_eq. setoid_rewrite elem_of_scan. split.
  - intros [Hemp|(k & [Hs Hr] & Hu)]; [|by eauto].
    by apply not_elem_of_empty in Hemp.
  - intros (k & Hs & Hr & Hu). right. by exists k.
Qed.

(** It is sorted and names nobody twice, however many keys a user has. *)
Lemma snapshot_sorted w room : Sorted String.le (snapshot w room).
Proof. apply (Sorted_merge_sort String.le). Qed.

Lemma snapshot_NoDup w room : NoDup (snapshot w room).
Proof.
  unfold snapshot, sorted. rewrite merge_sort_Permutation.
  apply NoDup_elements.
Qed.

Lemma split_length s sep : (1 ≤ length (Py.split s sep))%nat.
Proof.
  induction s as [|c s IH]; cbn; [lia|].
  destruct (Ascii.eqb c sep); cbn; [lia|].
  destruct (Py.split s sep); cbn in *; lia.
Qed.

(** Splitting after a field that holds no separator. *)
Lemma split_field s rest sep :
  Py.contains s sep = false →
  Py.split (s +:+ String sep rest) sep = s :: Py.split rest sep.
Proof.
  induction s as [|c s IH]; intros Hs.
  - rewrite app_empty_l. cbn. by rewrite Ascii.eqb_refl.
  - cbn in Hs. apply orb_false_iff in Hs as [Hc Hs].
    rewrite app_cons. cbn. rewrite Hc, IH by done. done.
Qed.

(** The fields of a heartbeat key whose room and user hold no colon. *)
Lemma split_heartbeat_key room username conn_id :
  Py.contains room ":" = false →
  Py.contains username ":" = false →
  Py.split (ConnectionManager._heartbeat_key room username conn_id) ":" =
  "presence" :: "hb" :: room :: username :: Py.split conn_id ":".
Proof.
  intros Hroom Huser. unfold ConnectionManager._heartbeat_key.
  change (HEARTBEAT_KEY_PREFIX +:+ ?s)
    with ("presence" +:+ String ":" ("hb" +:+ String ":" s)).
  rewrite !split_field by done.
  change (":" +:+ ?s) with (String ":" s).
  rewrite split_field by done.
  change (":" +:+ ?s) with (String ":" s).
  by rewrite split_field.
Qed.

Lemma key_user_heartbeat_key room username conn_id :
  Py.contains room ":" = false →
  Py.contains username ":" = false →
  key_user (ConnectionManager._heartbeat_key room username conn_id) =
  Some username.
Proof.
  intros Hroom Huser. unfold key_user.
  rewrite split_heartbeat_key by done. cbn [length].
  pose proof (split_length conn_id ":").
  by rewrite (proj2 (Nat.leb_le _ _)) by lia.
Qed.

(** As long as neither the room nor the user name holds a colon, a
    socket that joins a room it was not in finds itself in the
    snapshot it is sent. *)
Lemma snapshot_has_joiner ws user (msg : gmap string json) room w :
  msg_get msg "room" = JStr room →
  Py.contains room ":" = false →
  Py.contains (UserORM_username user) ":" = false →
  heartbeat_tasks (manager w) !! (ws, room) = None →
  UserORM_username user ∈ snapshot (exec (handle_join ws user msg) w) room.
Proof.
  intros Hmsg Hroom Huser Htask. unfold exec.
  rewrite (handle_join_run ws user msg w room Hmsg _ _ (surjective_pairing _)).
  cbn [snd]. change (snapshot (add_events ?e ?w) room) with (snapshot w room).
  destruct (join_writes_key room ws (UserORM_username user)
              (before_join user w room) Htask) as [conn_id Hkey].
  apply elem_of_snapshot. eexists. split; [exact Hkey|]. split.
  - exists (UserORM_username user +:+ ":" +:+ conn_id).
    unfold ConnectionManager._heartbeat_key. by rewrite !app_assoc'.
  - by apply key_user_heartbeat_key.
Qed.

End snapshot.

(** C4, for a room name that holds a colon: alice joins the room
    ["a:b"] on an empty store. Her key is written before the scan, but
    the scan reads the fourth colon-separated field of
    ["presence:hb:a:b:alice:c0"], which is ["b"]: the snapshot she is
    sent names ["b"] and not her. *)
Theorem snapshot_misses_joiner_of_colon_room :
  let w := boot (default_settings "srv-a") (mkDatabase [alice] [] [] [] 0) demo_uuid in
  let w' := exec (handle_message 1 alice (join_frame "a:b")) w in
  FakeRedis.keys (redis w') = ["presence:hb:a:b:alice:c0"] ∧
  Py.split "presence:hb:a:b:alice:c0" ":" =
    ["presence"; "hb"; "a"; "b"; "alice"; "c0"] ∧
  sent_to 1 (trace w') = [joined "a:b"; OutPresenceState "a:b" ["b"]] ∧
  "alice" ∉ snapshot w' "a:b".
Proof.
  vm_compute. repeat split; try done.
  intros Hin. apply elem_of_cons in Hin as [Hin|Hin]; [done|].
  by apply elem_of_nil in Hin.
Qed.

(** ** Announcing the first connection of a user to a room *)

Section join_once.
Variables (user : UserORM) (room : string).

Let username : string := UserORM_username user.
Let frame_of (ws : nat) : op := OpFrame ws user (join_frame room).

Lemma events_after_app w w' evs :
  trace w' = trace w ++ evs → events_after w w' = evs.
Proof. intros H. unfold events_after. rewrite H. apply drop_app_length. Qed.

Lemma join_broadcasts_app evs1 evs2 :
  join_broadcasts room username (evs1 ++ evs2) =
  (join_broadcasts room username evs1 + join_broadcasts room username evs2)%nat.
Proof. unfold join_broadcasts. by rewrite List.filter_app, length_app. Qed.

Lemma join_broadcasts_sent data (ps : list nat) :
  join_broadcasts room username ((λ peer, Sent peer data) <$> ps) = 0%nat.
Proof. unfold join_broadcasts. by induction ps. Qed.

Lemma join_broadcasts_announcement w ws :
  join_broadcasts room username (join_announcement w room ws username) = 1%nat.
Proof.
  unfold join_announcement. cbn zeta.
  rewrite !join_broadcasts_app, !join_broadcasts_sent.
  unfold join_broadcasts. cbn. by rewrite bool_decide_eq_true_2.
Qed.

Lemma join_broadcasts_history w ws room_id :
  join_broadcasts room username (history_frame w ws room room_id) = 0%nat.
Proof. unfold history_frame. by destruct (history_rows _ _). Qed.

(** One join frame: the trace grows by events among which a join of
    the user is published once if [manager.join] answered [True]; if
    it answered [False] no event carries such a diff. *)
Lemma join_frame_events ws w :
  ∃ evs,
    trace (run_op (frame_of ws) w) = trace w ++ evs ∧
    if (ConnectionManager.join room ws username (before_join user w room)).1
    then join_broadcasts room username evs = 1%nat
    else Forall (λ e, carries_join room username e = false) evs.
Proof.
  subst frame_of. cbn [run_op]. unfold exec.
  rewrite dispatch_join by done.
  rewrite (handle_join_run ws user (join_frame room) w room eq_refl _ _
             (surjective_pairing _)).
  cbn [snd]. eexists. split.
  { unfold add_events. cbn [trace]. rewrite join_trace. reflexivity. }
  destruct (_.1).
  - rewrite !join_broadcasts_app, join_broadcasts_history.
    by rewrite join_broadcasts_announcement.
  - rewrite app_nil_r. repeat (apply Forall_cons; split; [done|]).
    unfold history_frame. destruct (history_rows _ _); by repeat constructor.
Qed.

Lemma no_carrier_no_broadcast evs :
  Forall (λ e, carries_join room username e = false) evs →
  join_broadcasts room username evs = 0%nat.
Proof.
  unfold join_broadcasts. induction 1 as [|e evs He _ IH]; [done|].
  cbn. destruct e; cbn in *; [done|]. by rewrite He.
Qed.

Lemma join_frame_redis ws w :
  redis (run_op (frame_of ws) w) =
  redis (ConnectionManager.join room ws username (before_join user w room)).2.
Proof.
  subst frame_of. cbn [run_op]. unfold exec.
  rewrite dispatch_join by done.
  by rewrite (handle_join_run ws user (join_frame room) w room eq_refl _ _
                (surjective_pairing _)).
Qed.

Lemma join_first_global_iff ws w :
  (ConnectionManager.join room ws username w).1 = true ↔
  ¬ presence_key_exists (redis w) room username.
Proof.
  rewrite join_first_global, <- scan_user_truthy.
  by destruct (Py.list_truthy _).
Qed.

(** Once a key of the user is in the store, further join frames for
    the room carry no join of that user, and the key stays. *)
Lemma later_joins conns w :
  presence_key_exists (redis w) room username →
  ∃ evs,
    trace (run (frame_of <$> conns) w) = trace w ++ evs ∧
    Forall (λ e, carries_join room username e = false) evs.
Proof.
  revert w. induction conns as [|c conns IH]; intros w Hkey.
  - exists []. by rewrite app_nil_r.
  - cbn [fmap list_fmap run foldl].
    destruct (join_frame_events c w) as (evs1 & Htrace1 & Hcount1).
    destruct (IH (run_op (frame_of c) w)) as (evs2 & Htrace2 & Hcount2).
    { rewrite join_frame_redis. destruct Hkey as [conn_id Hkey].
      exists conn_id. by apply join_data_keeps. }
    exists (evs1 ++ evs2). split.
    + unfold run in Htrace2. rewrite Htrace2, Htrace1. by rewrite app_assoc.
    + apply Forall_app. split; [|done].
      destruct (_.1) eqn:Hfg; [|done].
      apply join_first_global_iff in Hfg. by destruct Hfg.
Qed.

End join_once.

(** [join] answers [True] exactly when the store held no key that the
    pattern of the room and the user selects, and the join branch
    publishes the user's [presence_diff](join) exactly when it did.
    Hence, when a user for whom the pattern selects no key connects to a
    room on one socket and then on any number of further sockets, the
    first join frame publishes the diff once and no later frame sends or
    publishes it. *)
Theorem join_announced_once user room c (conns : list nat) w :
  heartbeat_tasks (manager w) !! (c, room) = None →
  ¬ presence_key_exists (redis w) room (UserORM_username user) →
  let username := UserORM_username user in
  let frame_of ws := OpFrame ws user (join_frame room) in
  let w1 := run_op (frame_of c) w in
  let wN := run (frame_of <$> conns) w1 in
  join_broadcasts room username (events_after w w1) = 1%nat ∧
  Forall (λ e, carries_join room username e = false) (events_after w1 wN) ∧
  join_broadcasts room username (events_after w wN) = 1%nat ∧
  (∀ ws w0,
     (ConnectionManager.join room ws username w0).1 = true ↔
     ¬ presence_key_exists (redis w0) room username) ∧
  (∀ ws w0,
     join_broadcasts room username (events_after w0 (run_op (frame_of ws) w0)) =
     if (ConnectionManager.join room ws username (before_join user w0 room)).1
     then 1%nat else 0%nat).
Proof.
  intros Htask Hnone username frame_of w1 wN. subst username.
  assert (∀ ws, frame_of ws = OpFrame ws user (join_frame room)) as Hframe
    by done.
  destruct (join_frame_events user room c w) as (evs1 & Htrace1 & Hcount1).
  assert ((ConnectionManager.join room c (UserORM_username user)
             (before_join user w room)).1 = true) as Hfg
    by by apply join_first_global_iff.
  rewrite Hfg in Hcount1.
  destruct (later_joins user room conns w1) as (evs2 & Htrace2 & Hnone2).
  { subst w1. rewrite Hframe, join_frame_redis. by apply join_writes_key. }
  rewrite <- Hframe in Htrace1. fold w1 in Htrace1.
  assert ((λ ws, OpFrame ws user (join_frame room)) = frame_of) as Hfun by done.
  rewrite Hfun in Htrace2. fold wN in Htrace2.
  rewrite (events_after_app w w1 evs1), (events_after_app w1 wN evs2) by done.
  rewrite (events_after_app w wN (evs1 ++ evs2))
    by (by rewrite Htrace2, Htrace1, app_assoc).
  rewrite join_broadcasts_app, Hcount1, no_carrier_no_broadcast by done.
  repeat split; try done.
  - intros H. by apply join_first_global_iff in H.
  - intros H. by apply join_first_global_iff.
  - intros ws w0.
    destruct (join_frame_events user room ws w0) as (evs & Htrace & Hcount).
    rewrite <- Hframe in Htrace. rewrite (events_after_app _ _ evs) by done.
    destruct (ConnectionManager.join room ws (UserORM_username user)
                (before_join user w0 room)).1; [done|].
    by apply no_carrier_no_broadcast.
Qed.

(** Alice opens three sockets and joins the lobby on each of them. *)
Lemma join_announced_once_witness :
  let w := boot (default_settings "srv-a") (mkDatabase [alice] [] [] [] 0) demo_uuid in
  let frame_of ws := OpFrame ws alice (join_frame "lobby") in
  let w1 := run_op (frame_of 1%nat) w in
  let wN := run (frame_of <$> [2%nat; 3%nat]) w1 in
  join_broadcasts "lobby" "alice" (events_after w w1) = 1%nat ∧
  Forall (λ e, carries_join "lobby" "alice" e = false) (events_after w1 wN) ∧
  join_broadcasts "lobby" "alice" (events_after w wN) = 1%nat ∧
  (∀ ws w0,
     (ConnectionManager.join "lobby" ws "alice" w0).1 = true ↔
     ¬ presence_key_exists (redis w0) "lobby" "alice") ∧
  (∀ ws w0,
     join_broadcasts "lobby" "alice"
       (events_after w0 (run_op (frame_of ws) w0)) =
     if (ConnectionManager.join "lobby" ws "alice"
           (before_join alice w0 "lobby")).1
     then 1%nat else 0%nat).
Proof.
  apply (join_announced_once alice "lobby" 1%nat [2%nat; 3%nat]
           (boot (default_settings "srv-a") (mkDatabase [alice] [] [] [] 0)
              demo_uuid)).
  - reflexivity.
  - intros [conn_id Hkey]. cbn in Hkey. rewrite lookup_empty in Hkey.
    by destruct Hkey.
Defined.

(** C1, for a room name that holds a colon. Carol is in the lobby on
    socket 3, and bob has joined the room ["lobby:alice"] on socket 2,
    which wrote the key ["presence:hb:lobby:alice:bob:c1"]. Alice holds no
    socket and no key. Her first join frame for the lobby makes [join]
    scan for [presence:hb:lobby:alice:*]; the scan returns bob's key,
    [join] answers [False], and the frame puts the ack and the snapshot
    on her socket and nothing else anywhere: no [presence_diff] and no
    system line reaches carol or the bus for alice's first connection.
    Without bob's join the same frame announces her. *)
Theorem first_join_unannounced :
  let w := run [OpFrame 3 carol (join_frame "lobby");
                OpFrame 2 bob (join_frame "lobby:alice")] three_users in
  let w' := run_op (OpFrame 1 alice (join_frame "lobby")) w in
  let v := run [OpFrame 3 carol (join_frame "lobby")] three_users in
  let v' := run_op (OpFrame 1 alice (join_frame "lobby")) v in
  map_to_list (ws_username (manager w)) = [(2%nat, "bob"); (3%nat, "carol")] ∧
  elements (members (manager w) "lobby") = [3%nat] ∧
  FakeRedis.keys (redis w) =
    ["presence:hb:lobby:carol:c0"; "presence:hb:lobby:alice:bob:c1"] ∧
  ConnectionManager._heartbeat_key "lobby:alice" "bob" "c1" =
    "presence:hb:lobby:alice:bob:c1" ∧
  pattern_user "lobby" "alice" = "presence:hb:lobby:alice:*" ∧
  (FakeRedis.scan (redis (before_join alice w "lobby")) 0
     (pattern_user "lobby" "alice") 50).2 = ["presence:hb:lobby:alice:bob:c1"] ∧
  (ConnectionManager.join "lobby" 1 "alice" (before_join alice w "lobby")).1
    = false ∧
  events_after w w' =
    [Sent 1 (joined "lobby");
     Sent 1 (OutPresenceState "lobby" ["alice"; "carol"])] ∧
  events_after v v' =
    [Sent 1 (joined "lobby");
     Sent 1 (OutPresenceState "lobby" ["alice"; "carol"]);
     Sent 3 (OutPresenceDiff "lobby" ["alice"] []);
     Published "room:lobby" "srv-a" (OutPresenceDiff "lobby" ["alice"] []);
     Sent 3 (OutSystemMessage "lobby" "alice joined");
     Published "room:lobby" "srv-a" (OutSystemMessage "lobby" "alice joined")].
Proof. vm_compute. by repeat split. Qed.

(** ** Announcing the last connection of a user to leave a room *)

Section last_leave.
Variables (user : UserORM) (room : string).

Let username : string := UserORM_username user.

Hypothesis username_truthy : Py.truthy username = true.

Lemma heartbeat_key_inj conn_id conn_id' :
  ConnectionManager._heartbeat_key room username conn_id =
  ConnectionManager._heartbeat_key room username conn_id' →
  conn_id = conn_id'.
Proof.
  unfold ConnectionManager._heartbeat_key. intros H.
  by repeat apply (inj (String.app _)) in H.
Qed.

Lemma holds_ext active w w' :
  manager w' = manager w → redis w' = redis w →
  uuid_source w' = uuid_source w → uuid_drawn w' = uuid_drawn w →
  holds room username active w → holds room username active w'.
Proof.
  intros Hm Hr Hs Hd [H1 H2 H3 H4 H5].
  split; rewrite ?Hm, ?Hr, ?Hs, ?Hd; done.
Qed.

Lemma holds_empty w :
  ¬ presence_key_exists (redis w) room username →
  holds room username ∅ w.
Proof.
  intros Hnone. split; try set_solver.
  intros conn_id. split; [|set_solver].
  intros Hkey. destruct Hnone. by exists conn_id.
Qed.

Section with_uuids.
Variable w0 : World.
Hypothesis uuid_inj : Inj (=) (=) (uuid_source w0).
Hypothesis uuid_truthy : ∀ i, Py.truthy (uuid_source w0 i) = true.

(** A new socket joins: it is one more holder. *)
Lemma holds_join active c w :
  uuid_source w = uuid_source w0 →
  holds room username active w →
  ws_conn_id (manager w) !! c = None →
  heartbeat_tasks (manager w) !! (c, room) = None →
  holds room username (active ∪ {[c]})
    (ConnectionManager.join room c username w).2.
Proof.
  intros Hsrc [H1 H2 H3 H4 H5] Hid Htask.
  destruct (join_fresh room c username w Hid Htask) as (Hd & Hi & Ht & Hn).
  { rewrite Hsrc. apply uuid_truthy. }
  assert (∀ c', c' ∈ active → c' ≠ c) as Hne.
  { intros c' Hc' ->. destruct (H3 c Hc') as (i & _ & Hi').
    by rewrite Hid in Hi'. }
  split.
  - intros c' Hc'. unfold rooms_of. rewrite join_conn_rooms.
    destruct (decide (c' = c)) as [->|Hc].
    + rewrite lookup_insert_eq. cbn. set_solver.
    + rewrite lookup_insert_ne by done. apply H1. set_solver.
  - intros c' Hc'. rewrite join_ws_username.
    destruct (decide (c' = c)) as [->|Hc].
    + by rewrite lookup_insert_eq.
    + rewrite lookup_insert_ne by done. apply H2. set_solver.
  - intros c' Hc'. rewrite Hi, Hn, join_uuid_source.
    destruct (decide (c' = c)) as [->|Hc].
    + rewrite lookup_insert_eq. exists (uuid_drawn w). split; [lia|done].
    + rewrite lookup_insert_ne by done.
      destruct (H3 c') as (i & Hlt & Hi'); [set_solver|].
      exists i. split; [lia|done].
  - intros c1 c2 conn_id Hc1 Hc2. rewrite Hi.
    destruct (decide (c1 = c)) as [->|Hn1];
      destruct (decide (c2 = c)) as [->|Hn2]; try done;
      rewrite ?lookup_insert_eq, ?lookup_insert_ne by done.
    + intros [= <-] Hi2. destruct (H3 c2) as (i & Hlt & Hi'); [set_solver|].
      rewrite Hi2 in Hi'. injection Hi' as Hi'. rewrite Hsrc in Hi'.
      apply uuid_inj in Hi'. lia.
    + intros Hi1 [= <-]. destruct (H3 c1) as (i & Hlt & Hi'); [set_solver|].
      rewrite Hi1 in Hi'. injection Hi' as Hi'. rewrite Hsrc in Hi'.
      apply uuid_inj in Hi'. lia.
    + apply H4; set_solver.
  - intros conn_id. rewrite Hd, lookup_insert_is_Some', H5, Hi. split.
    + intros [Heq%heartbeat_key_inj|(c' & Hc' & Hi')].
      * exists c. split; [set_solver|]. by rewrite lookup_insert_eq, Heq.
      * exists c'. split; [set_solver|].
        rewrite lookup_insert_ne; [done|]. intros Heq.
        by apply (Hne c').
    + intros (c' & Hc' & Hi').
      destruct (decide (c' = c)) as [->|Hc].
      * rewrite lookup_insert_eq in Hi'. left. congruence.
      * rewrite lookup_insert_ne in Hi' by done. right.
        exists c'. split; [set_solver|done].
Qed.

(** A holder leaves: the others still hold the room, its key is gone,
    and [leave] reports the removal as global exactly when nobody is
    left. *)
Lemma holds_leave active c w :
  uuid_source w = uuid_source w0 →
  holds room username active w →
  c ∈ active →
  holds room username (active ∖ {[c]}) (ConnectionManager.leave room c w).2 ∧
  (ConnectionManager.leave room c w).1 =
  (bool_decide (active ∖ {[c]} = ∅), Some username).
Proof.
  intros Hsrc [H1 H2 H3 H4 H5] Hc.
  destruct (H3 c Hc) as (i & Hlt & Hi).
  assert (stopped_key room c w =
          Some (ConnectionManager._heartbeat_key room username
                  (uuid_source w i))) as Hstop.
  { unfold stopped_key. rewrite (H2 c Hc), Hi, username_truthy.
    by rewrite Hsrc, uuid_truthy. }
  assert (holds room username (active ∖ {[c]})
            (ConnectionManager.leave room c w).2) as Hholds.
  { split.
    - intros c' [Hc' Hne%not_elem_of_singleton]%elem_of_difference.
      unfold rooms_of. rewrite leave_conn_rooms, lookup_insert_ne by done.
      by apply H1.
    - intros c' [Hc' _]%elem_of_difference. rewrite leave_ws_username.
      by apply H2.
    - intros c' [Hc' _]%elem_of_difference.
      rewrite leave_ws_conn_id, leave_uuid_drawn, leave_uuid_source.
      by apply H3.
    - intros c1 c2 conn_id [Hc1 _]%elem_of_difference
        [Hc2 _]%elem_of_difference.
      rewrite leave_ws_conn_id. by apply H4.
    - intros conn_id. rewrite leave_data, Hstop, leave_ws_conn_id.
      rewrite lookup_delete_is_Some, H5. split.
      + intros [Hne (c' & Hc' & Hi')]. exists c'. split; [|done].
        apply elem_of_difference. split; [done|].
        intros ->%elem_of_singleton. rewrite Hi in Hi'. congruence.
      + intros (c' & [Hc' Hne%not_elem_of_singleton]%elem_of_difference
                & Hi').
        split; [|by exists c'].
        intros Heq%heartbeat_key_inj. apply Hne.
        apply (H4 c' c conn_id); [done..|]. by rewrite Hi, Heq. }
  split; [done|].
  rewrite leave_result, (H2 c Hc), username_truthy. cbn. f_equal.
  destruct (Py.list_truthy _) eqn:Hscan.
  - apply scan_user_truthy in Hscan as [conn_id Hkey].
    apply (holds_keys _ _ _ _ Hholds) in Hkey as (c' & Hc' & _).
    symmetry. apply bool_decide_eq_false. set_solver.
  - symmetry. apply bool_decide_eq_true.
    apply set_eq. intros c'. split; [|set_solver]. intros Hc'.
    destruct (holds_id _ _ _ _ Hholds c' Hc') as (j & _ & Hj).
    assert (presence_key_exists (redis (ConnectionManager.leave room c w).2)
              room username) as Hex.
    { eexists. apply (holds_keys _ _ _ _ Hholds). eauto. }
    apply scan_user_truthy in Hex. congruence.
Qed.

Let join_of (ws : nat) : op := OpFrame ws user (join_frame room).
Let leave_of (ws : nat) : op := OpFrame ws user (leave_frame room).

Lemma join_frame_world ws w :
  ∃ evs,
    run_op (join_of ws) w =
    add_events evs
      (ConnectionManager.join room ws username (before_join user w room)).2.
Proof.
  subst join_of. cbn [run_op]. unfold exec.
  rewrite dispatch_join by done.
  rewrite (handle_join_run ws user (join_frame room) w room eq_refl _ _
             (surjective_pairing _)).
  by eexists.
Qed.

(** New sockets join one after the other: all of them hold the room. *)
Lemma joins_hold conns active w :
  uuid_source w = uuid_source w0 →
  holds room username active w →
  NoDup conns →
  (∀ c, c ∈ conns →
     ws_conn_id (manager w) !! c = None ∧
     heartbeat_tasks (manager w) !! (c, room) = None) →
  let w' := run (join_of <$> conns) w in
  holds room username (active ∪ list_to_set conns) w' ∧
  uuid_source w' = uuid_source w0.
Proof.
  revert active w. induction conns as [|c conns IH];
    intros active w Hsrc Hholds Hnd Hfresh.
  - cbn. split; [|done]. by rewrite (right_id_L ∅ (∪)).
  - apply NoDup_cons in Hnd as [Hc Hnd].
    destruct (Hfresh c) as [Hid Htask]; [left|].
    cbn [fmap list_fmap run foldl].
    destruct (join_frame_world c w) as [evs Hw1].
    set (w1 := run_op (join_of c) w) in *.
    assert (holds room username (active ∪ {[c]}) w1) as Hholds1.
    { rewrite Hw1.
      apply (holds_ext _
               (ConnectionManager.join room c username
                  (before_join user w room)).2); [done..|].
      apply holds_join; [done| |done|done].
      by apply (holds_ext _ w). }
    assert (uuid_source w1 = uuid_source w0) as Hsrc1.
    { rewrite Hw1. cbn. by rewrite join_uuid_source. }
    destruct (join_fresh room c username (before_join user w room) Hid Htask)
      as (_ & Hi & Ht & _).
    { change (uuid_source (before_join user w room)) with (uuid_source w).
      rewrite Hsrc. apply uuid_truthy. }
    destruct (IH (active ∪ {[c]}) w1) as [Hfinal Hsrcf]; [done..| |].
    { intros c' Hc'. destruct (Hfresh c') as [Hid' Htask']; [by right|].
      assert (c' ≠ c) by (by intros ->).
      rewrite Hw1. change (manager (add_events ?e ?w)) with (manager w).
      rewrite Hi, Ht, !lookup_insert_ne by congruence. done. }
    split; [|done].
    replace (active ∪ list_to_set (c :: conns))
      with (active ∪ {[c]} ∪ list_to_set conns) by set_solver.
    done.
Qed.

Lemma leave_broadcasts_app evs1 evs2 :
  leave_broadcasts room username (evs1 ++ evs2) =
  (leave_broadcasts room username evs1 +
   leave_broadcasts room username evs2)%nat.
Proof. unfold leave_broadcasts. by rewrite List.filter_app, length_app. Qed.

Lemma leave_broadcasts_sent data (ps : list nat) :
  leave_broadcasts room username ((λ peer, Sent peer data) <$> ps) = 0%nat.
Proof. unfold leave_broadcasts. by induction ps. Qed.

Lemma leave_broadcasts_announcement w :
  leave_broadcasts room username (leave_announcement w room username) = 1%nat.
Proof.
  unfold leave_announcement. cbn zeta.
  rewrite !leave_broadcasts_app, !leave_broadcasts_sent.
  unfold leave_broadcasts. cbn. by rewrite bool_decide_eq_true_2.
Qed.

(** One leave frame of a holder. *)
Lemma leave_frame_step active c w :
  uuid_source w = uuid_source w0 →
  holds room username active w →
  c ∈ active →
  let w' := run_op (leave_of c) w in
  holds room username (active ∖ {[c]}) w' ∧
  uuid_source w' = uuid_source w0 ∧
  ∃ evs,
    trace w' = trace w ++ evs ∧
    leave_broadcasts room username evs =
    if bool_decide (active ∖ {[c]} = ∅) then 1%nat else 0%nat.
Proof.
  intros Hsrc Hholds Hc. subst leave_of. cbn [run_op]. unfold exec.
  rewrite dispatch_leave by done.
  rewrite (handle_leave_run c (leave_frame room) w room eq_refl)
    by (by eapply holds_in).
  cbn [snd].
  destruct (holds_leave active c w Hsrc Hholds Hc) as [Hholds' Hres].
  split; [by apply (holds_ext _ (ConnectionManager.leave room c w).2)|].
  split; [cbn; by rewrite leave_uuid_source|].
  eexists. split.
  { unfold add_events. cbn [trace]. rewrite leave_trace. reflexivity. }
  rewrite Hres. unfold leave_events. cbn [fst snd].
  rewrite username_truthy, andb_true_r.
  destruct (bool_decide _); [apply leave_broadcasts_announcement|done].
Qed.

(** Holders leave one after the other: the leave is published when
    the last of them has left, and not before. *)
Lemma leaves_count leavers active w :
  uuid_source w = uuid_source w0 →
  holds room username active w →
  NoDup leavers →
  (∀ c, c ∈ leavers → c ∈ active) →
  ∃ evs,
    trace (run (leave_of <$> leavers) w) = trace w ++ evs ∧
    leave_broadcasts room username evs =
    if bool_decide (leavers ≠ [] ∧ length leavers = size active)
    then 1%nat else 0%nat.
Proof.
  revert active w. induction leavers as [|c ls IH];
    intros active w Hsrc Hholds Hnd Hin.
  - exists []. rewrite app_nil_r. split; [done|].
    by rewrite bool_decide_eq_false_2 by naive_solver.
  - apply NoDup_cons in Hnd as [Hc Hnd].
    assert (c ∈ active) as Hca by (apply Hin; left).
    cbn [fmap list_fmap run foldl].
    destruct (leave_frame_step active c w Hsrc Hholds Hca)
      as (Hholds1 & Hsrc1 & evs1 & Htrace1 & Hcount1).
    destruct (IH (active ∖ {[c]}) (run_op (leave_of c) w))
      as (evs2 & Htrace2 & Hcount2); [done..| |].
    { intros c' Hc'. apply elem_of_difference. split; [apply Hin; by right|].
      intros ->%elem_of_singleton. done. }
    exists (evs1 ++ evs2). split.
    { unfold run in Htrace2. by rewrite Htrace2, Htrace1, app_assoc. }
    rewrite leave_broadcasts_app, Hcount1, Hcount2.
    assert (size (active ∖ {[c]}) = size active - 1)%nat as Hsize.
    { rewrite size_difference, size_singleton; [done|set_solver]. }
    assert (size active ≠ 0)%nat as Hpos.
    { apply size_non_empty_iff. set_solver. }
    cbn [length].
    destruct (decide (active ∖ {[c]} = ∅)) as [Hempty|Hne].
    + rewrite (bool_decide_eq_true_2 _ Hempty).
      assert (ls = []) as ->.
      { destruct ls as [|c' ls]; [done|].
        assert (c' ∈ active ∖ {[c]}); [|set_solver].
        apply elem_of_difference. split; [apply Hin; right; left|].
        intros ->%elem_of_singleton. apply Hc. left. }
      rewrite Hempty, size_empty in Hsize.
      rewrite bool_decide_eq_false_2 by naive_solver.
      rewrite bool_decide_eq_true_2; [done|]. split; [done|]. cbn. lia.
    + rewrite (bool_decide_eq_false_2 _ Hne).
      assert (size (active ∖ {[c]}) ≠ 0)%nat as Hpos'
        by (apply size_non_empty_iff; by intros ?%leibniz_equiv).
      destruct (decide (length ls = size (active ∖ {[c]}))) as [Heq|Hneq].
      * rewrite !bool_decide_eq_true_2; [done| |].
        -- split; [done|]. lia.
        -- split; [|done]. destruct ls; [cbn in Heq; lia|done].
      * rewrite !bool_decide_eq_false_2; [done| |]; intros [_ H]; lia.
Qed.

End with_uuids.

End last_leave.

(** When a user whose name is not empty, and for whom the pattern of
    the room selects no key, joins the room on N >= 1 new sockets and
    then some of those sockets send a leave frame (each at most once),
    the user's [presence_diff](leave) is published exactly once if all
    N have left and not at all if fewer have; in particular nothing is
    published before the last of them leaves. [leave] reports a global
    removal exactly when the socket has a name and the scan that follows
    the deletion of its key finds no key of that user in the room.
    Connection ids are assumed distinct and not empty, as uuids are. *)
Theorem leave_announced_once user room (conns leavers : list nat) w :
  Py.truthy (UserORM_username user) = true →
  Inj (=) (=) (uuid_source w) →
  (∀ i, Py.truthy (uuid_source w i) = true) →
  ¬ presence_key_exists (redis w) room (UserORM_username user) →
  conns ≠ [] →
  NoDup conns →
  (∀ c, c ∈ conns →
     ws_conn_id (manager w) !! c = None ∧
     heartbeat_tasks (manager w) !! (c, room) = None) →
  NoDup leavers →
  leavers ⊆ conns →
  let username := UserORM_username user in
  let leave_of ws := OpFrame ws user (leave_frame room) in
  let wJ := run ((λ ws, OpFrame ws user (join_frame room)) <$> conns) w in
  let wL := run (leave_of <$> leavers) wJ in
  leave_broadcasts room username (events_after wJ wL) =
    (if decide (length leavers = length conns) then 1 else 0)%nat ∧
  (∀ n, (n < length conns)%nat →
     leave_broadcasts room username
       (events_after wJ (run (leave_of <$> take n leavers) wJ)) = 0%nat) ∧
  (∀ ws w0 u,
     ws_username (manager w0) !! ws = Some u →
     (ConnectionManager.leave room ws w0).1.1 = true ↔
     Py.truthy u = true ∧
     ¬ presence_key_exists (redis (ConnectionManager.leave room ws w0).2) room u).
Proof.
  intros Hname Hinj Htruthy Hnone Hconns Hnd Hfresh Hndl Hsub
    username leave_of wJ wL. subst username.
  destruct (joins_hold user room Hname w Hinj Htruthy conns ∅ w)
    as [Hholds Hsrc]; [done|by apply holds_empty|done..|].
  fold wJ in Hholds, Hsrc. rewrite (left_id_L ∅ (∪)) in Hholds.
  assert (size (list_to_set conns : gset nat) = length conns) as Hsize
    by by apply size_list_to_set.
  assert (length conns ≠ 0)%nat as Hpos by (by destruct conns).
  assert (∀ ls, NoDup ls → ls ⊆ conns →
            leave_broadcasts room (UserORM_username user)
              (events_after wJ (run (leave_of <$> ls) wJ)) =
            if bool_decide (ls ≠ [] ∧ length ls = length conns)
            then 1%nat else 0%nat) as Hcount.
  { intros ls Hls Hsubl.
    destruct (leaves_count user room Hname w Hinj Htruthy ls
                (list_to_set conns) wJ) as (evs & Htrace & Hcount);
      [done..| |].
    { intros c Hc. apply elem_of_list_to_set. by apply Hsubl. }
    rewrite (events_after_app _ _ evs) by done. by rewrite Hcount, Hsize. }
  split; [|split].
  - subst wL. rewrite Hcount by done. case_decide as Hlen.
    + rewrite bool_decide_eq_true_2; [done|]. split; [|done].
      intros ->. cbn in Hlen. lia.
    + by rewrite bool_decide_eq_false_2 by naive_solver.
  - intros n Hn. rewrite Hcount.
    + rewrite bool_decide_eq_false_2; [done|]. intros [_ Hlen].
      rewrite length_take in Hlen. lia.
    + rewrite <- (take_drop n leavers) in Hndl.
      by apply NoDup_app in Hndl as [? _].
    + intros c Hc. apply Hsub. by eapply subseteq_take.
  - intros ws w0 u Hu. rewrite leave_result, Hu. cbn [fst].
    rewrite andb_true_iff, negb_true_iff, <- scan_user_truthy.
    destruct (Py.list_truthy _); naive_solver.
Qed.

Lemma demo_uuid_inj : Inj (=) (=) demo_uuid.
Proof. intros i j H. unfold demo_uuid in H. by repeat apply (inj _) in H. Qed.

(** Alice joins the lobby on three sockets; they leave in another order. *)
Lemma leave_announced_once_witness :
  let w := boot (default_settings "srv-a") (mkDatabase [alice] [] [] [] 0) demo_uuid in
  let leave_of ws := OpFrame ws alice (leave_frame "lobby") in
  let wJ := run ((λ ws, OpFrame ws alice (join_frame "lobby")) <$>
                 [1%nat; 2%nat; 3%nat]) w in
  let wL := run (leave_of <$> [2%nat; 1%nat; 3%nat]) wJ in
  leave_broadcasts "lobby" "alice" (events_after wJ wL) =
    (if decide (length [2%nat; 1%nat; 3%nat] = length [1%nat; 2%nat; 3%nat])
     then 1 else 0)%nat ∧
  (∀ n, (n < length [1%nat; 2%nat; 3%nat])%nat →
     leave_broadcasts "lobby" "alice"
       (events_after wJ (run (leave_of <$> take n [2%nat; 1%nat; 3%nat]) wJ))
     = 0%nat) ∧
  (∀ ws w0 u,
     ws_username (manager w0) !! ws = Some u →
     (ConnectionManager.leave "lobby" ws w0).1.1 = true ↔
     Py.truthy u = true ∧
     ¬ presence_key_exists (redis (ConnectionManager.leave "lobby" ws w0).2)
         "lobby" u).
Proof.
  apply (leave_announced_once alice "lobby" [1%nat; 2%nat; 3%nat]
           [2%nat; 1%nat; 3%nat]
           (boot (default_settings "srv-a") (mkDatabase [alice] [] [] [] 0)
              demo_uuid)).
  - reflexivity.
  - apply demo_uuid_inj.
  - reflexivity.
  - intros [conn_id Hkey]. cbn in Hkey. rewrite lookup_empty in Hkey.
    by destruct Hkey.
  - discriminate.
  - by apply (bool_decide_unpack _).
  - intros c _. split; apply lookup_empty.
  - by apply (bool_decide_unpack _).
  - by apply (bool_decide_unpack _).
Defined.

Example three_tabs_leave :
  let w := boot (default_settings "srv-a") (mkDatabase [alice] [] [] [] 0) demo_uuid in
  let wJ := run ((λ ws, OpFrame ws alice (join_frame "lobby")) <$>
                 [1%nat; 2%nat; 3%nat]) w in
  events_after wJ (run [OpFrame 2 alice (leave_frame "lobby");
                        OpFrame 1 alice (leave_frame "lobby")] wJ) = [] ∧
  events_after wJ (run [OpFrame 2 alice (leave_frame "lobby");
                        OpFrame 1 alice (leave_frame "lobby");
                        OpFrame 3 alice (leave_frame "lobby")] wJ) =
  [Published "room:lobby" "srv-a" (OutPresenceDiff "lobby" [] ["alice"]);
   Published "room:lobby" "srv-a" (OutSystemMessage "lobby" "alice left")].
Proof. vm_compute. done. Qed.

(** C2, for a room name that holds a colon. Alice and carol are in the
    lobby on sockets 1 and 3, alice through that one connection, and bob
    has joined the room ["lobby:alice"] on socket 2, which wrote the key
    ["presence:hb:lobby:alice:bob:c2"]. Alice's leave frame for the lobby
    takes her socket out of the room and deletes her key; the scan for
    [presence:hb:lobby:alice:*] that follows returns bob's key, [leave]
    answers [removed = False], and the frame sends and publishes
    nothing: alice has left all her connections to the lobby and no
    [presence_diff](leave) tells carol or the bus. Without bob's join the
    same frame announces her leaving. *)
Theorem last_leave_unannounced :
  let w := run [OpFrame 1 alice (join_frame "lobby");
                OpFrame 3 carol (join_frame "lobby");
                OpFrame 2 bob (join_frame "lobby:alice")] three_users in
  let w' := run_op (OpFrame 1 alice (leave_frame "lobby")) w in
  let v := run [OpFrame 1 alice (join_frame "lobby");
                OpFrame 3 carol (join_frame "lobby")] three_users in
  let v' := run_op (OpFrame 1 alice (leave_frame "lobby")) v in
  map_to_list (ws_username (manager w)) =
    [(2%nat, "bob"); (3%nat, "carol"); (1%nat, "alice")] ∧
  elements (members (manager w) "lobby") = [3%nat; 1%nat] ∧
  FakeRedis.keys (redis w) =
    ["presence:hb:lobby:carol:c1"; "presence:hb:lobby:alice:c0";
     "presence:hb:lobby:alice:bob:c2"] ∧
  ConnectionManager._heartbeat_key "lobby:alice" "bob" "c2" =
    "presence:hb:lobby:alice:bob:c2" ∧
  (FakeRedis.scan (redis (ConnectionManager.leave "lobby" 1 w).2) 0
     (pattern_user "lobby" "alice") 50).2 = ["presence:hb:lobby:alice:bob:c2"] ∧
  (ConnectionManager.leave "lobby" 1 w).1 = (false, Some "alice") ∧
  events_after w w' = [] ∧
  elements (members (manager w') "lobby") = [3%nat] ∧
  elements (rooms_of (manager w') 1) = [] ∧
  FakeRedis.keys (redis w') =
    ["presence:hb:lobby:carol:c1"; "presence:hb:lobby:alice:bob:c2"] ∧
  events_after v v' =
    [Sent 3 (OutPresenceDiff "lobby" [] ["alice"]);
     Published "room:lobby" "srv-a" (OutPresenceDiff "lobby" [] ["alice"]);
     Sent 3 (OutSystemMessage "lobby" "alice left");
     Published "room:lobby" "srv-a" (OutSystemMessage "lobby" "alice left")].
Proof. vm_compute. by repeat split. Qed.

(** ** Instances of the rejected frames *)

(** Alice is in the lobby and asks to leave a room she never joined. *)
Lemma leave_frame_ignored_witness :
  handle_message 1 alice (leave_frame "den") lobby_with_alice =
  ((), lobby_with_alice).
Proof.
  apply leave_frame_ignored.
  - reflexivity.
  - intros room Hroom. injection Hroom as <-.
    apply (bool_decide_unpack _). vm_compute. exact I.
Defined.

Lemma chat_rejected_witness :
  handle_message 1 alice (chat_frame "lobby" "hi") lobby_with_banned_alice =
  ((), add_events [Sent 1 (error "banned")] lobby_with_banned_alice) ∧
  messages (db lobby_with_banned_alice) = [].
Proof.
  split; [|reflexivity].
  destruct (chat_rejected 1 alice (chat_frame "lobby" "hi")
              lobby_with_banned_alice "lobby" "hi" eq_refl eq_refl eq_refl)
    as [_ Hjoined].
  specialize (Hjoined (mkRoomORM 1 "lobby" false)).
  destruct Hjoined as [Hbanned _].
  - apply (bool_decide_unpack _). vm_compute. exact I.
  - reflexivity.
  - apply Hbanned. reflexivity.
Defined.

(** * Further properties of the code *)

(** ** The tables: rooms and memberships *)

Section tables.

Lemma find_app {A} (f : A → bool) (l1 l2 : list A) :
  List.find f (l1 ++ l2) =
  match List.find f l1 with Some x => Some x | None => List.find f l2 end.
Proof.
  induction l1 as [|x l1 IH]; [done|].
  cbn. by destruct (f x).
Qed.

Lemma select_room_name d room r :
  select_room d room = Some r → RoomORM_name r = room.
Proof.
  unfold select_room. intros [_ H]%find_some. by apply String.eqb_eq.
Qed.

Lemma select_member_ids d room_id user_id m :
  select_member d room_id user_id = Some m →
  RoomMemberORM_room_id m = room_id ∧ RoomMemberORM_user_id m = user_id.
Proof.
  unfold select_member. intros [_ H]%find_some.
  apply andb_true_iff in H as [H1 H2]. lia.
Qed.

Lemma ensure_found d room user r m :
  select_room d room = Some r →
  select_member d (RoomORM_id r) (UserORM_id user) = Some m →
  ensure_room_and_membership d room user = (r, d).
Proof.
  intros Hr Hm. unfold ensure_room_and_membership. by rewrite Hr, Hm.
Qed.

Lemma ensure_post d room user :
  let room_obj := (ensure_room_and_membership d room user).1 in
  let d' := (ensure_room_and_membership d room user).2 in
  select_room d' room = Some room_obj ∧
  (∀ r, select_room d room = Some r → room_obj = r ∧ room_rows d' = room_rows d) ∧
  (∃ member,
     select_member d' (RoomORM_id room_obj) (UserORM_id user) = Some member ∧
     match select_member d (RoomORM_id room_obj) (UserORM_id user) with
     | Some before => member = before ∧ room_members d' = room_members d
     | None =>
         RoomMemberORM_is_banned member = false ∧
         RoomMemberORM_is_muted member = false ∧
         RoomMemberORM_is_moderator member = false ∧
         room_members d' = room_members d ++ [member]
     end) ∧
  room_rows d `prefix_of` room_rows d' ∧
  (length (room_rows d') ≤ S (length (room_rows d)))%nat ∧
  users d' = users d ∧ messages d' = messages d ∧ now d' = now d.
Proof.
  unfold ensure_room_and_membership.
  destruct (select_room d room) as [r|] eqn:Hroom.
  - destruct (select_member d (RoomORM_id r) (UserORM_id user)) as [m|] eqn:Hm;
      cbn.
    + rewrite Hm. split_and!; eauto. by intros r' [= <-].
    + unfold select_member in Hm |- *. cbn in Hm |- *.
      rewrite !find_app, Hm. cbn. rewrite !Z.eqb_refl. cbn.
      split_and!; eauto; [by intros r' [= <-]|by eexists].
  - set (r := mkRoomORM (next_id (RoomORM_id <$> room_rows d)) room false).
    assert (∀ rm ms, select_room
              (mkDatabase (users d) (room_rows d ++ [r]) rm ms (now d)) room
            = Some r) as Hroom'.
    { intros rm ms. unfold select_room in *. cbn. rewrite find_app, Hroom.
      cbn. by rewrite String.eqb_refl. }
    destruct (select_member _ (RoomORM_id r) (UserORM_id user)) as [m|] eqn:Hm;
      cbn [fst snd].
    + rewrite Hroom'.
      unfold select_member in Hm |- *. cbn in Hm |- *. rewrite Hm.
      split_and!; try done; eauto using prefix_app_r; try (by eexists).
      rewrite length_app. cbn. lia.
    + rewrite Hroom'. unfold select_member in Hm |- *. cbn in Hm |- *.
      rewrite !find_app, Hm. cbn. rewrite !Z.eqb_refl. cbn.
      split_and!; try done; eauto using prefix_app_r; try (by eexists).
      rewrite length_app. cbn. lia.
Qed.

End tables.

(** X1. [ensure_room_and_membership] is idempotent and only ever adds:
    the room it returns carries the requested name and is afterwards the
    row that the name selects; the user afterwards has a membership row
    in it, which is the row that was there before if there was one (so
    its ban and mute flags survive a new join) and otherwise a new row
    with all flags off; users and messages are untouched and the other
    two tables keep every row in place; a second call returns the same
    room and changes nothing. *)
Theorem ensure_room_and_membership_idempotent d room user :
  let room_obj := (ensure_room_and_membership d room user).1 in
  let d' := (ensure_room_and_membership d room user).2 in
  ensure_room_and_membership d' room user = (room_obj, d') ∧
  RoomORM_name room_obj = room ∧
  select_room d' room = Some room_obj ∧
  (∀ r, select_room d room = Some r → room_obj = r ∧ room_rows d' = room_rows d) ∧
  (∃ member,
     select_member d' (RoomORM_id room_obj) (UserORM_id user) = Some member ∧
     match select_member d (RoomORM_id room_obj) (UserORM_id user) with
     | Some before => member = before ∧ room_members d' = room_members d
     | None =>
         RoomMemberORM_is_banned member = false ∧
         RoomMemberORM_is_muted member = false ∧
         RoomMemberORM_is_moderator member = false ∧
         room_members d' = room_members d ++ [member]
     end) ∧
  room_rows d `prefix_of` room_rows d' ∧
  (length (room_rows d') ≤ S (length (room_rows d)))%nat ∧
  users d' = users d ∧ messages d' = messages d ∧ now d' = now d.
Proof.
  intros room_obj d'.
  destruct (ensure_post d room user)
    as (Hroom & Hsame & (member & Hmember & Hbefore) & ? & ? & ? & ? & ?).
  split_and!; try done.
  - by apply (ensure_found _ _ _ _ member).
  - apply ensure_room_name.
  - by exists member.
Qed.

(** ** The chat branch, accepted *)

Section fan_out.

Lemma next_id_fresh (ids : list Z) x : x ∈ ids → x < next_id ids.
Proof.
  unfold next_id. induction ids as [|y ids IH]; intros Hin.
  - by apply elem_of_nil in Hin.
  - apply elem_of_cons in Hin as [->|Hin]; cbn; [lia|].
    specialize (IH Hin). lia.
Qed.

Lemma next_id_pos (ids : list Z) : 1 ≤ next_id ids.
Proof.
  unfold next_id. induction ids as [|y ids IH]; cbn; lia.
Qed.

(** What one socket gets out of a fan-out over distinct sockets. *)
Lemma sent_to_fan_out ws data (ps : list nat) :
  NoDup ps →
  sent_to ws ((λ peer, Sent peer data) <$> ps) =
  if decide (ws ∈ ps) then [data] else [].
Proof.
  induction 1 as [|p ps Hp Hnd IH].
  - cbn. by rewrite decide_False by apply not_elem_of_nil.
  - cbn [fmap list_fmap]. unfold sent_to in *. cbn [omap list_omap].
    destruct (decide (p = ws)) as [->|Hne].
    + rewrite decide_True by left.
      change (list_omap ?f ?l) with (omap f l). rewrite IH.
      by rewrite decide_False.
    + change (list_omap ?f ?l) with (omap f l). rewrite IH.
      destruct (decide (ws ∈ ps)) as [Hin|Hout].
      * by rewrite decide_True by by right.
      * rewrite decide_False; [done|].
        intros [?|?]%elem_of_cons; congruence.
Qed.

Lemma sent_to_published ws channel srv data :
  sent_to ws [Published channel srv data] = [].
Proof. reflexivity. Qed.

(** The chat branch when nothing stands in its way. *)
Lemma handle_chat_run ws user (msg : gmap string json) w room content
    chat_room_obj member :
  msg_get msg "room" = JStr room →
  msg_get msg "message" = JStr content →
  room ∈ rooms_of (manager w) ws →
  select_room (db w) room = Some chat_room_obj →
  select_member (db w) (RoomORM_id chat_room_obj) (UserORM_id user)
    = Some member →
  RoomMemberORM_is_banned member = false →
  RoomMemberORM_is_muted member = false →
  handle_chat ws user msg w =
  let added := add_message (db w) (RoomORM_id chat_room_obj)
                 (UserORM_id user) content in
  let payload :=
    OutChat (OutChatMessage.mk room (UserORM_username user) content
               (Some (MessageORM_id added.1)) None) in
  ((), add_events
         (((λ peer, Sent peer payload)
             <$> elements (members (manager w) room)) ++
          [Published (CHANNEL_PREFIX +:+ room)
             (SERVER_ID (settings w)) payload])
         (exec (set_db added.2) w)).
Proof.
  intros Hr Hc Hin Hroom Hmember Hban Hmute.
  unfold handle_chat. rewrite Hr, Hc.
  rewrite bind_run, in_room_run. cbn.
  rewrite bool_decide_eq_true_2 by done.
  rewrite bind_run. unfold gets at 1. cbn.
  rewrite Hroom, Hmember, Hban, Hmute.
  unfold mbind, M_bind, set_db, modify, peers, gets, exec. run_sends.
  same_trace.
Qed.

End fan_out.

(** X2. A chat frame from a socket that is in the room, whose user has a
    membership row there that is neither banned nor muted, stores one
    new message row (with an id above every id in the table, the room,
    the author and the content as sent, the empty string included),
    puts the chat payload with that id exactly once on every socket in
    the local set of the room (the sender's is one of them in every
    world a process reaches) and on no other socket, and then publishes
    it once on the room's channel. The registry, the store and the
    other tables stay as they were. *)
Theorem chat_accepted ws user (msg : gmap string json) w room content
    chat_room_obj member :
  msg_get msg "type" = JStr "chat" →
  msg_get msg "room" = JStr room →
  msg_get msg "message" = JStr content →
  room ∈ rooms_of (manager w) ws →
  select_room (db w) room = Some chat_room_obj →
  select_member (db w) (RoomORM_id chat_room_obj) (UserORM_id user)
    = Some member →
  RoomMemberORM_is_banned member = false →
  RoomMemberORM_is_muted member = false →
  let w' := exec (handle_message ws user msg) w in
  ∃ message_obj,
    messages (db w') = messages (db w) ++ [message_obj] ∧
    (∀ m, m ∈ messages (db w) → MessageORM_id m < MessageORM_id message_obj) ∧
    MessageORM_room_id message_obj = RoomORM_id chat_room_obj ∧
    MessageORM_user_id message_obj = Some (UserORM_id user) ∧
    MessageORM_content message_obj = content ∧
    let payload :=
      OutChat (OutChatMessage.mk room (UserORM_username user) content
                 (Some (MessageORM_id message_obj)) None) in
    trace w' =
      trace w ++
      ((λ peer, Sent peer payload) <$> elements (members (manager w) room)) ++
      [Published (CHANNEL_PREFIX +:+ room) (SERVER_ID (settings w)) payload] ∧
    (∀ peer, sent_to peer (events_after w w') =
             if decide (peer ∈ members (manager w) room) then [payload] else []) ∧
    manager w' = manager w ∧ redis w' = redis w ∧
    users (db w') = users (db w) ∧ room_rows (db w') = room_rows (db w) ∧
    room_members (db w') = room_members (db w).
Proof.
  intros Htype Hr Hc Hin Hroom Hmember Hban Hmute w'.
  pose proof (handle_chat_run ws user msg w room content chat_room_obj member
                Hr Hc Hin Hroom Hmember Hban Hmute) as Hrun.
  rewrite <- dispatch_chat in Hrun by done.
  subst w'. unfold exec at 1 2 3 4 5 6 7 8. rewrite Hrun. cbn zeta.
  eexists. split_and!; try reflexivity.
  - intros m Hm. cbn. apply next_id_fresh. by apply list_elem_of_fmap_2.
  - intros peer. unfold events_after. cbn.
    rewrite drop_app_length. rewrite sent_to_app, sent_to_published, app_nil_r.
    rewrite sent_to_fan_out by apply NoDup_elements.
    destruct (decide (peer ∈ elements _)) as [H|H];
      rewrite elem_of_elements in H;
      [by rewrite decide_True|by rewrite decide_False].
Qed.

(** Alice, alone in the lobby, says "hi". *)
Lemma chat_accepted_witness :
  let w' := exec (handle_message 1 alice (chat_frame "lobby" "hi")) lobby_with_alice in
  ∃ message_obj,
    messages (db w') = messages (db lobby_with_alice) ++ [message_obj] ∧
    (∀ m, m ∈ messages (db lobby_with_alice) →
          MessageORM_id m < MessageORM_id message_obj) ∧
    MessageORM_room_id message_obj = 1 ∧
    MessageORM_user_id message_obj = Some 1 ∧
    MessageORM_content message_obj = "hi" ∧
    let payload :=
      OutChat (OutChatMessage.mk "lobby" "alice" "hi"
                 (Some (MessageORM_id message_obj)) None) in
    trace w' =
      trace lobby_with_alice ++
      ((λ peer, Sent peer payload)
         <$> elements (members (manager lobby_with_alice) "lobby")) ++
      [Published (CHANNEL_PREFIX +:+ "lobby")
         (SERVER_ID (settings lobby_with_alice)) payload] ∧
    (∀ peer, sent_to peer (events_after lobby_with_alice w') =
             if decide (peer ∈ members (manager lobby_with_alice) "lobby")
             then [payload] else []) ∧
    manager w' = manager lobby_with_alice ∧ redis w' = redis lobby_with_alice ∧
    users (db w') = users (db lobby_with_alice) ∧
    room_rows (db w') = room_rows (db lobby_with_alice) ∧
    room_members (db w') = room_members (db lobby_with_alice).
Proof.
  apply (chat_accepted 1 alice (chat_frame "lobby" "hi") lobby_with_alice
           "lobby" "hi" (mkRoomORM 1 "lobby" false)
           (mkRoomMemberORM 1 1 1 false false false));
    reflexivity.
Defined.

(** ** The history_more branch *)

Section pages.

#[local] Existing Instances newer_first_total newer_first_trans.

Lemma dispatch_history_more ws user (msg : gmap string json) w :
  msg_get msg "type" = JStr "history_more" →
  handle_message ws user msg w = handle_history_more ws msg w.
Proof. intros H. unfold handle_message. by rewrite H. Qed.

End pages.

(** X3. A [history_more] frame is answered with one frame to the sender
    and changes nothing else. Unless the room is a string, [before_id]
    an integer and the socket in the room, the answer is the error
    "invalid history_more"; if no room row has the name it is "room
    missing". Otherwise it is a [history_more] page: at most 50
    messages of the room with an id below [before_id], oldest first,
    none of them older than a message of the room below [before_id]
    that was left out; [more] is set exactly when the room has at least
    50 messages below [before_id]. *)
Theorem history_more_page ws user (msg : gmap string json) w :
  msg_get msg "type" = JStr "history_more" →
  let answered data :=
    handle_message ws user msg w = ((), add_events [Sent ws data] w) in
  match msg_get msg "room", json_int (msg_get msg "before_id") with
  | JStr room, Some before_id =>
      if bool_decide (room ∈ rooms_of (manager w) ws) then
        match select_room (db w) room with
        | None => answered (error "room missing")
        | Some history_room_obj =>
            let older :=
              List.filter
                (λ m, (MessageORM_room_id m =? RoomORM_id history_room_obj)
                      && (MessageORM_id m <? before_id)) (messages (db w)) in
            ∃ rows,
              answered
                (history_more room (history_entry room <$> reverse rows)
                   (bool_decide (50 ≤ length older)%nat)) ∧
              (length rows ≤ 50)%nat ∧
              StronglySorted chronological (history_entry room <$> reverse rows) ∧
              Forall (λ row,
                        row.1 ∈ messages (db w) ∧
                        MessageORM_room_id row.1 = RoomORM_id history_room_obj ∧
                        MessageORM_id row.1 < before_id) rows ∧
              ∀ m, m ∈ messages (db w) →
                   MessageORM_room_id m = RoomORM_id history_room_obj →
                   MessageORM_id m < before_id →
                   m ∈ rows.*1 ∨
                   Forall (λ row, MessageORM_created_at m ≤
                                  MessageORM_created_at row.1) rows
        end
      else answered (error "invalid history_more")
  | _, _ => answered (error "invalid history_more")
  end.
Proof.
  intros Htype answered. subst answered. cbn beta.
  rewrite dispatch_history_more by done. unfold handle_history_more.
  destruct (msg_get msg "room") as [| | | |room| |];
    destruct (json_int (msg_get msg "before_id")) as [before_id|]; try done.
  rewrite bind_run, in_room_run. cbn.
  destruct (bool_decide _); [|done].
  rewrite bind_run. unfold gets at 1. cbn.
  destruct (select_room _ _) as [history_room_obj|]; [|done].
  cbn zeta. unfold history_rows_before.
  set (older := List.filter _ (messages (db w))).
  exists ((λ m, (m, username_of (db w) (MessageORM_user_id m))) <$>
          take (Z.to_nat HISTORY_LIMIT) (merge_sort newer_first older)).
  assert (∀ m, m ∈ older ↔
               m ∈ messages (db w) ∧
               MessageORM_room_id m = RoomORM_id history_room_obj ∧
               MessageORM_id m < before_id) as Holder.
  { intros m. subst older. rewrite list_elem_of_In, filter_In.
    rewrite <- list_elem_of_In, andb_true_iff. split; intros [? ?]; split; try lia; done. }
  split_and!.
  - rewrite send_json_run. do 2 f_equal.
    rewrite length_fmap, page_length. unfold HISTORY_LIMIT.
    do 3 f_equal. apply bool_decide_ext. lia.
  - rewrite length_fmap, length_take. unfold HISTORY_LIMIT. lia.
  - apply page_chronological.
  - apply Forall_fmap, Forall_forall. intros m Hm%page_elem_of. cbn.
    by apply Holder.
  - intros m Hm Hroom Hid.
    destruct (page_newest older (Z.to_nat HISTORY_LIMIT) m) as [Hin|Hnew].
    + apply Holder. done.
    + left. rewrite <- list_fmap_compose. cbn.
      by rewrite list_fmap_id.
    + right. apply Forall_fmap, Forall_forall. intros y Hy. cbn.
      apply Hnew. done.
Qed.

(** Alice asks the lobby for what came before message 1. *)
Lemma history_more_page_witness :
  ∃ rows,
    handle_message 1 alice (history_more_frame "lobby" 2)
      lobby_with_history_joined =
    ((), add_events
           [Sent 1 (history_more "lobby" (history_entry "lobby" <$> reverse rows)
                      (bool_decide (50 ≤ 1)%nat))]
           lobby_with_history_joined) ∧
    (length rows ≤ 50)%nat ∧
    StronglySorted chronological (history_entry "lobby" <$> reverse rows) ∧
    Forall (λ row,
              row.1 ∈ messages (db lobby_with_history_joined) ∧
              MessageORM_room_id row.1 = 1 ∧ MessageORM_id row.1 < 2) rows ∧
    ∀ m, m ∈ messages (db lobby_with_history_joined) →
         MessageORM_room_id m = 1 →
         MessageORM_id m < 2 →
         m ∈ rows.*1 ∨
         Forall (λ row, MessageORM_created_at m ≤ MessageORM_created_at row.1)
           rows.
Proof.
  exact (history_more_page 1 alice (history_more_frame "lobby" 2)
           lobby_with_history_joined eq_refl).
Defined.

(** ** What a frame can touch *)

Section footprint.

Lemma add_events_prefix evs w : trace w `prefix_of` trace (add_events evs w).
Proof. by exists evs. Qed.

Lemma events_after_add_events evs w : events_after w (add_events evs w) = evs.
Proof. unfold events_after. cbn. by rewrite drop_app_length. Qed.

Lemma events_after_same_trace evs w w0 :
  trace w0 = trace w → events_after w (add_events evs w0) = evs.
Proof.
  intros H. unfold events_after. cbn. by rewrite H, drop_app_length.
Qed.

Lemma before_join_trace user w room : trace (before_join user w room) = trace w.
Proof. reflexivity. Qed.

Lemma handle_join_world ws user (msg : gmap string json) w room :
  msg_get msg "room" = JStr room →
  ∃ evs, exec (handle_join ws user msg) w =
         add_events evs
           (ConnectionManager.join room ws (UserORM_username user)
              (before_join user w room)).2.
Proof.
  intros Hroom. unfold exec.
  rewrite (handle_join_run ws user msg w room Hroom _ _ (surjective_pairing _)).
  by eexists.
Qed.

Lemma handle_leave_world ws (msg : gmap string json) w :
  exec (handle_leave ws msg) w = w ∨
  ∃ room evs, exec (handle_leave ws msg) w =
              add_events evs (ConnectionManager.leave room ws w).2.
Proof.
  destruct (msg_get msg "room") as [| | | |room| |] eqn:Hroom;
    try (left; unfold handle_leave, exec; by rewrite Hroom).
  destruct (decide (room ∈ rooms_of (manager w) ws)) as [Hin|Hout].
  - right. unfold exec. rewrite (handle_leave_run ws msg w room) by done.
    by eexists _, _.
  - left. unfold exec. rewrite handle_leave_not_joined; [done|].
    intros room' Heq. by replace room' with room by congruence.
Qed.

(** The chat branch changes the message table at most. *)
Lemma handle_chat_world ws user (msg : gmap string json) w :
  ∃ evs d,
    exec (handle_chat ws user msg) w = add_events evs (exec (set_db d) w) ∧
    users d = users (db w) ∧ room_rows d = room_rows (db w) ∧
    room_members d = room_members (db w).
Proof.
  assert (∀ evs, ∃ evs' d,
            add_events evs w = add_events evs' (exec (set_db d) w) ∧
            users d = users (db w) ∧ room_rows d = room_rows (db w) ∧
            room_members d = room_members (db w)) as Hsame.
  { intros evs. exists evs, (db w). by destruct w. }
  unfold handle_chat, exec at 1.
  destruct (msg_get msg "room") as [| | | |room| |];
    destruct (msg_get msg "message") as [| | | |content| |];
    try apply Hsame.
  rewrite bind_run, in_room_run. cbn.
  destruct (bool_decide _); [|apply Hsame].
  rewrite bind_run. unfold gets at 1. cbn.
  destruct (select_room _ _) as [chat_room_obj|]; [|apply Hsame].
  destruct (select_member _ _ _) as [member|]; [|apply Hsame].
  destruct (RoomMemberORM_is_banned member); [apply Hsame|].
  destruct (RoomMemberORM_is_muted member); [apply Hsame|].
  unfold mbind, M_bind, set_db, modify, peers, gets, exec. run_sends.
  eexists _, _. split; [same_trace|done].
Qed.

Lemma handle_history_more_world ws (msg : gmap string json) w :
  ∃ data, handle_history_more ws msg w = ((), add_events [Sent ws data] w).
Proof.
  unfold handle_history_more.
  destruct (msg_get msg "room") as [| | | |room| |];
    destruct (json_int (msg_get msg "before_id")) as [before_id|];
    try by eexists.
  rewrite bind_run, in_room_run. cbn.
  destruct (bool_decide _); [|by eexists].
  rewrite bind_run. unfold gets at 1. cbn.
  destruct (select_room _ _); by eexists.
Qed.

Lemma handle_typing_world ws user (msg : gmap string json) w :
  ∃ evs, handle_typing ws user msg w = ((), add_events evs w).
Proof.
  unfold handle_typing.
  destruct (msg_get msg "room") as [| | | |room| |]; try by eexists.
  rewrite bind_run, in_room_run. cbn.
  destruct (bool_decide _); [|by eexists].
  unfold mbind, M_bind, peers, gets. run_sends.
  eexists. same_trace.
Qed.

(** One turn of the loop is a [join] after the table update, a [leave],
    or a change of the message table at most; events come last. *)
Lemma handle_message_world ws user (msg : gmap string json) w :
  (∃ room evs,
     exec (handle_message ws user msg) w =
     add_events evs
       (ConnectionManager.join room ws (UserORM_username user)
          (before_join user w room)).2) ∨
  (∃ room evs,
     exec (handle_message ws user msg) w =
     add_events evs (ConnectionManager.leave room ws w).2) ∨
  (∃ evs d,
     exec (handle_message ws user msg) w = add_events evs (exec (set_db d) w)).
Proof.
  assert (∀ evs, ∃ evs' d,
            add_events evs w = add_events evs' (exec (set_db d) w)) as Hsame.
  { intros evs. exists evs, (db w). by destruct w. }
  assert (∀ data, ∃ evs' d,
            exec (send_json ws data) w = add_events evs' (exec (set_db d) w))
    as Hsend.
  { intros data. unfold exec. rewrite send_json_run. apply Hsame. }
  unfold handle_message.
  destruct (msg_get msg "type") as [| | | |mtype| |];
    try (right; right; apply Hsend).
  repeat case_match; try (right; right; apply Hsend).
  - destruct (msg_get msg "room") as [| | | |room| |] eqn:Hroom;
      try (right; right; unfold handle_join; rewrite Hroom; apply Hsend).
    left. exists room. by apply handle_join_world.
  - destruct (handle_leave_world ws msg w) as [->|(room & evs & ->)].
    + right; right. exists [], (db w). rewrite add_events_nil. by destruct w.
    + right; left. by eexists _, _.
  - right; right.
    destruct (handle_chat_world ws user msg w) as (evs & d & -> & _).
    by eexists _, _.
  - right; right.
    destruct (handle_history_more_world ws msg w) as [data Hdata].
    unfold exec at 1. rewrite Hdata. apply Hsame.
  - right; right.
    destruct (handle_typing_world ws user msg w) as [evs Hevs].
    unfold exec at 1. rewrite Hevs. apply Hsame.
Qed.

(** The footprint of the [if mtype == ..] chain. *)
Lemma handle_message_footprint ws user (msg : gmap string json) w :
  let mtype := msg_get msg "type" in
  let w' := exec (handle_message ws user msg) w in
  settings w' = settings w ∧
  uuid_source w' = uuid_source w ∧
  users (db w') = users (db w) ∧
  trace w `prefix_of` trace w' ∧
  (mtype ≠ JStr "join" → mtype ≠ JStr "leave" →
   manager w' = manager w ∧ redis w' = redis w) ∧
  (mtype ≠ JStr "join" →
   uuid_drawn w' = uuid_drawn w ∧
   room_rows (db w') = room_rows (db w) ∧
   room_members (db w') = room_members (db w)) ∧
  (mtype ≠ JStr "chat" → messages (db w') = messages (db w)) ∧
  (mtype ≠ JStr "join" → mtype ≠ JStr "leave" → mtype ≠ JStr "chat" →
   mtype ≠ JStr "typing" →
   ∃ data, events_after w w' = [Sent ws data] ∧
           (mtype = JStr "ping" → data = pong) ∧
           (mtype ≠ JStr "ping" → mtype ≠ JStr "history_more" →
            data = error "unknown type")).
Proof.
  intros mtype w'. subst mtype w'. unfold handle_message.
  assert (∀ data,
            let w' := exec (send_json ws data) w in
            settings w' = settings w ∧ uuid_source w' = uuid_source w ∧
            users (db w') = users (db w) ∧ trace w `prefix_of` trace w' ∧
            manager w' = manager w ∧ redis w' = redis w ∧
            uuid_drawn w' = uuid_drawn w ∧ db w' = db w ∧
            events_after w w' = [Sent ws data]) as Hsend.
  { intros data. unfold exec. rewrite send_json_run. cbn [snd].
    split_and!; try done; [apply add_events_prefix|apply events_after_add_events]. }
  destruct (msg_get msg "type") as [| | | |mtype| |] eqn:Htype;
    try (destruct (Hsend (error "unknown type"))
           as (-> & -> & -> & ? & -> & -> & -> & -> & ->);
         split_and!; try done; intros; eexists; split_and!; done).
  destruct (String.eqb_spec mtype "join") as [->|Hjoin].
  { destruct (msg_get msg "room") as [| | | |room| |] eqn:Hroom;
      try (unfold handle_join; rewrite Hroom;
           destruct (Hsend (error "room required"))
             as (-> & -> & -> & ? & -> & -> & -> & -> & ->);
           split_and!; done).
    destruct (handle_join_world ws user msg w room Hroom) as [evs ->].
    destruct (ensure_post (db w) room user) as (_ & _ & _ & _ & _ & Hu & Hm & _).
    cbn. rewrite join_settings, join_uuid_source, join_db, join_trace. cbn.
    split_and!; try done. by eexists. }
  destruct (String.eqb_spec mtype "leave") as [->|Hleave].
  { destruct (handle_leave_world ws msg w) as [->|(room & evs & ->)].
    - split_and!; done.
    - cbn. rewrite leave_settings, leave_uuid_source, leave_db, leave_trace,
        leave_uuid_drawn.
      split_and!; try done. by eexists. }
  destruct (String.eqb_spec mtype "chat") as [->|Hchat].
  { destruct (handle_chat_world ws user msg w) as (evs & d & -> & Hu & Hr & Hm).
    split_and!; try done. by eexists. }
  destruct (String.eqb_spec mtype "history_more") as [->|Hmore].
  { destruct (handle_history_more_world ws msg w) as [data Hdata].
    unfold exec. rewrite Hdata. cbn [snd].
    split_and!; try done; [apply add_events_prefix|].
    intros _ _ _ _. exists data. rewrite events_after_add_events.
    split_and!; done. }
  destruct (String.eqb_spec mtype "typing") as [->|Htyping].
  { destruct (handle_typing_world ws user msg w) as [evs Hevs].
    unfold exec. rewrite Hevs. cbn [snd].
    split_and!; try done. apply add_events_prefix. }
  destruct (String.eqb_spec mtype "ping") as [->|Hping].
  { destruct (Hsend pong) as (-> & -> & -> & ? & -> & -> & -> & -> & ->).
    split_and!; try done. intros. eexists. split_and!; naive_solver. }
  destruct (Hsend (error "unknown type"))
    as (-> & -> & -> & ? & -> & -> & -> & -> & ->).
  split_and!; try done. intros. eexists. split_and!; naive_solver.
Qed.

(** The first loop of [leave_all] touches neither the tables nor the
    trace nor the source of connection ids. *)
Lemma leaves_outside ws rs w :
  db (leaves ws rs w) = db w ∧ trace (leaves ws rs w) = trace w ∧
  uuid_source (leaves ws rs w) = uuid_source w ∧
  uuid_drawn (leaves ws rs w) = uuid_drawn w.
Proof.
  revert w. induction rs as [|r rs IH]; intros w; [done|].
  rewrite leaves_cons.
  destruct (IH (ConnectionManager.leave r ws w).2) as (-> & -> & -> & ->).
  by rewrite leave_db, leave_trace, leave_uuid_source, leave_uuid_drawn.
Qed.

(** Only rooms that the socket has left are announced, and the socket
    is in none of them any more. *)
Lemma collected_rooms ws rs w r u : (r, u) ∈ collected ws rs w → r ∈ rs.
Proof.
  revert w. induction rs as [|r' rs IH]; intros w; cbn [collected]; cbn zeta.
  - by intros ?%elem_of_nil.
  - intros [Hin|Hin]%elem_of_app.
    + destruct (ConnectionManager.leave r' ws w).1.2 as [u'|];
        [|by apply elem_of_nil in Hin].
      destruct (_ && _); [|by apply elem_of_nil in Hin].
      apply list_elem_of_singleton in Hin. injection Hin as -> ->. left.
    + right. by eapply IH.
Qed.

Lemma leaves_not_member ws rs w r :
  r ∈ rs → ws ∉ members (manager (leaves ws rs w)) r.
Proof.
  revert w. induction rs as [|r' rs IH]; intros w Hr.
  - by apply elem_of_nil in Hr.
  - rewrite leaves_cons. destruct (decide (r ∈ rs)) as [Hin|Hout]; [by apply IH|].
    apply elem_of_cons in Hr as [->|Hr]; [|done].
    rewrite leaves_members by done.
    rewrite leave_members, decide_True by done. set_solver.
Qed.

Lemma sent_to_leave_announcement ws w room uname :
  ws ∉ members (manager w) room →
  sent_to ws (leave_announcement w room uname) = [].
Proof.
  intros Hws. unfold leave_announcement. cbn zeta.
  rewrite !sent_to_app, !sent_to_others by (by rewrite elem_of_elements).
  reflexivity.
Qed.

(** The cleanup stores nothing, draws no connection id and puts nothing
    on the socket it cleans up after. *)
Lemma disconnect_footprint ws w :
  let w' := exec (disconnect ws) w in
  settings w' = settings w ∧ uuid_source w' = uuid_source w ∧
  uuid_drawn w' = uuid_drawn w ∧ db w' = db w ∧
  trace w `prefix_of` trace w' ∧
  sent_to ws (events_after w w') = [].
Proof.
  cbn zeta. unfold exec, disconnect. rewrite leave_all_run. cbn [snd].
  set (rs := elements (rooms_of (manager w) ws)).
  destruct (leaves_outside ws rs w) as (Hdb & Htrace & Hsrc & Hdrawn).
  pose proof (leaves_settings ws rs w) as Hsettings.
  set (wf := forget ws (leaves ws rs w)).
  assert (trace wf = trace w) as Htf by done.
  split_and!; try done.
  - exists (collected ws rs w ≫=
            λ '(room, uname), leave_announcement wf room uname).
    cbn [add_events trace]. by rewrite Htf.
  - rewrite events_after_same_trace by done.
    assert (∀ l : list (string * string),
              (∀ r u, (r, u) ∈ l → ws ∉ members (manager wf) r) →
              sent_to ws
                (l ≫= λ '(room, uname), leave_announcement wf room uname) = [])
      as Hnone.
    { induction l as [|[r u] l IH]; intros Hl; [done|].
      cbn [mbind list_bind]. rewrite sent_to_app, sent_to_leave_announcement.
      - apply IH. intros r' u' Hin. eapply Hl. by right.
      - eapply Hl. left. }
    apply Hnone. intros r u Hin%collected_rooms.
    change (members (manager wf) r) with (members (manager (leaves ws rs w)) r).
    by apply leaves_not_member.
Qed.

End footprint.

(** X4. What a text frame can touch. [loaded] is what [json.loads] makes
    of the text, [None] when it raises. No frame changes the settings,
    the user table or what is already on the trace. A text that is not
    JSON is answered with the error "invalid json", changes nothing
    else, and the loop goes on. A JSON value that is not an object is
    not answered: the loop ends, what happens is the cleanup on
    disconnect, which changes no table, draws no connection id and puts
    nothing on the socket itself. For an object the loop goes on with
    the [if mtype == ..] chain: only a join or leave frame changes the
    registry or the store, only a join frame draws a connection id or
    adds a room or membership row, only a chat frame adds a message row;
    a frame that is none of join, leave, chat and typing is answered
    with exactly one frame, to the sender: [pong] for a ping, the error
    "unknown type" for every type outside the six, a missing or
    non-string type included. *)
Theorem frame_footprint ws user (loaded : option json) w :
  let goes_on := (loop_turn ws user loaded w).1 in
  let w' := exec (loop_turn ws user loaded) w in
  settings w' = settings w ∧
  uuid_source w' = uuid_source w ∧
  users (db w') = users (db w) ∧
  trace w `prefix_of` trace w' ∧
  (loaded = None →
   goes_on = true ∧ w' = add_events [Sent ws (error "invalid json")] w) ∧
  (∀ v, loaded = Some v → as_object v = None →
   goes_on = false ∧ w' = exec (disconnect ws) w ∧
   db w' = db w ∧ uuid_drawn w' = uuid_drawn w ∧
   sent_to ws (events_after w w') = []) ∧
  (∀ v msg, loaded = Some v → as_object v = Some msg →
   let mtype := msg_get msg "type" in
   goes_on = true ∧ w' = exec (handle_message ws user msg) w ∧
   (mtype ≠ JStr "join" → mtype ≠ JStr "leave" →
    manager w' = manager w ∧ redis w' = redis w) ∧
   (mtype ≠ JStr "join" →
    uuid_drawn w' = uuid_drawn w ∧
    room_rows (db w') = room_rows (db w) ∧
    room_members (db w') = room_members (db w)) ∧
   (mtype ≠ JStr "chat" → messages (db w') = messages (db w)) ∧
   (mtype ≠ JStr "join" → mtype ≠ JStr "leave" → mtype ≠ JStr "chat" →
    mtype ≠ JStr "typing" →
    ∃ data, events_after w w' = [Sent ws data] ∧
            (mtype = JStr "ping" → data = pong) ∧
            (mtype ≠ JStr "ping" → mtype ≠ JStr "history_more" →
             data = error "unknown type"))).
Proof.
  intros goes_on w'. subst goes_on w'.
  destruct loaded as [v|]; [destruct (as_object v) as [msg|] eqn:Hobj|].
  - assert (loop_turn ws user (Some v) w =
            (true, exec (handle_message ws user msg) w)) as Hturn.
    { unfold loop_turn, exec. rewrite Hobj. unfold mbind, M_bind.
      by destruct (handle_message ws user msg w). }
    assert (exec (loop_turn ws user (Some v)) w =
            exec (handle_message ws user msg) w) as ->
      by (unfold exec at 1; by rewrite Hturn).
    rewrite Hturn. cbn [fst].
    destruct (handle_message_footprint ws user msg w)
      as (Hs & Hsrc & Hu & Hp & Hrest).
    split_and!; try done.
    + intros v' [= <-] Hobj'. congruence.
    + intros v' msg' [= <-] Hobj'. rewrite Hobj in Hobj'.
      injection Hobj' as <-. cbn zeta. split_and!; try done; apply Hrest.
  - assert (loop_turn ws user (Some v) w = (false, exec (disconnect ws) w))
      as Hturn.
    { unfold loop_turn, exec. rewrite Hobj. unfold mbind, M_bind.
      by destruct (disconnect ws w). }
    assert (exec (loop_turn ws user (Some v)) w = exec (disconnect ws) w) as ->
      by (unfold exec at 1; by rewrite Hturn).
    rewrite Hturn. cbn [fst].
    destruct (disconnect_footprint ws w) as (Hs & Hsrc & Hd & Hdb & Hp & Hsent).
    split_and!; try done.
    + by rewrite Hdb.
    + intros v' msg' [= <-] Hobj'. congruence.
  - assert (loop_turn ws user None w =
            (true, add_events [Sent ws (error "invalid json")] w)) as Hturn.
    { unfold loop_turn, mbind, M_bind. by rewrite send_json_run. }
    assert (exec (loop_turn ws user None) w =
            add_events [Sent ws (error "invalid json")] w) as ->
      by (unfold exec at 1; by rewrite Hturn).
    rewrite Hturn. cbn [fst]. split_and!; try done. apply add_events_prefix.
Qed.

(** Alice, in the lobby with carol, sends the text "[]": the loop ends
    and the lobby hears that she left. Text that is not JSON is answered
    and nothing more. *)
Example list_frame_ends_the_loop :
  let w := run [OpFrame 1 alice (join_frame "lobby");
                OpFrame 3 carol (join_frame "lobby")] three_users in
  let w' := exec (loop_turn 1 alice (Some (JList []))) w in
  (loop_turn 1 alice (Some (JList [])) w).1 = false ∧
  events_after w w' =
    [Sent 3 (OutPresenceDiff "lobby" [] ["alice"]);
     Published "room:lobby" "srv-a" (OutPresenceDiff "lobby" [] ["alice"]);
     Sent 3 (OutSystemMessage "lobby" "alice left");
     Published "room:lobby" "srv-a" (OutSystemMessage "lobby" "alice left")] ∧
  elements (members (manager w') "lobby") = [3%nat] ∧
  FakeRedis.keys (redis w') = ["presence:hb:lobby:carol:c1"] ∧
  loop_turn 1 alice None w =
    (true, add_events [Sent 1 (error "invalid json")] w).
Proof. vm_compute. by repeat split. Qed.

(** ** Chatting after a join *)

Section after_join.

Lemma select_member_elem_of d room_id user_id m :
  select_member d room_id user_id = Some m → m ∈ room_members d.
Proof.
  unfold select_member. intros [H _]%find_some. by apply list_elem_of_In.
Qed.

(** The world right after a join frame with a string room. *)
Lemma join_frame_state ws user room w :
  let w1 := exec (handle_message ws user (join_frame room)) w in
  settings w1 = settings w ∧
  db w1 = (ensure_room_and_membership (db w) room user).2 ∧
  room ∈ rooms_of (manager w1) ws ∧
  ws ∈ members (manager w1) room.
Proof.
  intros w1. subst w1. unfold exec. rewrite dispatch_join by done.
  destruct (handle_join_world ws user (join_frame room) w room eq_refl)
    as [evs Hevs].
  unfold exec in Hevs. rewrite Hevs.
  cbn. rewrite join_settings, join_db.
  split_and!; try done.
  - unfold rooms_of. rewrite join_conn_rooms, lookup_insert_eq. cbn.
    set_solver.
  - rewrite join_members, decide_True by done. set_solver.
Qed.

End after_join.

(** X5. A user who is banned or muted in no room can chat as soon as the
    join frame is handled: whatever the state before, after a join
    frame for a room a chat frame from the same socket for that room is
    accepted. It adds one message row with the content, the user and
    the room that the name now selects; the sender gets the chat
    payload exactly once and the payload is published on the room's
    channel. *)
Theorem chat_after_join ws user room content w :
  (∀ m, m ∈ room_members (db w) →
        RoomMemberORM_user_id m = UserORM_id user →
        RoomMemberORM_is_banned m = false ∧ RoomMemberORM_is_muted m = false) →
  let w1 := exec (handle_message ws user (join_frame room)) w in
  let w2 := exec (handle_message ws user (chat_frame room content)) w1 in
  ∃ message_obj room_obj,
    messages (db w2) = messages (db w) ++ [message_obj] ∧
    select_room (db w2) room = Some room_obj ∧
    MessageORM_room_id message_obj = RoomORM_id room_obj ∧
    MessageORM_user_id message_obj = Some (UserORM_id user) ∧
    MessageORM_content message_obj = content ∧
    let payload :=
      OutChat (OutChatMessage.mk room (UserORM_username user) content
                 (Some (MessageORM_id message_obj)) None) in
    sent_to ws (events_after w1 w2) = [payload] ∧
    Published (CHANNEL_PREFIX +:+ room) (SERVER_ID (settings w)) payload
      ∈ events_after w1 w2.
Proof.
  intros Hfree w1 w2.
  destruct (join_frame_state ws user room w) as (Hs & Hdb & Hin & Hmem).
  fold w1 in Hs, Hdb, Hin, Hmem.
  destruct (ensure_post (db w) room user)
    as (Hroom & _ & (member & Hmember & Hbefore) & _ & _ & _ & Hmsgs & _).
  rewrite <- Hdb in Hroom, Hmember, Hmsgs.
  assert (RoomMemberORM_is_banned member = false ∧
          RoomMemberORM_is_muted member = false) as [Hban Hmute].
  { destruct (select_member (db w) _ _) as [before|] eqn:Hb.
    - destruct Hbefore as [-> _]. apply Hfree.
      + by eapply select_member_elem_of.
      + by apply select_member_ids in Hb as [_ ?].
    - by destruct Hbefore as (? & ? & _). }
  pose proof (handle_chat_run ws user (chat_frame room content) w1 room content
                _ member eq_refl eq_refl Hin Hroom Hmember Hban Hmute) as Hrun.
  rewrite <- dispatch_chat in Hrun by done.
  subst w2. unfold exec at 1 2 3 4. rewrite Hrun. cbn zeta. cbn [snd].
  exists (add_message (db w1)
            (RoomORM_id (ensure_room_and_membership (db w) room user).1)
            (UserORM_id user) content).1,
    (ensure_room_and_membership (db w) room user).1.
  split_and!.
  - cbn. by rewrite Hmsgs.
  - cbn. unfold select_room in *. cbn. exact Hroom.
  - reflexivity.
  - reflexivity.
  - reflexivity.
  - rewrite events_after_same_trace by done.
    rewrite sent_to_app, sent_to_published, app_nil_r.
    rewrite sent_to_fan_out by apply NoDup_elements.
    rewrite decide_True; [done|]. by apply elem_of_elements.
  - rewrite events_after_same_trace by done. apply elem_of_app. right.
    cbn. rewrite Hs. left.
Qed.

(** Alice joins the lobby of a fresh server and says "hi". *)
Lemma chat_after_join_witness :
  let w := boot (default_settings "srv-a") (mkDatabase [alice] [] [] [] 0) demo_uuid in
  let w1 := exec (handle_message 1 alice (join_frame "lobby")) w in
  let w2 := exec (handle_message 1 alice (chat_frame "lobby" "hi")) w1 in
  ∃ message_obj room_obj,
    messages (db w2) = messages (db w) ++ [message_obj] ∧
    select_room (db w2) "lobby" = Some room_obj ∧
    MessageORM_room_id message_obj = RoomORM_id room_obj ∧
    MessageORM_user_id message_obj = Some (UserORM_id alice) ∧
    MessageORM_content message_obj = "hi" ∧
    let payload :=
      OutChat (OutChatMessage.mk "lobby" (UserORM_username alice) "hi"
                 (Some (MessageORM_id message_obj)) None) in
    sent_to 1 (events_after w1 w2) = [payload] ∧
    Published (CHANNEL_PREFIX +:+ "lobby") (SERVER_ID (settings w)) payload
      ∈ events_after w1 w2.
Proof.
  apply (chat_after_join 1 alice "lobby" "hi").
  intros m Hm. by apply elem_of_nil in Hm.
Defined.

(** ** The bookkeeping of the manager *)

Section more_join_effects.
Variables (room : string) (ws : nat) (username : string) (w : World).

Let w' : World := (ConnectionManager.join room ws username w).2.

Lemma join_ws_conn_id :
  ∃ conn_id,
    ws_conn_id (manager w') = <[ws := conn_id]> (ws_conn_id (manager w)) ∧
    ∀ c, ws_conn_id (manager w) !! ws = Some c → Py.truthy c = true →
         conn_id = c.
Proof.
  subst w'. unfold_manager.
  split_cases; rewrite ?insert_insert_eq;
    try first
      [ by (eexists; split; [reflexivity|]; intros c Hc Ht;
            first [congruence | exfalso; eauto])
      | match goal with
        | i : is_Some (ws_conn_id _ !! _) |- _ =>
            destruct i as [c0 Hc0]; exists c0;
            split; [symmetry; by apply insert_id|congruence]
        end ].
  all: exists s; split; [symmetry; by apply insert_id|congruence].
Qed.

Lemma join_heartbeat_tasks key :
  is_Some (heartbeat_tasks (manager w') !! key) ↔
  key = (ws, room) ∨ is_Some (heartbeat_tasks (manager w) !! key).
Proof.
  subst w'. unfold_manager.
  split_cases; rewrite ?lookup_insert_is_Some'; naive_solver.
Qed.

Lemma join_pubsub_task :
  pubsub_task (manager w') =
  if decide (room ∈ room_subscribed (manager w))
  then pubsub_task (manager w) else true.
Proof. subst w'. unfold_manager. split_cases; reflexivity. Qed.

(** A [join] of a pair that has its heartbeat task already. *)
Lemma join_again :
  is_Some (heartbeat_tasks (manager w) !! (ws, room)) →
  is_Some (ws_conn_id (manager w) !! ws) →
  FakeRedis._data (redis w') = FakeRedis._data (redis w) ∧
  ws_conn_id (manager w') = ws_conn_id (manager w) ∧
  heartbeat_tasks (manager w') = heartbeat_tasks (manager w) ∧
  uuid_drawn w' = uuid_drawn w.
Proof.
  subst w'. unfold_manager. intros Htask Hid.
  split_cases; try absurd_some; done.
Qed.

End more_join_effects.

Section more_leave_effects.
Variables (room : string) (ws : nat) (w : World).

Lemma leave_pubsub_task :
  pubsub_task (manager (ConnectionManager.leave room ws w).2) =
  pubsub_task (manager w).
Proof. unfold_manager. split_cases; reflexivity. Qed.

End more_leave_effects.

Section registry.

Lemma join_rooms_of room ws username w ws0 :
  rooms_of (manager (ConnectionManager.join room ws username w).2) ws0 =
  if decide (ws0 = ws) then rooms_of (manager w) ws ∪ {[room]}
  else rooms_of (manager w) ws0.
Proof.
  unfold rooms_of at 1. rewrite join_conn_rooms.
  case_decide as Hws.
  - subst. by rewrite lookup_insert_eq.
  - by rewrite lookup_insert_ne.
Qed.

Lemma leave_rooms_of_other room ws w ws0 :
  rooms_of (manager (ConnectionManager.leave room ws w).2) ws0 =
  if decide (ws0 = ws) then rooms_of (manager w) ws ∖ {[room]}
  else rooms_of (manager w) ws0.
Proof.
  unfold rooms_of at 1. rewrite leave_conn_rooms.
  case_decide as Hws.
  - subst. by rewrite lookup_insert_eq.
  - by rewrite lookup_insert_ne.
Qed.

Lemma forget_manager ws w :
  rooms (manager (forget ws w)) = rooms (manager w) ∧
  conn_rooms (manager (forget ws w)) = delete ws (conn_rooms (manager w)) ∧
  ws_username (manager (forget ws w)) = delete ws (ws_username (manager w)) ∧
  ws_conn_id (manager (forget ws w)) = delete ws (ws_conn_id (manager w)) ∧
  room_subscribed (manager (forget ws w)) = room_subscribed (manager w) ∧
  pubsub_task (manager (forget ws w)) = pubsub_task (manager w) ∧
  heartbeat_tasks (manager (forget ws w)) = heartbeat_tasks (manager w) ∧
  redis (forget ws w) = redis w ∧ settings (forget ws w) = settings w ∧
  db (forget ws w) = db w ∧ trace (forget ws w) = trace w.
Proof. done. Qed.

Lemma forget_rooms_of ws w ws0 :
  rooms_of (manager (forget ws w)) ws0 =
  if decide (ws0 = ws) then ∅ else rooms_of (manager w) ws0.
Proof.
  unfold rooms_of at 1.
  destruct (forget_manager ws w) as (_ & -> & _).
  case_decide as Hws.
  - subst. by rewrite lookup_delete_eq.
  - by rewrite lookup_delete_ne.
Qed.

Lemma registry_inv_boot s d source : registry_inv (boot s d source).
Proof.
  split; cbn; try done; intros ws room;
    unfold members, rooms_of; cbn; rewrite ?lookup_empty; cbn;
    try set_solver.
Qed.

Lemma registry_inv_join room ws username w :
  registry_inv w →
  registry_inv (ConnectionManager.join room ws username w).2.
Proof.
  intros [Hviews Hempty Hnamed Htasks Hreader]. split.
  - intros ws0 r. rewrite join_members, join_rooms_of.
    specialize (Hviews ws0 r).
    repeat case_decide; subst; set_solver.
  - intros r. rewrite join_rooms.
    destruct (decide (r = room)) as [->|Hne].
    + rewrite lookup_insert_eq. intros [= H]. set_solver.
    + rewrite lookup_insert_ne by done. apply Hempty.
  - intros ws0 r. rewrite join_rooms_of, join_ws_username.
    destruct (join_ws_conn_id room ws username w) as (c & -> & _).
    case_decide as Hws.
    + subst. rewrite !lookup_insert_eq. eauto.
    + rewrite !lookup_insert_ne by done. apply Hnamed.
  - intros ws0 r. rewrite join_heartbeat_tasks, join_rooms_of, Htasks.
    case_decide as Hws.
    + subst. split.
      * intros [[= ->]|?]; set_solver.
      * intros [?| ->%elem_of_singleton]%elem_of_union; auto.
    + split; [|auto]. intros [[= -> ->]|?]; done.
  - intros Hsub. rewrite join_pubsub_task. case_decide as Hr; [|done].
    apply Hreader. set_solver.
Qed.

Lemma registry_inv_leave room ws w :
  registry_inv w →
  registry_inv (ConnectionManager.leave room ws w).2.
Proof.
  intros [Hviews Hempty Hnamed Htasks Hreader]. split.
  - intros ws0 r. rewrite leave_members, leave_rooms_of_other.
    pose proof (Hviews ws0 r). pose proof (Hviews ws0 room).
    repeat case_decide; subst; set_solver.
  - intros r. rewrite leave_rooms.
    destruct (rooms (manager w) !! room) as [s|] eqn:Hs; [|apply Hempty].
    case_decide as Hd.
    + destruct (decide (r = room)) as [->|Hne].
      * by rewrite lookup_delete_eq.
      * rewrite lookup_delete_ne by done. apply Hempty.
    + destruct (decide (r = room)) as [->|Hne].
      * rewrite lookup_insert_eq. congruence.
      * rewrite lookup_insert_ne by done. apply Hempty.
  - intros ws0 r. rewrite leave_rooms_of_other, leave_ws_username,
      leave_ws_conn_id.
    case_decide as Hws.
    + subst. intros [? _]%elem_of_difference. by eapply Hnamed.
    + apply Hnamed.
  - intros ws0 r. rewrite leave_heartbeat_tasks, leave_rooms_of_other.
    destruct (decide ((ws0, r) = (ws, room))) as [[= -> ->]|Hne].
    + rewrite lookup_delete_eq, decide_True by done.
      split; [by intros []|set_solver].
    + rewrite lookup_delete_ne by done. rewrite Htasks.
      case_decide as Hws; [|done]. subst.
      assert (r ≠ room) by congruence. set_solver.
  - rewrite leave_room_subscribed, leave_pubsub_task.
    intros Hsub. apply Hreader. case_decide; set_solver.
Qed.

Lemma registry_inv_forget ws w :
  rooms_of (manager w) ws = ∅ →
  registry_inv w → registry_inv (forget ws w).
Proof.
  intros Hout [Hviews Hempty Hnamed Htasks Hreader].
  destruct (forget_manager ws w)
    as (Hrooms & _ & Hnames & Hids & Hsub & Hreader' & Htasks' & _).
  assert (∀ ws0, rooms_of (manager (forget ws w)) ws0 = rooms_of (manager w) ws0)
    as Hof.
  { intros ws0. rewrite forget_rooms_of. case_decide; by subst. }
  split.
  - intros ws0 r. rewrite Hof. unfold members. rewrite Hrooms. apply Hviews.
  - intros r. rewrite Hrooms. apply Hempty.
  - intros ws0 r. rewrite Hof, Hnames, Hids. intros Hr.
    destruct (decide (ws0 = ws)) as [->|Hne]; [set_solver|].
    rewrite !lookup_delete_ne by done. by eapply Hnamed.
  - intros ws0 r. rewrite Hof, Htasks'. apply Htasks.
  - by rewrite Hsub, Hreader'.
Qed.

Lemma registry_inv_same w w' :
  same_registry w w' → registry_inv w → registry_inv w'.
Proof.
  intros (_ & Hm & _) [Hviews Hempty Hnamed Htasks Hreader].
  split; rewrite Hm; done.
Qed.

Lemma registry_inv_step w w' :
  registry_step w w' → registry_inv w → registry_inv w'.
Proof.
  intros [room ws username w0|room ws w0|ws w0 Hout|w0 w1 Hsame].
  - apply registry_inv_join.
  - apply registry_inv_leave.
  - by apply registry_inv_forget.
  - by apply registry_inv_same.
Qed.

Lemma same_registry_add_events evs w : same_registry w (add_events evs w).
Proof. done. Qed.

Lemma same_registry_set_db d w : same_registry w (exec (set_db d) w).
Proof. done. Qed.

Lemma leaves_registry_steps ws rs w : rtc registry_step w (leaves ws rs w).
Proof.
  revert w. induction rs as [|r rs IH]; intros w; [done|].
  rewrite leaves_cons. eapply rtc_l; [apply registry_leave|apply IH].
Qed.

(** After the first loop of [leave_all] the socket is in no room. *)
Lemma leaves_rooms_of ws rs w :
  rooms_of (manager (leaves ws rs w)) ws =
  rooms_of (manager w) ws ∖ list_to_set rs.
Proof.
  revert w. induction rs as [|r rs IH]; intros w.
  - cbn. set_solver.
  - rewrite leaves_cons, IH, leave_rooms_of. cbn. set_solver.
Qed.

Lemma leaves_all_rooms_of ws w :
  rooms_of (manager (leaves ws (elements (rooms_of (manager w) ws)) w)) ws = ∅.
Proof.
  rewrite leaves_rooms_of. apply set_eq. intros r.
  rewrite elem_of_difference, elem_of_list_to_set, elem_of_elements.
  set_solver.
Qed.

Lemma run_op_registry_steps o w : rtc registry_step w (run_op o w).
Proof.
  destruct o as [room ws username|room ws|ws|ws user msg]; cbn [run_op].
  - apply rtc_once, registry_join.
  - apply rtc_once, registry_leave.
  - unfold exec. rewrite leave_all_run. cbn [snd].
    etrans; [apply leaves_registry_steps|].
    eapply rtc_l; [apply registry_forget, leaves_all_rooms_of|].
    apply rtc_once, registry_same, same_registry_add_events.
  - destruct (handle_message_world ws user msg w)
      as [(room & evs & ->)|[(room & evs & ->)|(evs & d & ->)]].
    + eapply rtc_l; [apply registry_same|].
      { instantiate (1 := before_join user w room). done. }
      eapply rtc_l; [apply registry_join|].
      apply rtc_once, registry_same, same_registry_add_events.
    + eapply rtc_l; [apply registry_leave|].
      apply rtc_once, registry_same, same_registry_add_events.
    + eapply rtc_l; [apply registry_same, (same_registry_set_db d)|].
      apply rtc_once, registry_same, same_registry_add_events.
Qed.

(** A property that survives every step of the manager holds throughout
    every run. *)
Lemma run_registry_invariant (P : World → Prop) :
  (∀ w w', registry_step w w' → P w → P w') →
  ∀ ops w, P w → P (run ops w).
Proof.
  intros Hstep ops. induction ops as [|o ops IH]; intros w Hw; [done|].
  cbn. apply IH.
  assert (∀ w1 w2, rtc registry_step w1 w2 → P w1 → P w2) as Hrtc
    by (induction 1; eauto).
  eapply Hrtc; [apply run_op_registry_steps|done].
Qed.

End registry.

(** X6. The bookkeeping of the manager is consistent in every world that
    a process reaches from start-up through joins, leaves, disconnects
    and frames: a socket is in the set of a room exactly when the room
    is in the set of the socket; no room is kept with an empty set;
    every socket in a room has a user name and a connection id; a
    heartbeat task exists for exactly the pairs of a socket and a room
    it is in; and the reader task has been started once any room is
    subscribed. *)
Theorem registry_consistent s d source ops :
  let w := run ops (boot s d source) in
  (∀ ws room,
     ws ∈ members (manager w) room ↔ room ∈ rooms_of (manager w) ws) ∧
  (∀ room, rooms (manager w) !! room ≠ Some ∅) ∧
  (∀ ws room,
     room ∈ rooms_of (manager w) ws →
     is_Some (ws_username (manager w) !! ws) ∧
     is_Some (ws_conn_id (manager w) !! ws)) ∧
  (∀ ws room,
     is_Some (heartbeat_tasks (manager w) !! (ws, room)) ↔
     room ∈ rooms_of (manager w) ws) ∧
  (room_subscribed (manager w) ≠ ∅ → pubsub_task (manager w) = true).
Proof.
  intros w.
  assert (registry_inv w) as [H1 H2 H3 H4 H5].
  { apply run_registry_invariant; [apply registry_inv_step|].
    apply registry_inv_boot. }
  done.
Qed.

Section cleanup_post.

Lemma leaves_other ws rs w ws0 :
  ws0 ≠ ws →
  rooms_of (manager (leaves ws rs w)) ws0 = rooms_of (manager w) ws0 ∧
  (∀ room, heartbeat_tasks (manager (leaves ws rs w)) !! (ws0, room) =
           heartbeat_tasks (manager w) !! (ws0, room)).
Proof.
  intros Hne. revert w. induction rs as [|r rs IH]; intros w; [done|].
  rewrite leaves_cons. destruct (IH (ConnectionManager.leave r ws w).2)
    as [-> Htasks].
  rewrite leave_rooms_of_other, decide_False by done. split; [done|].
  intros room. rewrite Htasks, leave_heartbeat_tasks.
  rewrite lookup_delete_ne; [done|congruence].
Qed.

Lemma leaves_names ws rs w :
  ws_username (manager (leaves ws rs w)) = ws_username (manager w) ∧
  ws_conn_id (manager (leaves ws rs w)) = ws_conn_id (manager w).
Proof.
  revert w. induction rs as [|r rs IH]; intros w; [done|].
  rewrite leaves_cons. destruct (IH (ConnectionManager.leave r ws w).2)
    as [-> ->].
  by rewrite leave_ws_username, leave_ws_conn_id.
Qed.

Lemma manager_eq (m1 m2 : ConnectionManager) :
  rooms m1 = rooms m2 → conn_rooms m1 = conn_rooms m2 →
  ws_username m1 = ws_username m2 →
  room_subscribed m1 = room_subscribed m2 →
  pubsub_task m1 = pubsub_task m2 →
  heartbeat_tasks m1 = heartbeat_tasks m2 →
  ws_conn_id m1 = ws_conn_id m2 → m1 = m2.
Proof. destruct m1, m2. cbn. congruence. Qed.

Lemma world_eq (w1 w2 : World) :
  settings w1 = settings w2 → manager w1 = manager w2 →
  redis w1 = redis w2 → db w1 = db w2 → trace w1 = trace w2 →
  uuid_source w1 = uuid_source w2 → uuid_drawn w1 = uuid_drawn w2 →
  w1 = w2.
Proof. destruct w1, w2. cbn. congruence. Qed.

Lemma redis_eq (r1 r2 : FakeRedis.t) :
  FakeRedis._data r1 = FakeRedis._data r2 →
  FakeRedis._subscribed r1 = FakeRedis._subscribed r2 → r1 = r2.
Proof. destruct r1, r2. cbn. congruence. Qed.

(** The [pop]s of [leave_all] for a socket the manager does not know. *)
Lemma forget_unknown ws w :
  conn_rooms (manager w) !! ws = None →
  ws_username (manager w) !! ws = None →
  ws_conn_id (manager w) !! ws = None →
  forget ws w = w.
Proof.
  intros H1 H2 H3.
  destruct (forget_manager ws w)
    as (? & Hc & Hn & Hi & ? & ? & ? & ? & ? & ? & ?).
  rewrite delete_id in Hc by done. rewrite delete_id in Hn by done.
  rewrite delete_id in Hi by done.
  apply world_eq; try done. by apply manager_eq.
Qed.

Lemma leave_all_unknown ws w :
  conn_rooms (manager w) !! ws = None →
  ws_username (manager w) !! ws = None →
  ws_conn_id (manager w) !! ws = None →
  ConnectionManager.leave_all ws w = ((), w).
Proof.
  intros H1 H2 H3. rewrite leave_all_run. cbn zeta.
  unfold rooms_of. rewrite H1. cbn. rewrite elements_empty. cbn.
  unfold leaves. cbn. rewrite forget_unknown by done.
  by rewrite add_events_nil.
Qed.

End cleanup_post.

(** X7. Cleanup on disconnect. In every world that a process reaches,
    after [leave_all] for a socket the socket is in no room, the
    manager holds no room set, user name or connection id for it and no
    heartbeat task of it; the room sets, heartbeat tasks, user names
    and connection ids of every other socket are as before; and a
    second [leave_all] for it does nothing at all: it changes no state
    and sends and publishes nothing. *)
Theorem disconnect_cleans_up s d source ops ws :
  let w := run ops (boot s d source) in
  let w' := exec (disconnect ws) w in
  (∀ room, ws ∉ members (manager w') room) ∧
  conn_rooms (manager w') !! ws = None ∧
  ws_username (manager w') !! ws = None ∧
  ws_conn_id (manager w') !! ws = None ∧
  (∀ room, heartbeat_tasks (manager w') !! (ws, room) = None) ∧
  (∀ ws0, ws0 ≠ ws →
     rooms_of (manager w') ws0 = rooms_of (manager w) ws0 ∧
     ws_username (manager w') !! ws0 = ws_username (manager w) !! ws0 ∧
     ws_conn_id (manager w') !! ws0 = ws_conn_id (manager w) !! ws0 ∧
     ∀ room, heartbeat_tasks (manager w') !! (ws0, room) =
             heartbeat_tasks (manager w) !! (ws0, room)) ∧
  disconnect ws w' = ((), w').
Proof.
  intros w w'.
  assert (registry_inv w') as [Hviews _ _ Htasks _].
  { change w' with (run_op (OpLeaveAll ws) w).
    assert (∀ w1 w2, rtc registry_step w1 w2 → registry_inv w1 → registry_inv w2)
      as Hrtc by (induction 1; eauto using registry_inv_step).
    eapply Hrtc; [apply run_op_registry_steps|].
    apply run_registry_invariant; [apply registry_inv_step|].
    apply registry_inv_boot. }
  assert (w' = add_events
                 (collected ws (elements (rooms_of (manager w) ws)) w ≫=
                  λ '(room, uname),
                    leave_announcement
                      (forget ws (leaves ws (elements (rooms_of (manager w) ws)) w))
                      room uname)
                 (forget ws (leaves ws (elements (rooms_of (manager w) ws)) w)))
    as Hw'.
  { subst w'. unfold exec, disconnect. by rewrite leave_all_run. }
  set (wl := leaves ws (elements (rooms_of (manager w) ws)) w) in *.
  destruct (forget_manager ws wl)
    as (Hrooms & Hc & Hn & Hi & _ & _ & Ht & _).
  assert (conn_rooms (manager w') !! ws = None) as Hc'.
  { rewrite Hw'. cbn [add_events manager]. rewrite Hc. apply lookup_delete_eq. }
  assert (ws_username (manager w') !! ws = None) as Hn'.
  { rewrite Hw'. cbn [add_events manager]. rewrite Hn. apply lookup_delete_eq. }
  assert (ws_conn_id (manager w') !! ws = None) as Hi'.
  { rewrite Hw'. cbn [add_events manager]. rewrite Hi. apply lookup_delete_eq. }
  assert (rooms_of (manager w') ws = ∅) as Hout.
  { unfold rooms_of. by rewrite Hc'. }
  split_and!; try done.
  - intros room. rewrite Hviews, Hout. set_solver.
  - intros room. apply eq_None_not_Some. rewrite Htasks, Hout. set_solver.
  - intros ws0 Hne. rewrite Hw'. cbn [add_events manager].
    rewrite forget_rooms_of, decide_False by done.
    rewrite Hn, Hi, Ht, !lookup_delete_ne by done.
    destruct (leaves_other ws (elements (rooms_of (manager w) ws)) w ws0 Hne)
      as [Hof Htasks'].
    destruct (leaves_names ws (elements (rooms_of (manager w) ws)) w)
      as [Hnames Hids].
    fold wl in Hnames, Hids, Htasks', Hof. rewrite Hnames, Hids, Hof.
    split_and!; try done.
  - by apply leave_all_unknown.
Qed.

(** ** Joining twice *)

Section join_twice.
Variables (room : string) (ws : nat) (username : string) (w : World).

Let w1 : World := (ConnectionManager.join room ws username w).2.

Lemma join_join_world : (ConnectionManager.join room ws username w1).2 = w1.
Proof.
  assert (is_Some (heartbeat_tasks (manager w1) !! (ws, room))) as Htask
    by apply join_task.
  assert (is_Some (ws_conn_id (manager w1) !! ws)) as Hid.
  { subst w1. destruct (join_ws_conn_id room ws username w) as (c & -> & _).
    rewrite lookup_insert_eq. eauto. }
  assert (room ∈ room_subscribed (manager w1)) as Hsub.
  { subst w1. rewrite join_room_subscribed. set_solver. }
  destruct (join_again room ws username w1 Htask Hid)
    as (Hdata & Hids & Htasks & Hdrawn).
  apply world_eq.
  - apply join_settings.
  - apply manager_eq.
    + rewrite join_rooms. unfold members. subst w1. rewrite join_rooms.
      rewrite lookup_insert_eq, insert_insert_eq. cbn. f_equal. set_solver.
    + rewrite join_conn_rooms. unfold rooms_of. subst w1.
      rewrite join_conn_rooms.
      rewrite lookup_insert_eq, insert_insert_eq. cbn. f_equal. set_solver.
    + rewrite join_ws_username. subst w1. rewrite join_ws_username.
      by rewrite insert_insert_eq.
    + rewrite join_room_subscribed. set_solver.
    + rewrite join_pubsub_task. by rewrite decide_True.
    + done.
    + done.
  - apply redis_eq; [done|].
    rewrite join_subscribed. by rewrite decide_True.
  - apply join_db.
  - apply join_trace.
  - apply join_uuid_source.
  - done.
Qed.

Lemma join_join_result :
  heartbeat_tasks (manager w) !! (ws, room) = None →
  (ConnectionManager.join room ws username w1).1 = false.
Proof.
  intros Htask. rewrite join_first_global.
  apply negb_false_iff, scan_user_truthy. by apply join_writes_key.
Qed.

End join_twice.

(** X8. [join] is idempotent: a second [join] of the same socket to the
    same room under the same name leaves the whole world as the first
    one left it -- no second subscription, no new connection id, no new
    key, no second heartbeat task -- and, when the first one started
    the heartbeat of the pair, the second answers [False]: the user is
    then no first appearance. *)
Theorem join_idempotent room ws username w :
  let w1 := (ConnectionManager.join room ws username w).2 in
  (ConnectionManager.join room ws username w1).2 = w1 ∧
  (heartbeat_tasks (manager w) !! (ws, room) = None →
   (ConnectionManager.join room ws username w1).1 = false).
Proof.
  intros w1. split; [apply join_join_world|apply join_join_result].
Qed.

(** ** Joining and leaving *)

Section round_trip.

Lemma run_subscription_inv s d source ops :
  subscription_inv (run ops (boot s d source)).
Proof.
  apply run_invariant; [apply subscription_inv_step|].
  apply subscription_inv_boot.
Qed.

Lemma run_registry_inv s d source ops :
  registry_inv (run ops (boot s d source)).
Proof.
  apply run_registry_invariant; [apply registry_inv_step|].
  apply registry_inv_boot.
Qed.

(** A [join] of a socket that is new to the manager, undone by [leave]. *)
Lemma join_leave_fresh room ws username w :
  registry_inv w → subscription_inv w →
  let conn_id := uuid_source w (uuid_drawn w) in
  let hb_key := ConnectionManager._heartbeat_key room username conn_id in
  ws_conn_id (manager w) !! ws = None →
  Py.truthy username = true →
  Py.truthy conn_id = true →
  FakeRedis._data (redis w) !! hb_key = None →
  let w1 := (ConnectionManager.join room ws username w).2 in
  let res := ConnectionManager.leave room ws w1 in
  FakeRedis._data (redis w1) !! hb_key =
    Some ("1", HEARTBEAT_TTL_MS (settings w)) ∧
  redis res.2 = redis w ∧
  rooms (manager res.2) = rooms (manager w) ∧
  room_subscribed (manager res.2) = room_subscribed (manager w) ∧
  heartbeat_tasks (manager res.2) = heartbeat_tasks (manager w) ∧
  (∀ ws0, rooms_of (manager res.2) ws0 = rooms_of (manager w) ws0) ∧
  res.1.2 = Some username ∧
  (res.1.1 = true ↔ ¬ presence_key_exists (redis w) room username).
Proof.
  intros [Hviews Hempty Hnamed Htasks _] Hsub conn_id hb_key Hid Hname Hconn
    Hkey w1 res.
  assert (∀ r, r ∉ rooms_of (manager w) ws) as Hout.
  { intros r Hr. destruct (Hnamed ws r Hr) as [_ [c Hc]]. congruence. }
  assert (heartbeat_tasks (manager w) !! (ws, room) = None) as Htask.
  { apply eq_None_not_Some. rewrite Htasks. apply Hout. }
  assert (ws ∉ members (manager w) room) as Hmem
    by (rewrite Hviews; apply Hout).
  destruct (join_fresh room ws username w Hid Htask Hconn)
    as (Hdata1 & Hids1 & Htasks1 & _).
  fold w1 conn_id hb_key in Hdata1, Hids1, Htasks1.
  assert (stopped_key room ws w1 = Some hb_key) as Hstop.
  { unfold stopped_key. subst w1. rewrite join_ws_username, Hids1.
    rewrite !lookup_insert_eq. fold conn_id. by rewrite Hname, Hconn. }
  assert (members (manager w1) room ∖ {[ws]} = members (manager w) room)
    as Hmem1.
  { subst w1. rewrite join_members, decide_True by done. set_solver. }
  destruct (Hsub room) as [Hsub1 Hsub2].
  assert (FakeRedis._data (redis res.2) = FakeRedis._data (redis w)) as Hdata.
  { subst res. rewrite leave_data, Hstop, Hdata1.
    by rewrite delete_insert_id. }
  assert (redis res.2 = redis w) as Hredis.
  { apply redis_eq; [done|].
    subst res. rewrite leave_subscribed, Hmem1. subst w1.
    rewrite join_room_subscribed, join_subscribed.
    destruct (decide (room ∈ room_subscribed (manager w))) as [Hin|Hnin].
    - rewrite decide_False; [done|]. intros [_ ?]. by apply Hsub1.
    - rewrite decide_True.
      + assert (CHANNEL_PREFIX +:+ room ∉ FakeRedis._subscribed (redis w))
          by (by rewrite Hsub2).
        set_solver.
      + split; [set_solver|]. apply dec_stable. intros ?. by apply Hnin, Hsub1. }
  split_and!.
  - rewrite Hdata1. apply lookup_insert_eq.
  - done.
  - subst res. rewrite leave_rooms. subst w1. rewrite join_rooms.
    rewrite lookup_insert_eq.
    replace ((members (manager w) room ∪ {[ws]}) ∖ {[ws]})
      with (members (manager w) room) by set_solver.
    case_decide as Hm.
    + rewrite delete_insert_id; [done|].
      unfold members in Hm.
      destruct (rooms (manager w) !! room) as [m|] eqn:E; [|done].
      cbn in Hm. subst. by destruct (Hempty room).
    + rewrite insert_insert_eq. apply insert_id.
      unfold members in *.
      destruct (rooms (manager w) !! room) as [m|] eqn:E; [done|].
      by destruct Hm.
  - subst res. rewrite leave_room_subscribed, Hmem1. subst w1.
    rewrite join_room_subscribed.
    destruct (decide (room ∈ room_subscribed (manager w))) as [Hin|Hnin].
    + rewrite decide_False; [set_solver|]. intros [_ ?]. by apply Hsub1.
    + rewrite decide_True; [set_solver|].
      split; [set_solver|]. apply dec_stable. intros ?. by apply Hnin, Hsub1.
  - subst res. rewrite leave_heartbeat_tasks, Htasks1.
    by rewrite delete_insert_id.
  - intros ws0. subst res w1.
    rewrite leave_rooms_of_other.
    case_decide as Hws; rewrite join_rooms_of.
    + subst. rewrite decide_True by done. pose proof (Hout room). set_solver.
    + by rewrite decide_False.
  - subst res. rewrite leave_result. cbn [snd]. subst w1.
    rewrite join_ws_username. apply lookup_insert_eq.
  - assert (ws_username (manager w1) !! ws = Some username) as Hname1.
    { subst w1. rewrite join_ws_username. apply lookup_insert_eq. }
    unfold res at 1. rewrite leave_result. cbn [fst].
    rewrite Hname1, Hname. cbn [andb].
    rewrite negb_true_iff, <- not_true_iff_false.
    rewrite scan_user_truthy.
    change (ConnectionManager.leave room ws w1).2 with res.2.
    by rewrite Hredis.
Qed.

End round_trip.

(** X9. [join] followed by [leave] is a round trip for a socket that is
    new to the manager. In every world that a process reaches, if the
    user name and the connection id that the socket is about to draw
    are not empty and the key of that id is not in the store, then
    [join] writes that key, and [leave] right after it restores the
    store (its keys and its subscriptions), the room sets, the
    subscribed rooms and the heartbeat tasks exactly as they were; it
    returns the user name, and it reports a global removal exactly when
    the store held no key of the user in the room to begin with. *)
Theorem join_leave_round_trip s d source ops room ws username :
  let w := run ops (boot s d source) in
  let conn_id := uuid_source w (uuid_drawn w) in
  let hb_key := ConnectionManager._heartbeat_key room username conn_id in
  ws_conn_id (manager w) !! ws = None →
  Py.truthy username = true →
  Py.truthy conn_id = true →
  FakeRedis._data (redis w) !! hb_key = None →
  let w1 := (ConnectionManager.join room ws username w).2 in
  let res := ConnectionManager.leave room ws w1 in
  FakeRedis._data (redis w1) !! hb_key =
    Some ("1", HEARTBEAT_TTL_MS (settings w)) ∧
  redis res.2 = redis w ∧
  rooms (manager res.2) = rooms (manager w) ∧
  room_subscribed (manager res.2) = room_subscribed (manager w) ∧
  heartbeat_tasks (manager res.2) = heartbeat_tasks (manager w) ∧
  (∀ ws0, rooms_of (manager res.2) ws0 = rooms_of (manager w) ws0) ∧
  res.1.2 = Some username ∧
  (res.1.1 = true ↔ ¬ presence_key_exists (redis w) room username).
Proof.
  intros w. apply join_leave_fresh.
  - apply run_registry_inv.
  - apply run_subscription_inv.
Qed.

(** Bob comes and goes while alice is in the lobby on socket 1. *)
Lemma join_leave_round_trip_witness :
  let w := lobby_with_alice in
  let hb_key := "presence:hb:lobby:bob:c1" in
  let w1 := (ConnectionManager.join "lobby" 2 "bob" w).2 in
  let res := ConnectionManager.leave "lobby" 2 w1 in
  FakeRedis._data (redis w1) !! hb_key =
    Some ("1", HEARTBEAT_TTL_MS (settings w)) ∧
  redis res.2 = redis w ∧
  rooms (manager res.2) = rooms (manager w) ∧
  room_subscribed (manager res.2) = room_subscribed (manager w) ∧
  heartbeat_tasks (manager res.2) = heartbeat_tasks (manager w) ∧
  (∀ ws0, rooms_of (manager res.2) ws0 = rooms_of (manager w) ws0) ∧
  res.1.2 = Some "bob" ∧
  (res.1.1 = true ↔ ¬ presence_key_exists (redis w) "lobby" "bob").
Proof.
  apply (join_leave_round_trip (default_settings "srv-a")
           (mkDatabase [alice] [] [] [] 0) demo_uuid
           [OpFrame 1 alice (join_frame "lobby")] "lobby" 2 "bob");
    reflexivity.
Defined.

(** ** Connection ids *)

Section connection_ids.

Lemma run_op_conn_id o ws c w :
  ws_conn_id (manager w) !! ws = Some c →
  Py.truthy c = true →
  o ≠ OpLeaveAll ws →
  ws_conn_id (manager (run_op o w)) !! ws = Some c.
Proof.
  intros Hc Ht Ho.
  assert (∀ room ws0 username w0,
            ws_conn_id (manager w0) !! ws = Some c →
            ws_conn_id (manager (ConnectionManager.join room ws0 username w0).2)
              !! ws = Some c) as Hjoin.
  { intros room ws0 username w0 Hc0.
    destruct (join_ws_conn_id room ws0 username w0) as (c' & -> & Hsame).
    destruct (decide (ws0 = ws)) as [->|Hne].
    - rewrite lookup_insert_eq. f_equal. by apply Hsame.
    - by rewrite lookup_insert_ne. }
  destruct o as [room ws0 username|room ws0|ws0|ws0 user msg]; cbn [run_op].
  - by apply Hjoin.
  - unfold exec. by rewrite leave_ws_conn_id.
  - assert (ws0 ≠ ws) as Hne by congruence.
    unfold exec. rewrite leave_all_run. cbn [snd add_events manager].
    destruct (forget_manager ws0
                (leaves ws0 (elements (rooms_of (manager w) ws0)) w))
      as (_ & _ & _ & -> & _).
    rewrite lookup_delete_ne by done.
    by destruct (leaves_names ws0 (elements (rooms_of (manager w) ws0)) w)
      as [_ ->].
  - destruct (handle_message_world ws0 user msg w)
      as [(room & evs & ->)|[(room & evs & ->)|(evs & d & ->)]].
    + cbn [add_events manager]. by apply Hjoin.
    + cbn [add_events manager]. by rewrite leave_ws_conn_id.
    + done.
Qed.

End connection_ids.

(** X10. The connection id of a socket is stable for its lifetime: once a
    socket has a non-empty connection id, no join, leave or frame of
    this or any other socket and no disconnect of another socket
    changes it; only [leave_all] for the socket itself drops it. *)
Theorem connection_id_stable ops ws c w :
  ws_conn_id (manager w) !! ws = Some c →
  Py.truthy c = true →
  OpLeaveAll ws ∉ ops →
  ws_conn_id (manager (run ops w)) !! ws = Some c ∧
  ws_conn_id (manager (run (ops ++ [OpLeaveAll ws]) w)) !! ws = None.
Proof.
  intros Hc Ht Hops.
  assert (ws_conn_id (manager (run ops w)) !! ws = Some c) as Hrun.
  { revert w Hc. induction ops as [|o ops IH]; intros w Hc; [done|].
    apply not_elem_of_cons in Hops as [Ho Hops].
    cbn. apply IH; [done|]. apply run_op_conn_id; done. }
  split; [done|].
  unfold run. rewrite foldl_app. cbn [foldl run_op].
  unfold exec. rewrite leave_all_run. cbn [snd add_events manager].
  destruct (forget_manager ws
              (leaves ws (elements (rooms_of (manager (run ops w)) ws))
                 (run ops w)))
    as (_ & _ & _ & Hids & _).
  unfold run in Hids. rewrite Hids. apply lookup_delete_eq.
Qed.

(** Alice's id survives bob's visit and her own change of room. *)
Lemma connection_id_stable_witness :
  let ops := [OpFrame 2 alice (join_frame "den");
              OpFrame 1 alice (leave_frame "lobby");
              OpFrame 1 alice (join_frame "den");
              OpLeaveAll 2] in
  ws_conn_id (manager (run ops lobby_with_alice)) !! 1%nat = Some "c0" ∧
  ws_conn_id (manager (run (ops ++ [OpLeaveAll 1%nat]) lobby_with_alice))
    !! 1%nat = None.
Proof.
  apply connection_id_stable; [reflexivity|reflexivity|].
  intros H. repeat (apply elem_of_cons in H as [H|H]; [congruence|]).
  by apply elem_of_nil in H.
Defined.

(** ** The bus: publications and the reader *)

Section bus.

Lemma leave_announcement_tagged w room uname :
  Forall (well_tagged (settings w)) (leave_announcement w room uname).
Proof.
  unfold leave_announcement. cbn zeta.
  rewrite !Forall_app. split_and!;
    try (apply Forall_fmap, Forall_forall; by intros);
    apply Forall_singleton; cbn; eauto.
Qed.

Lemma join_announcement_tagged w room ws username :
  Forall (well_tagged (settings w)) (join_announcement w room ws username).
Proof.
  unfold join_announcement. cbn zeta.
  rewrite !Forall_app. split_and!;
    try (apply Forall_fmap, Forall_forall; by intros);
    apply Forall_singleton; cbn; eauto.
Qed.

Lemma history_frame_tagged s w ws room room_id :
  Forall (well_tagged s) (history_frame w ws room room_id).
Proof.
  unfold history_frame. destruct (history_rows _ _); by repeat constructor.
Qed.

Lemma leaves_trace ws rs w : trace (leaves ws rs w) = trace w.
Proof.
  revert w. induction rs as [|r rs IH]; intros w; [done|].
  by rewrite leaves_cons, IH, leave_trace.
Qed.

Lemma handle_chat_events ws user (msg : gmap string json) w :
  ∃ evs d,
    exec (handle_chat ws user msg) w = add_events evs (exec (set_db d) w) ∧
    Forall (well_tagged (settings w)) evs.
Proof.
  assert (∀ data, ∃ evs' d,
            add_events [Sent ws data] w = add_events evs' (exec (set_db d) w) ∧
            Forall (well_tagged (settings w)) evs') as Hsame.
  { intros data. exists [Sent ws data], (db w).
    split; [by destruct w|by repeat constructor]. }
  unfold handle_chat, exec at 1.
  destruct (msg_get msg "room") as [| | | |room| |];
    destruct (msg_get msg "message") as [| | | |content| |];
    try apply Hsame.
  rewrite bind_run, in_room_run. cbn.
  destruct (bool_decide _); [|apply Hsame].
  rewrite bind_run. unfold gets at 1. cbn.
  destruct (select_room _ _) as [chat_room_obj|]; [|apply Hsame].
  destruct (select_member _ _ _) as [member|]; [|apply Hsame].
  destruct (RoomMemberORM_is_banned member); [apply Hsame|].
  destruct (RoomMemberORM_is_muted member); [apply Hsame|].
  unfold mbind, M_bind, set_db, modify, peers, gets, exec. run_sends.
  eexists _, _. split; [same_trace|].
  rewrite Forall_app. split.
  - apply Forall_fmap, Forall_forall. by intros.
  - apply Forall_singleton. cbn. eauto.
Qed.

Lemma handle_typing_events ws user (msg : gmap string json) w :
  ∃ evs,
    handle_typing ws user msg w = ((), add_events evs w) ∧
    Forall (well_tagged (settings w)) evs.
Proof.
  unfold handle_typing.
  destruct (msg_get msg "room") as [| | | |room| |];
    try (eexists; split; [reflexivity|by repeat constructor]).
  rewrite bind_run, in_room_run. cbn.
  destruct (bool_decide _);
    [|eexists; split; [reflexivity|by repeat constructor]].
  unfold mbind, M_bind, peers, gets. run_sends.
  eexists. split; [same_trace|].
  rewrite Forall_app. split.
  - apply Forall_fmap, Forall_forall. by intros.
  - apply Forall_singleton. cbn. eauto.
Qed.

Lemma handle_message_events ws user (msg : gmap string json) w :
  settings (exec (handle_message ws user msg) w) = settings w ∧
  ∃ evs,
    trace (exec (handle_message ws user msg) w) = trace w ++ evs ∧
    Forall (well_tagged (settings w)) evs.
Proof.
  assert (∀ data,
            settings (exec (send_json ws data) w) = settings w ∧
            ∃ evs, trace (exec (send_json ws data) w) = trace w ++ evs ∧
                   Forall (well_tagged (settings w)) evs) as Hsend.
  { intros data. split; [done|]. exists [Sent ws data].
    split; [done|by repeat constructor]. }
  unfold handle_message.
  destruct (msg_get msg "type") as [| | | |mtype| |]; try apply Hsend.
  repeat case_match; try apply Hsend.
  - destruct (msg_get msg "room") as [| | | |room| |] eqn:Hroom;
      try (unfold handle_join; rewrite Hroom; apply Hsend).
    unfold exec.
    rewrite (handle_join_run ws user msg w room Hroom _ _
               (surjective_pairing _)).
    cbn [snd add_events settings trace].
    rewrite join_settings, join_trace. split; [done|].
    eexists. split; [reflexivity|].
    rewrite !Forall_app. split_and!.
    + by repeat constructor.
    + apply history_frame_tagged.
    + destruct (_.1); [|done].
      pose proof (join_settings room ws (UserORM_username user)
                    (before_join user w room)) as Hs.
      change (settings (before_join user w room)) with (settings w) in Hs.
      rewrite <- Hs. apply join_announcement_tagged.
  - destruct (msg_get msg "room") as [| | | |room| |] eqn:Hroom;
      try (unfold handle_leave, exec; rewrite Hroom; split; [done|];
           exists []; by rewrite app_nil_r).
    destruct (decide (room ∈ rooms_of (manager w) ws)) as [Hin|Hout].
    + unfold exec. rewrite (handle_leave_run ws msg w room) by done.
      cbn [snd add_events settings trace].
      rewrite leave_settings, leave_trace. split; [done|].
      eexists. split; [reflexivity|].
      unfold leave_events. destruct (_.2) as [uname|]; [|done].
      destruct (_ && _); [|done].
      rewrite <- (leave_settings room ws w).
      apply leave_announcement_tagged.
    + unfold exec. rewrite handle_leave_not_joined.
      * split; [done|]. exists []. by rewrite app_nil_r.
      * intros room' Heq. by replace room' with room by congruence.
  - destruct (handle_chat_events ws user msg w) as (evs & d & -> & Hevs).
    split; [done|]. by exists evs.
  - destruct (handle_history_more_world ws msg w) as [data Hdata].
    unfold exec. rewrite Hdata. cbn [snd]. split; [done|].
    exists [Sent ws data]. split; [done|by repeat constructor].
  - destruct (handle_typing_events ws user msg w) as (evs & Hrun & Hevs).
    unfold exec. rewrite Hrun. cbn [snd]. split; [done|]. by exists evs.
Qed.

Lemma run_op_events o w :
  settings (run_op o w) = settings w ∧
  ∃ evs, trace (run_op o w) = trace w ++ evs ∧
         Forall (well_tagged (settings w)) evs.
Proof.
  destruct o as [room ws username|room ws|ws|ws user msg]; cbn [run_op].
  - unfold exec. rewrite join_settings, join_trace. split; [done|].
    exists []. by rewrite app_nil_r.
  - unfold exec. rewrite leave_settings, leave_trace. split; [done|].
    exists []. by rewrite app_nil_r.
  - unfold exec. rewrite leave_all_run. cbn [snd add_events settings trace].
    set (wl := leaves ws _ w).
    destruct (forget_manager ws wl) as (_ & _ & _ & _ & _ & _ & _ & _ & Hs & _ & Ht).
    rewrite Hs, Ht. subst wl. rewrite leaves_settings, leaves_trace.
    split; [done|]. eexists. split; [reflexivity|].
    apply Forall_bind, Forall_forall. intros [room uname] _. cbn.
    rewrite <- (leaves_settings ws (elements (rooms_of (manager w) ws)) w).
    rewrite <- Hs. apply leave_announcement_tagged.
  - apply handle_message_events.
Qed.

Lemma run_events s d source ops :
  settings (run ops (boot s d source)) = s ∧
  Forall (well_tagged s) (trace (run ops (boot s d source))).
Proof.
  assert (∀ w, settings w = s → Forall (well_tagged s) (trace w) →
               settings (run ops w) = s ∧
               Forall (well_tagged s) (trace (run ops w))) as Hrun.
  { induction ops as [|o ops IH]; intros w Hs Ht; [done|].
    cbn. destruct (run_op_events o w) as (Hs' & evs & Ht' & Hevs).
    apply IH; [congruence|].
    rewrite Ht', Forall_app. split; [done|]. by rewrite <- Hs. }
  apply Hrun; [done|]. constructor.
Qed.

End bus.

Section reader.

Lemma run_settings s d source ops : settings (run ops (boot s d source)) = s.
Proof. apply run_events. Qed.

Lemma run_run ops ops' w : run ops' (run ops w) = run (ops ++ ops') w.
Proof. unfold run. by rewrite foldl_app. Qed.

Lemma published_well_tagged s d source ops channel srv data :
  Published channel srv data ∈ trace (run ops (boot s d source)) →
  srv = SERVER_ID s ∧
  ∃ room, frame_room data = Some room ∧ channel = CHANNEL_PREFIX +:+ room.
Proof.
  intros Hin. destruct (run_events s d source ops) as [_ Htagged].
  rewrite Forall_forall in Htagged. apply (Htagged _ Hin).
Qed.

End reader.

(** X11. A process never echoes itself. Whatever a process has published
    in a run carries its own [SERVER_ID] and went to the channel of the
    room that the payload names; when such a message comes back over
    the bus, the reader of that process, at any later time, forwards it
    to no socket. Local sockets get the payload from the local fan-out
    only. *)
Theorem own_publications_not_echoed s d source ops channel srv data :
  let w := run ops (boot s d source) in
  Published channel srv data ∈ trace w →
  srv = SERVER_ID s ∧
  (∃ room, frame_room data = Some room ∧ channel = CHANNEL_PREFIX +:+ room) ∧
  ∀ ops', _pubsub_reader (mkPubSubMessage "message" (Some srv) data)
            (run ops' w) = [].
Proof.
  intros w Hin.
  destruct (published_well_tagged s d source ops channel srv data Hin)
    as [-> Hroom].
  split_and!; try done.
  intros ops'. subst w. rewrite run_run. unfold _pubsub_reader. cbn.
  rewrite run_settings. by rewrite bool_decide_eq_true_2.
Qed.

(** The diff that announced alice is not sent back to her process. *)
Lemma own_publications_not_echoed_witness :
  "srv-a" = SERVER_ID (default_settings "srv-a") ∧
  (∃ room, frame_room (OutPresenceDiff "lobby" ["alice"] []) = Some room ∧
           "room:lobby" = CHANNEL_PREFIX +:+ room) ∧
  ∀ ops', _pubsub_reader
            (mkPubSubMessage "message" (Some "srv-a")
               (OutPresenceDiff "lobby" ["alice"] []))
            (run ops' lobby_with_alice) = [].
Proof.
  apply (own_publications_not_echoed (default_settings "srv-a")
           (mkDatabase [alice] [] [] [] 0) demo_uuid
           [OpFrame 1 alice (join_frame "lobby")]).
  vm_compute. do 2 apply list_elem_of_further. apply list_elem_of_here.
Defined.

(** X12. What one process publishes reaches the sockets of another.
    For a publication of a run of process A and any world that a
    process B with another [SERVER_ID] reaches: B is subscribed to the
    channel of the publication exactly when it has a local socket in
    the room that the payload names, and B's reader forwards the
    payload, tag included, once to each of B's local sockets in that
    room and to nobody else -- unless the room name is empty, in which
    case the reader drops it. Items of the bus that are no messages are
    skipped. *)
Theorem publication_reaches_subscribers sA dA sourceA opsA sB dB sourceB opsB
    channel srv data :
  let wA := run opsA (boot sA dA sourceA) in
  let wB := run opsB (boot sB dB sourceB) in
  Published channel srv data ∈ trace wA →
  SERVER_ID sB ≠ SERVER_ID sA →
  ∃ room,
    frame_room data = Some room ∧
    (channel ∈ FakeRedis._subscribed (redis wB) ↔
     members (manager wB) room ≠ ∅) ∧
    _pubsub_reader (mkPubSubMessage "message" (Some srv) data) wB =
      (if Py.truthy room
       then (λ ws, Forwarded ws (Some srv) data)
              <$> elements (members (manager wB) room)
       else []) ∧
    NoDup (_pubsub_reader (mkPubSubMessage "message" (Some srv) data) wB) ∧
    ∀ kind, kind ≠ "message" →
            _pubsub_reader (mkPubSubMessage kind (Some srv) data) wB = [].
Proof.
  intros wA wB Hin Hne.
  destruct (published_well_tagged sA dA sourceA opsA channel srv data Hin)
    as (-> & room & Hroom & ->).
  exists room.
  assert (_pubsub_reader
            (mkPubSubMessage "message" (Some (SERVER_ID sA)) data) wB =
          (if Py.truthy room
           then (λ ws, Forwarded ws (Some (SERVER_ID sA)) data)
                  <$> elements (members (manager wB) room)
           else [])) as Hreader.
  { unfold _pubsub_reader. cbn. subst wB. rewrite run_settings.
    rewrite bool_decide_eq_false_2 by congruence.
    rewrite Hroom. by destruct (Py.truthy room). }
  split_and!; try done.
  - destruct (run_subscription_inv sB dB sourceB opsB room) as [H1 H2].
    fold wB in H1, H2. by rewrite H2, H1.
  - rewrite Hreader. destruct (Py.truthy room); [|constructor].
    apply NoDup_fmap_2; [|apply NoDup_elements].
    by intros ws1 ws2 [= ->].
  - intros kind Hkind. unfold _pubsub_reader. cbn.
    apply String.eqb_neq in Hkind. by rewrite Hkind.
Qed.

(** The diff that announced alice reaches bob's socket on the other
    process. *)
Lemma publication_reaches_subscribers_witness :
  ∃ room,
    frame_room (OutPresenceDiff "lobby" ["alice"] []) = Some room ∧
    ("room:lobby" ∈ FakeRedis._subscribed (redis lobby_with_bob) ↔
     members (manager lobby_with_bob) room ≠ ∅) ∧
    _pubsub_reader
      (mkPubSubMessage "message" (Some "srv-a")
         (OutPresenceDiff "lobby" ["alice"] [])) lobby_with_bob =
      (if Py.truthy room
       then (λ ws, Forwarded ws (Some "srv-a")
                     (OutPresenceDiff "lobby" ["alice"] []))
              <$> elements (members (manager lobby_with_bob) room)
       else []) ∧
    NoDup (_pubsub_reader
             (mkPubSubMessage "message" (Some "srv-a")
                (OutPresenceDiff "lobby" ["alice"] [])) lobby_with_bob) ∧
    ∀ kind, kind ≠ "message" →
            _pubsub_reader
              (mkPubSubMessage kind (Some "srv-a")
                 (OutPresenceDiff "lobby" ["alice"] [])) lobby_with_bob = [].
Proof.
  apply (publication_reaches_subscribers (default_settings "srv-a")
           (mkDatabase [alice] [] [] [] 0) demo_uuid
           [OpFrame 1 alice (join_frame "lobby")]
           (default_settings "srv-b")
           (mkDatabase [bob] [] [] [] 0) demo_uuid
           [OpFrame 7 bob (join_frame "lobby")]).
  - vm_compute. do 2 apply list_elem_of_further. apply list_elem_of_here.
  - discriminate.
Defined.

(** Bob's socket gets the diff, tagged with the process it came from. *)
Example bob_hears_of_alice :
  _pubsub_reader
    (mkPubSubMessage "message" (Some "srv-a")
       (OutPresenceDiff "lobby" ["alice"] [])) lobby_with_bob =
  [Forwarded 7 (Some "srv-a") (OutPresenceDiff "lobby" ["alice"] [])].
Proof. reflexivity. Qed.

(** ** The presence snapshot of names without colons *)

Section exact_snapshot.

Lemma split_room_prefix room rest :
  Py.contains room ":" = false →
  Py.split (((HEARTBEAT_KEY_PREFIX +:+ room) +:+ ":") +:+ rest) ":" =
  "presence" :: "hb" :: room :: Py.split rest ":".
Proof.
  intros Hroom. rewrite !app_assoc'.
  change (HEARTBEAT_KEY_PREFIX +:+ ?s)
    with ("presence" +:+ String ":" ("hb" +:+ String ":" s)).
  rewrite !split_field by done.
  change (":" +:+ ?s) with (String ":" s).
  by rewrite split_field.
Qed.

End exact_snapshot.

(** X13. The presence snapshot when names hold no colon. If every key in
    the store is the heartbeat key of a room and a user whose names
    hold no colon, then for a room whose name holds none the snapshot
    of the join branch is sorted, names nobody twice, and names exactly
    the users that have at least one heartbeat key in that room,
    however many connections each of them holds. *)
Theorem presence_snapshot_exact w room :
  Py.contains room ":" = false →
  (∀ k, is_Some (FakeRedis._data (redis w) !! k) →
        ∃ r u c, k = ConnectionManager._heartbeat_key r u c ∧
                 Py.contains r ":" = false ∧ Py.contains u ":" = false) →
  Sorted String.le (snapshot w room) ∧
  NoDup (snapshot w room) ∧
  (∀ u, u ∈ snapshot w room →
        Py.contains u ":" = false ∧ presence_key_exists (redis w) room u) ∧
  (∀ u, Py.contains u ":" = false →
        presence_key_exists (redis w) room u → u ∈ snapshot w room).
Proof.
  intros Hroom Hkeys. split_and!.
  - apply snapshot_sorted.
  - apply snapshot_NoDup.
  - intros u (k & Hk & [rest Hrest] & Hu)%elem_of_snapshot.
    destruct (Hkeys k Hk) as (r & u' & c & Hkey & Hr & Hu').
    assert (Py.split k ":" = "presence" :: "hb" :: r :: u' :: Py.split c ":")
      as Hsplit1 by (rewrite Hkey; by apply split_heartbeat_key).
    assert (Py.split k ":" = "presence" :: "hb" :: room :: Py.split rest ":")
      as Hsplit2 by (rewrite Hrest; by apply split_room_prefix).
    rewrite Hsplit1 in Hsplit2. injection Hsplit2 as -> _.
    rewrite Hkey, key_user_heartbeat_key in Hu by done.
    injection Hu as <-. split; [done|].
    exists c. by rewrite <- Hkey.
  - intros u Hu [c Hc]. apply elem_of_snapshot.
    exists (ConnectionManager._heartbeat_key room u c). split_and!; [done| |].
    + exists (u +:+ ":" +:+ c).
      unfold ConnectionManager._heartbeat_key. by rewrite !app_assoc'.
    + by apply key_user_heartbeat_key.
Qed.

(** Alice alone in the lobby. *)
Lemma presence_snapshot_exact_witness :
  Sorted String.le (snapshot lobby_with_alice "lobby") ∧
  NoDup (snapshot lobby_with_alice "lobby") ∧
  (∀ u, u ∈ snapshot lobby_with_alice "lobby" →
        Py.contains u ":" = false ∧
        presence_key_exists (redis lobby_with_alice) "lobby" u) ∧
  (∀ u, Py.contains u ":" = false →
        presence_key_exists (redis lobby_with_alice) "lobby" u →
        u ∈ snapshot lobby_with_alice "lobby").
Proof.
  apply presence_snapshot_exact; [reflexivity|].
  intros k Hk. exists "lobby", "alice", "c0". split; [|done].
  assert (FakeRedis._data (redis lobby_with_alice) =
          {[ "presence:hb:lobby:alice:c0" := ("1", 30000) ]}) as Hdata
    by reflexivity.
  rewrite Hdata in Hk. destruct Hk as [v Hv].
  apply lookup_singleton_Some in Hv as [<- _]. reflexivity.
Defined.

(** ** The stand-in store *)

Section fake_redis.
Implicit Types r : FakeRedis.t.

Lemma app_empty_r (s : string) : s +:+ "" = s.
Proof. induction s as [|a s IH]; [done|]. by rewrite app_cons, IH. Qed.

Lemma elem_of_scan_star r cursor p count k :
  k ∈ (FakeRedis.scan r cursor (p +:+ "*") count).2 ↔
  is_Some (FakeRedis._data r !! k) ∧ ∃ rest, k = p +:+ rest.
Proof.
  unfold FakeRedis.scan. cbn [snd].
  rewrite endswith_app, but_last_app by done. cbn [Py.endswith Py.but_last].
  rewrite Ascii.eqb_refl, app_empty_r.
  rewrite list_elem_of_filter, elem_of_keys, Is_true_true, startswith_iff.
  tauto.
Qed.

Lemma scan_no_star r cursor p count :
  Py.endswith p "*" = false →
  FakeRedis.scan r cursor p count = FakeRedis.scan r cursor (p +:+ "*") count.
Proof.
  intros Hp. unfold FakeRedis.scan.
  rewrite endswith_app, but_last_app by done. cbn [Py.endswith Py.but_last].
  by rewrite Hp, Ascii.eqb_refl, app_empty_r.
Qed.

Lemma scan_NoDup r cursor pat count : NoDup (FakeRedis.scan r cursor pat count).2.
Proof.
  unfold FakeRedis.scan, FakeRedis.keys. cbn [snd].
  apply NoDup_filter, NoDup_fst_map_to_list.
Qed.

End fake_redis.

(** X14. The stand-in store. [scan] is one pass that ignores the cursor
    and the count: it answers cursor 0 and, without repetition, exactly
    the keys present that start with the text before the final star; a
    pattern without a final star is taken as a prefix just the same.
    [psetex] makes the key present whatever the TTL, [delete] makes it
    absent, and neither changes which other keys a scan finds. *)
Theorem fake_redis_scan r cursor count p key ttl value :
  (∀ k, k ∈ (FakeRedis.scan r cursor (p +:+ "*") count).2 ↔
        is_Some (FakeRedis._data r !! k) ∧ ∃ rest, k = p +:+ rest) ∧
  (Py.endswith p "*" = false →
   FakeRedis.scan r cursor p count = FakeRedis.scan r cursor (p +:+ "*") count) ∧
  FakeRedis.scan r cursor (p +:+ "*") count = FakeRedis.scan r 0 (p +:+ "*") 0 ∧
  (FakeRedis.scan r cursor (p +:+ "*") count).1 = 0 ∧
  NoDup (FakeRedis.scan r cursor (p +:+ "*") count).2 ∧
  (key ∈ (FakeRedis.scan (FakeRedis.psetex key ttl value r) cursor
            (p +:+ "*") count).2 ↔ ∃ rest, key = p +:+ rest) ∧
  key ∉ (FakeRedis.scan (FakeRedis.delete key r) cursor (p +:+ "*") count).2 ∧
  (∀ k, k ≠ key →
        (k ∈ (FakeRedis.scan (FakeRedis.psetex key ttl value r) cursor
                (p +:+ "*") count).2 ↔
         k ∈ (FakeRedis.scan r cursor (p +:+ "*") count).2) ∧
        (k ∈ (FakeRedis.scan (FakeRedis.delete key r) cursor
                (p +:+ "*") count).2 ↔
         k ∈ (FakeRedis.scan r cursor (p +:+ "*") count).2)).
Proof.
  split_and!.
  - intros k. apply elem_of_scan_star.
  - apply scan_no_star.
  - reflexivity.
  - reflexivity.
  - apply scan_NoDup.
  - rewrite elem_of_scan_star. cbn. rewrite lookup_insert_eq. naive_solver.
  - rewrite elem_of_scan_star. cbn. rewrite lookup_delete_eq.
    by intros [[? ?] _].
  - intros k Hk. rewrite !elem_of_scan_star. cbn.
    by rewrite lookup_insert_ne, lookup_delete_ne by done.
Qed.

(** ** History after a chat *)

Section newest.

#[local] Existing Instances newer_first_total newer_first_trans.

(** A row that is strictly newer than every other comes out first. *)
Lemma merge_sort_newest (l : list MessageORM) m :
  (∀ x, x ∈ l → MessageORM_created_at x < MessageORM_created_at m) →
  ∃ rest, merge_sort newer_first (l ++ [m]) = m :: rest.
Proof.
  intros Hnew.
  pose proof (merge_sort_Permutation newer_first (l ++ [m])) as Hperm.
  assert (StronglySorted newer_first (merge_sort newer_first (l ++ [m])))
    as Hsorted by (apply StronglySorted_merge_sort; apply _).
  destruct (merge_sort newer_first (l ++ [m])) as [|h rest].
  { apply Permutation_nil_l in Hperm. by destruct l. }
  exists rest. f_equal.
  assert (h ∈ l ++ [m]) as Hh by (rewrite <- Hperm; left).
  assert (m ∈ h :: rest) as Hm by (rewrite Hperm; set_solver).
  apply elem_of_app in Hh as [Hh|Hh]; [|by apply list_elem_of_singleton in Hh].
  apply Hnew in Hh.
  apply elem_of_cons in Hm as [->|Hm]; [lia|].
  apply StronglySorted_inv in Hsorted as [_ Hall].
  rewrite Forall_forall in Hall. specialize (Hall m Hm).
  unfold newer_first in Hall. lia.
Qed.

Lemma history_rows_newest d room_id m :
  MessageORM_room_id m = room_id →
  (∀ x, x ∈ messages d → MessageORM_room_id x = room_id →
        MessageORM_created_at x < MessageORM_created_at m) →
  ∃ rest,
    history_rows
      (mkDatabase (users d) (room_rows d) (room_members d)
         (messages d ++ [m]) (now d)) room_id =
    (m, username_of d (MessageORM_user_id m)) :: rest.
Proof.
  intros Hroom Hnew. unfold history_rows. cbn [messages].
  rewrite List.filter_app. cbn [List.filter].
  rewrite (proj2 (Z.eqb_eq _ _) Hroom).
  destruct (merge_sort_newest
              (List.filter (λ x, MessageORM_room_id x =? room_id) (messages d)) m)
    as [rest ->].
  { intros x [Hx Hid]%list_elem_of_In%filter_In. apply Hnew.
    - by apply list_elem_of_In.
    - lia. }
  unfold HISTORY_LIMIT. cbn. eauto.
Qed.

End newest.

(** X15. What is said is kept. When a chat frame is accepted while every
    stored message of the room is older than the database clock, the
    next socket to join the room -- on any socket, as any user --
    receives a [history] frame whose last and newest entry is that
    message: its id, its text, its author's name and its timestamp. *)
Theorem chat_then_history ws user (msg : gmap string json) w room content
    chat_room_obj member ws2 user2 :
  msg_get msg "type" = JStr "chat" →
  msg_get msg "room" = JStr room →
  msg_get msg "message" = JStr content →
  room ∈ rooms_of (manager w) ws →
  select_room (db w) room = Some chat_room_obj →
  select_member (db w) (RoomORM_id chat_room_obj) (UserORM_id user)
    = Some member →
  RoomMemberORM_is_banned member = false →
  RoomMemberORM_is_muted member = false →
  username_of (db w) (Some (UserORM_id user)) = Some (UserORM_username user) →
  (∀ m, m ∈ messages (db w) →
        MessageORM_room_id m = RoomORM_id chat_room_obj →
        MessageORM_created_at m < now (db w)) →
  let w1 := exec (handle_message ws user msg) w in
  let w2 := exec (handle_message ws2 user2 (join_frame room)) w1 in
  ∃ earlier message_id,
    (∀ m, m ∈ messages (db w) → MessageORM_id m < message_id) ∧
    history room
      (earlier ++
       [OutChatMessage.mk room (UserORM_username user) content
          (Some message_id) (Some (now (db w)))])
      ∈ sent_to ws2 (events_after w1 w2).
Proof.
  intros Htype Hr Hc Hin Hroom Hmember Hban Hmute Hauthor Hnew w1 w2.
  pose proof (handle_chat_run ws user msg w room content chat_room_obj member
                Hr Hc Hin Hroom Hmember Hban Hmute) as Hrun.
  rewrite <- dispatch_chat in Hrun by done. cbn zeta in Hrun.
  set (m := (add_message (db w) (RoomORM_id chat_room_obj) (UserORM_id user)
               content).1) in *.
  assert (db w1 = (add_message (db w) (RoomORM_id chat_room_obj)
                     (UserORM_id user) content).2) as Hdb1.
  { subst w1. unfold exec. by rewrite Hrun. }
  assert (select_room (db w1) room = Some chat_room_obj) as Hroom1
    by (by rewrite Hdb1).
  destruct (ensure_post (db w1) room user2)
    as (_ & Hsame & _ & _ & _ & Husers & Hmsgs & Hnow).
  destruct (Hsame _ Hroom1) as [Hobj Hrows].
  subst w2. unfold exec at 1. rewrite dispatch_join by done.
  rewrite (handle_join_run ws2 user2 (join_frame room) w1 room eq_refl _ _
             (surjective_pairing _)).
  cbn [snd]. rewrite events_after_same_trace
    by (by rewrite join_trace).
  rewrite Hobj.
  set (w' := (ConnectionManager.join room ws2 (UserORM_username user2)
                (before_join user2 w1 room)).2).
  assert (history_rows (db w') (RoomORM_id chat_room_obj) =
          history_rows
            (mkDatabase (users (db w)) (room_rows (db w)) (room_members (db w))
               (messages (db w) ++ [m]) (now (db w)))
            (RoomORM_id chat_room_obj)) as Hrows'.
  { subst w'. rewrite join_db. cbn [before_join exec set_db modify snd db].
    unfold history_rows, username_of. rewrite Husers, Hmsgs, Hdb1. done. }
  destruct (history_rows_newest (db w) (RoomORM_id chat_room_obj) m)
    as [rest Hhist]; [done|exact Hnew|].
  exists (history_entry room <$> reverse rest), (MessageORM_id m). split.
  { intros x Hx. cbn. apply next_id_fresh. by apply list_elem_of_fmap_2. }
  rewrite !sent_to_app. apply elem_of_app. right. apply elem_of_app. left.
  unfold history_frame. rewrite Hrows', Hhist.
  rewrite sent_to_self. cbn [sent_to omap list_omap].
  rewrite reverse_cons, fmap_app. cbn [fmap list_fmap].
  change (MessageORM_user_id m) with (Some (UserORM_id user)).
  rewrite Hauthor.
  assert (history_entry room (m, Some (UserORM_username user)) =
          OutChatMessage.mk room (UserORM_username user) content
            (Some (MessageORM_id m)) (Some (now (db w)))) as ->.
  { unfold history_entry. cbn. by destruct (UserORM_username user). }
  left.
Qed.

(** Alice says "hi" in the lobby; bob joins on socket 2 afterwards. *)
Lemma chat_then_history_witness :
  let w1 := exec (handle_message 1 alice (chat_frame "lobby" "hi"))
              lobby_with_alice in
  let w2 := exec (handle_message 2 bob (join_frame "lobby")) w1 in
  ∃ earlier message_id,
    (∀ m, m ∈ messages (db lobby_with_alice) → MessageORM_id m < message_id) ∧
    history "lobby"
      (earlier ++
       [OutChatMessage.mk "lobby" "alice" "hi" (Some message_id)
          (Some (now (db lobby_with_alice)))])
      ∈ sent_to 2 (events_after w1 w2).
Proof.
  apply (chat_then_history 1 alice (chat_frame "lobby" "hi") lobby_with_alice
           "lobby" "hi" (mkRoomORM 1 "lobby" false)
           (mkRoomMemberORM 1 1 1 false false false) 2 bob);
    try reflexivity.
  intros m Hm. by apply elem_of_nil in Hm.
Defined.

(** ** The typing branch, and a repeated join frame *)

Section typing.

Lemma dispatch_typing ws user (msg : gmap string json) w :
  msg_get msg "type" = JStr "typing" →
  handle_message ws user msg w = handle_typing ws user msg w.
Proof. intros H. unfold handle_message. by rewrite H. Qed.

Lemma handle_typing_run ws user (msg : gmap string json) w room :
  msg_get msg "room" = JStr room →
  room ∈ rooms_of (manager w) ws →
  handle_typing ws user msg w =
  let typing_payload :=
    OutTypingMessage room (UserORM_username user)
      (json_truthy (msg_get msg "isTyping")) in
  ((), add_events
         (((λ peer, Sent peer typing_payload)
             <$> elements (members (manager w) room)) ++
          [Published (CHANNEL_PREFIX +:+ room) (SERVER_ID (settings w))
             typing_payload]) w).
Proof.
  intros Hroom Hin. unfold handle_typing. rewrite Hroom.
  rewrite bind_run, in_room_run. cbn.
  rewrite bool_decide_eq_true_2 by done.
  unfold mbind, M_bind, peers, gets. run_sends. same_trace.
Qed.

End typing.

(** X16. A typing frame from a socket in the room is relayed and leaves
    no other trace: the typing payload, with the sender's user name and
    the truth value of the [isTyping] field as Python sees it (a missing
    field counts as false), goes once to every local socket of the
    room, the sender's included in every world a process reaches, and
    to no other socket, and is then published once on the room's
    channel; the world is otherwise unchanged. A typing frame whose
    room is not a string, or from a socket that is not in the room,
    only gets the error "invalid typing". *)
Theorem typing_relayed s d source ops ws user (msg : gmap string json) :
  let w := run ops (boot s d source) in
  msg_get msg "type" = JStr "typing" →
  let answered evs :=
    handle_message ws user msg w = ((), add_events evs w) in
  match msg_get msg "room" with
  | JStr room =>
      if bool_decide (room ∈ rooms_of (manager w) ws) then
        let typing_payload :=
          OutTypingMessage room (UserORM_username user)
            (json_truthy (msg_get msg "isTyping")) in
        ∃ evs,
          answered
            (evs ++ [Published (CHANNEL_PREFIX +:+ room) (SERVER_ID s)
                       typing_payload]) ∧
          sent_to ws evs = [typing_payload] ∧
          (∀ peer, sent_to peer evs =
                   if decide (peer ∈ members (manager w) room)
                   then [typing_payload] else []) ∧
          (msg !! "isTyping" = None →
           typing_payload =
           OutTypingMessage room (UserORM_username user) false)
      else answered [Sent ws (error "invalid typing")]
  | _ => answered [Sent ws (error "invalid typing")]
  end.
Proof.
  intros w Htype answered. subst answered. cbn beta.
  rewrite dispatch_typing by done.
  destruct (msg_get msg "room") as [| | | |room| |] eqn:Hroom;
    try (unfold handle_typing; by rewrite Hroom).
  case_bool_decide as Hin.
  - rewrite (handle_typing_run ws user msg w room) by done. cbn zeta.
    eexists. split_and!.
    + subst w. by rewrite run_settings.
    + rewrite sent_to_fan_out by apply NoDup_elements.
      rewrite decide_True; [done|]. apply elem_of_elements.
      by apply (registry_views _ (run_registry_inv s d source ops)).
    + intros peer. rewrite sent_to_fan_out by apply NoDup_elements.
      destruct (decide (peer ∈ elements _)) as [H|H];
        rewrite elem_of_elements in H;
        [by rewrite decide_True|by rewrite decide_False].
    + intros Hmissing. unfold msg_get. by rewrite Hmissing.
  - unfold handle_typing. rewrite Hroom.
    rewrite bind_run, in_room_run. cbn.
    by rewrite bool_decide_eq_false_2.
Qed.

(** Alice, alone in the lobby, starts typing. *)
Lemma typing_relayed_witness :
  let typing_payload := OutTypingMessage "lobby" "alice" true in
  ∃ evs,
    handle_message 1 alice (typing_frame "lobby" (JStr "yes")) lobby_with_alice =
    ((), add_events
           (evs ++ [Published (CHANNEL_PREFIX +:+ "lobby")
                      (SERVER_ID (default_settings "srv-a")) typing_payload])
           lobby_with_alice) ∧
    sent_to 1 evs = [typing_payload] ∧
    (∀ peer, sent_to peer evs =
             if decide (peer ∈ members (manager lobby_with_alice) "lobby")
             then [typing_payload] else []) ∧
    (typing_frame "lobby" (JStr "yes") !! "isTyping" = None →
     typing_payload = OutTypingMessage "lobby" "alice" false).
Proof.
  exact (typing_relayed (default_settings "srv-a")
           (mkDatabase [alice] [] [] [] 0) demo_uuid
           [OpFrame 1 alice (join_frame "lobby")] 1 alice
           (typing_frame "lobby" (JStr "yes")) eq_refl).
Defined.

Section rejoin.

(** [join] neither reads nor writes the trace. *)
Lemma join_add_events room ws username evs w :
  ConnectionManager.join room ws username (add_events evs w) =
  ((ConnectionManager.join room ws username w).1,
   add_events evs (ConnectionManager.join room ws username w).2).
Proof.
  unfold add_events. unfold_manager.
  split_cases; first [reflexivity | exfalso; tauto].
Qed.

Lemma ensure_again d room user :
  ensure_room_and_membership (ensure_room_and_membership d room user).2 room user
  = ensure_room_and_membership d room user.
Proof.
  destruct (ensure_post d room user) as (Hroom & _ & (member & Hmember & _) & _).
  rewrite (ensure_found _ _ _ _ _ Hroom Hmember). by destruct (ensure_room_and_membership _ _ _).
Qed.

(** The table update of a join frame that was handled before. *)
Lemma before_join_again ws user room evs w :
  let w1 := add_events evs
              (ConnectionManager.join room ws (UserORM_username user)
                 (before_join user w room)).2 in
  before_join user w1 room = w1 ∧
  (ensure_room_and_membership (db w1) room user).1 =
  (ensure_room_and_membership (db w) room user).1.
Proof.
  intros w1.
  assert (db w1 = (ensure_room_and_membership (db w) room user).2) as Hdb
    by (subst w1; cbn; by rewrite join_db).
  rewrite Hdb, ensure_again. split; [|done].
  unfold before_join, exec, set_db, modify. cbn [snd].
  rewrite Hdb, ensure_again, <- Hdb. by destruct w1.
Qed.

End rejoin.

(** X17. A join frame repeated on the same socket for the same room
    changes nothing but the trace: the registry, the store, the tables
    and the count of drawn connection ids stay as the first frame left
    them. If the first frame started the heartbeat of the pair, the
    second one is answered to the sender alone -- the [joined] ack, the
    snapshot and the history frame again -- and announces nothing. *)
Theorem join_frame_repeated ws user room w :
  let w1 := exec (handle_message ws user (join_frame room)) w in
  let w2 := exec (handle_message ws user (join_frame room)) w1 in
  manager w2 = manager w1 ∧ redis w2 = redis w1 ∧ db w2 = db w1 ∧
  uuid_drawn w2 = uuid_drawn w1 ∧
  (heartbeat_tasks (manager w) !! (ws, room) = None →
   events_after w1 w2 =
   [Sent ws (joined room); Sent ws (OutPresenceState room (snapshot w1 room))]
   ++ history_frame w1 ws room
        (RoomORM_id (ensure_room_and_membership (db w) room user).1)).
Proof.
  intros w1 w2.
  set (wj := (ConnectionManager.join room ws (UserORM_username user)
                (before_join user w room)).2).
  assert (∃ evs, w1 = add_events evs wj) as [evs Hw1].
  { subst w1. unfold exec. rewrite dispatch_join by done.
    rewrite (handle_join_run ws user (join_frame room) w room eq_refl _ _
               (surjective_pairing _)).
    by eexists. }
  destruct (before_join_again ws user room evs w) as [Hbefore Hroom].
  fold wj in Hbefore, Hroom. rewrite <- Hw1 in Hbefore, Hroom.
  assert (ConnectionManager.join room ws (UserORM_username user) w1 =
          ((ConnectionManager.join room ws (UserORM_username user) wj).1, w1))
    as Hjoin.
  { rewrite Hw1 at 1. rewrite join_add_events. subst wj.
    by rewrite join_join_world, <- Hw1. }
  assert (w2 =
          add_events
            ([Sent ws (joined room);
              Sent ws (OutPresenceState room (snapshot w1 room))]
             ++ history_frame w1 ws room
                  (RoomORM_id (ensure_room_and_membership (db w) room user).1)
             ++ (if (ConnectionManager.join room ws (UserORM_username user) wj).1
                 then join_announcement w1 room ws (UserORM_username user)
                 else [])) w1) as Hw2.
  { subst w2. unfold exec. rewrite dispatch_join by done.
    rewrite (handle_join_run ws user (join_frame room) w1 room eq_refl
               (ConnectionManager.join room ws (UserORM_username user) wj).1 w1).
    - cbn [snd]. by rewrite Hroom.
    - by rewrite Hbefore. }
  rewrite Hw2. split_and!; try done.
  intros Htask. rewrite events_after_add_events.
  subst wj. rewrite join_join_result by done. by rewrite app_nil_r.
Qed.

(** ** The history frame in a run: the last lines, as they were stored *)

Section storage_order.

#[local] Existing Instances newer_first_total newer_first_trans.












End storage_order.



Example four_lines_in_order :
  let w := run [OpFrame 1 alice (join_frame "lobby");
                OpFrame 1 alice (chat_frame "lobby" "four")]
             (boot (default_settings "srv-a") lobby_with_three_lines demo_uuid) in
  sent_to 2 (events_after w (exec (handle_message 2 bob (join_frame "lobby")) w)) =
  [joined "lobby"; OutPresenceState "lobby" ["alice"; "bob"];
   history "lobby"
     [OutChatMessage.mk "lobby" "alice" "one" (Some 1) (Some 10);
      OutChatMessage.mk "lobby" "bob" "two" (Some 2) (Some 20);
      OutChatMessage.mk "lobby" "alice" "three" (Some 3) (Some 30);
      OutChatMessage.mk "lobby" "alice" "four" (Some 4) (Some 40)]].
Proof. vm_compute. reflexivity. Qed.
